(** * TeacherOpinion: the form client and the opinion-generation contract

    The front end (React + axios) is embedded function by function:
    [utils/api.ts], [utils/clipboard.ts], [types.ts], [App.tsx],
    [components/StudentInfoForm.tsx] and [components/ModelSelector.tsx].
    React state is explicit state passing: every [setState] updater of the
    source is a function from the previous state to the next one, and an
    asynchronous handler takes the outcome of the awaited promise as an
    argument.

    The back end ([services/gemini_service.py]) is not part of the sources;
    its resolver and parser chain are modelled from the specification in
    the modules [ModelResolver], [ResponseParser] and [OpinionService]. *)

From Stdlib Require Import List ZArith NArith Bool Lia String Ascii.
From Stdlib Require Import Permutation.
From Stdlib Require QArith Qminmax.
Import ListNotations.

(** ** JavaScript strings

    A JavaScript string is a finite sequence of UTF-16 code units; [length],
    [slice] and [trim] all count code units. *)

Module JS.

Definition code_unit := N.
Definition jsstring := list code_unit.

Definition length (s : jsstring) : nat := List.length s.

Fixpoint eqb (s t : jsstring) : bool :=
  match s, t with
  | [], [] => true
  | a :: s', b :: t' => N.eqb a b && eqb s' t'
  | _, _ => false
  end.

(** *** Literals

    String literals of the source are written as Rocq strings (UTF-8 bytes)
    and decoded into code units. *)

Definition cont (b : N) : N := N.land b 63.

Definition utf16_of_code_point (cp : N) : list code_unit :=
  if (cp <? 65536)%N then [cp]
  else
    let c := (cp - 65536)%N in
    [(55296 + N.shiftr c 10)%N; (56320 + N.land c 1023)%N].

Fixpoint decode_utf8 (bs : list N) : list code_unit :=
  match bs with
  | [] => []
  | b0 :: r0 =>
      if (b0 <? 128)%N then b0 :: decode_utf8 r0
      else
        match r0 with
        | [] => [65533%N]
        | b1 :: r1 =>
            if (b0 <? 224)%N then
              (N.shiftl (N.land b0 31) 6 + cont b1)%N :: decode_utf8 r1
            else
              match r1 with
              | [] => [65533%N]
              | b2 :: r2 =>
                  if (b0 <? 240)%N then
                    (N.shiftl (N.land b0 15) 12 + N.shiftl (cont b1) 6
                     + cont b2)%N :: decode_utf8 r2
                  else
                    match r2 with
                    | [] => [65533%N]
                    | b3 :: r3 =>
                        utf16_of_code_point
                          (N.shiftl (N.land b0 7) 18 + N.shiftl (cont b1) 12
                           + N.shiftl (cont b2) 6 + cont b3)%N
                        ++ decode_utf8 r3
                    end
              end
        end
  end.

Definition lit (s : string) : jsstring :=
  decode_utf8 (List.map N_of_ascii (list_ascii_of_string s)).

(** *** [String.prototype.trim]

    WhiteSpace and LineTerminator code points of ECMAScript. *)

Definition is_space (c : code_unit) : bool :=
  ((9 <=? c) && (c <=? 13) || (c =? 32) || (c =? 160) || (c =? 5760)
   || (8192 <=? c) && (c <=? 8202) || (c =? 8232) || (c =? 8233)
   || (c =? 8239) || (c =? 8287) || (c =? 12288) || (c =? 65279))%N.

Fixpoint trimStart (s : jsstring) : jsstring :=
  match s with
  | [] => []
  | c :: r => if is_space c then trimStart r else s
  end.

Definition trimEnd (s : jsstring) : jsstring := rev (trimStart (rev s)).

Definition trim (s : jsstring) : jsstring := trimEnd (trimStart s).

(** *** [String.prototype.slice (start, end)]

    Negative positions count from the end; both positions are clamped to
    the string. *)

Definition slice_pos (len p : Z) : Z :=
  if (p <? 0)%Z then Z.max (len + p) 0 else Z.min p len.

Definition slice (s : jsstring) (first last : Z) : jsstring :=
  let len := Z.of_nat (length s) in
  let from := slice_pos len first in
  let to := slice_pos len last in
  firstn (Z.to_nat (Z.max (to - from) 0)) (skipn (Z.to_nat from) s).

(** Truthiness of a string: only the empty string is falsy. *)

Definition truthy (s : jsstring) : bool :=
  match s with [] => false | _ :: _ => true end.

End JS.

(** ** Promises and thrown values

    An awaited promise either fulfils with a value or rejects with a thrown
    value.  A thrown value is an [Error] object carrying a message, or
    anything else ([err instanceof Error] is false for it). *)

Inductive Thrown : Type :=
| ErrorObject (message : JS.jsstring)
| OtherThrown.

Inductive Settled (A : Type) : Type :=
| Fulfilled (value : A)
| Rejected (reason : Thrown).
Arguments Fulfilled {A} value.
Arguments Rejected {A} reason.

(** [err instanceof Error ? err.message : fallback] *)
Definition message_of (err : Thrown) (fallback : JS.jsstring) : JS.jsstring :=
  match err with
  | ErrorObject m => m
  | OtherThrown => fallback
  end.

(** ** types.ts *)

Record StudentInfo : Type := mkStudentInfo {
  name : JS.jsstring;
  goodSubjects : list JS.jsstring;
  weakSubjects : list JS.jsstring;
  personality : list JS.jsstring;
  characteristics : JS.jsstring;
  targetLength : Z;
  modelName : JS.jsstring
}.

Record OpinionData : Type := mkOpinionData {
  opinions : list JS.jsstring
}.

(** ** utils/api.ts: the shared axios instance *)

Module Api.

Inductive Method : Type := GET | POST.

(** The body of [POST /generate-opinions] as [handleGenerate] builds it;
    [None] is the JSON [null]. *)
Record GenerateBody : Type := mkGenerateBody {
  body_name : option JS.jsstring;
  good_subjects : list JS.jsstring;
  weak_subjects : list JS.jsstring;
  body_personality : list JS.jsstring;
  body_characteristics : option JS.jsstring;
  target_length : Z;
  model_name : JS.jsstring
}.

Record RequestConfig : Type := mkRequestConfig {
  baseURL : JS.jsstring;
  timeout : Z;                       (* milliseconds; 0 disables it *)
  contentType : JS.jsstring;
  method : Method;
  url : JS.jsstring;
  data : option GenerateBody
}.

(** [axios.create({ baseURL: '/api', timeout: 60000, headers: ... })]: the
    instance defaults every request of the instance starts from. *)
Record Defaults : Type := mkDefaults {
  default_baseURL : JS.jsstring;
  default_timeout : Z;
  default_contentType : JS.jsstring
}.

Definition api : Defaults :=
  {| default_baseURL := JS.lit "/api";
     default_timeout := 60000;
     default_contentType := JS.lit "application/json" |}.

(** [api.get(url)] and [api.post(url, data)] pass no per-request config, so
    the merged config takes every default of the instance. *)
Definition get_config (u : JS.jsstring) : RequestConfig :=
  {| baseURL := default_baseURL api;
     timeout := default_timeout api;
     contentType := default_contentType api;
     method := GET;
     url := u;
     data := None |}.

Definition post_config (u : JS.jsstring) (d : GenerateBody) : RequestConfig :=
  {| baseURL := default_baseURL api;
     timeout := default_timeout api;
     contentType := default_contentType api;
     method := POST;
     url := u;
     data := Some d |}.

(** Request interceptor: [(config) => config]. *)
Definition request_interceptor (config : RequestConfig) : RequestConfig :=
  config.

(** The payload of an error response, [error.response.data].  It is typed
    [{ detail?: string }]; the optional chaining [data?.detail] also allows
    a missing body, and a body that is plain text has no [detail]
    property. *)
Inductive ErrorData : Type :=
| NoData
| TextData (text : JS.jsstring)
| ObjectData (detail : option JS.jsstring)
             (others : list (JS.jsstring * JS.jsstring)).

Record ErrorResponse : Type := mkErrorResponse {
  status : Z;
  statusText : JS.jsstring;
  response_data : ErrorData
}.

(** An [AxiosError]: [error.response] when the server answered with a
    failure status, [error.request] when a request was made. *)
Record AxiosError : Type := mkAxiosError {
  response : option ErrorResponse;
  request : bool
}.

(** [error.response.data?.detail] *)
Definition data_detail (d : ErrorData) : option JS.jsstring :=
  match d with
  | NoData => None
  | TextData _ => None
  | ObjectData detail _ => detail
  end.

Definition generic_message : JS.jsstring :=
  JS.lit "요청 처리 중 오류가 발생했습니다.".
Definition connection_message : JS.jsstring :=
  JS.lit "서버에 연결할 수 없습니다. 네트워크를 확인해주세요.".
Definition setup_message : JS.jsstring :=
  JS.lit "요청 설정 중 오류가 발생했습니다.".

(** [a || b] on an optional string and a string: [undefined] and the empty
    string are falsy. *)
Definition or_else (a : option JS.jsstring) (b : JS.jsstring) : JS.jsstring :=
  match a with
  | Some s => if JS.truthy s then s else b
  | None => b
  end.

(** [data?.detail || statusText || '...'] *)
Definition response_message (r : ErrorResponse) : JS.jsstring :=
  or_else (Some (or_else (data_detail (response_data r)) (statusText r)))
          generic_message.

(** The rejection handler of the response interceptor: the message of the
    [Error] the promise is rejected with. *)
Definition error_message (error : AxiosError) : JS.jsstring :=
  match response error with
  | Some r => response_message r
  | None =>
      if request error then connection_message else setup_message
  end.

Definition response_interceptor_rejected (error : AxiosError) : Thrown :=
  ErrorObject (error_message error).

(** *** Transport and timeout

    The axios adapter is the library's own code.  Its documented contract:
    a request whose answer has not arrived within [timeout] milliseconds is
    aborted and rejected with an error that has a request and no response;
    [timeout = 0] waits without bound.  Time is counted in whole
    milliseconds from the moment the request is sent. *)

Inductive Answer (A : Type) : Type :=
| Success (value : A)
| Failure (r : ErrorResponse).
Arguments Success {A} value.
Arguments Failure {A} r.

(** What the network does with one request: an answer after some delay,
    a connection failure after some delay, or nothing at all. *)
Inductive Network (A : Type) : Type :=
| Answers (delay : Z) (a : Answer A)
| Drops (delay : Z)
| Silent.
Arguments Answers {A} delay a.
Arguments Drops {A} delay.
Arguments Silent {A}.

Definition timeout_error : AxiosError :=
  {| response := None; request := true |}.

Definition timed_out (config : RequestConfig) (delay : Z) : bool :=
  negb (timeout config =? 0)%Z && (timeout config <=? delay)%Z.

(** The settlement of one request through the instance: the time at which
    the promise settles and what it settles to, or [None] when it stays
    pending forever. *)
Definition send {A : Type} (config : RequestConfig) (net : Network A)
  : option (Z * Settled A) :=
  let config := request_interceptor config in
  let abort :=
    Some (timeout config,
          Rejected (response_interceptor_rejected timeout_error)) in
  match net with
  | Answers delay a =>
      if timed_out config delay then abort
      else
        match a with
        | Success v => Some (delay, Fulfilled v)
        | Failure r =>
            Some (delay,
                  Rejected (response_interceptor_rejected
                              {| response := Some r; request := true |}))
        end
  | Drops delay =>
      if timed_out config delay then abort
      else Some (delay, Rejected (response_interceptor_rejected timeout_error))
  | Silent =>
      if (timeout config =? 0)%Z then None else abort
  end.

(** The network settles the request before [limit] milliseconds. *)
Definition settles_before {A : Type} (net : Network A) (limit : Z) : bool :=
  match net with
  | Answers delay _ => (delay <? limit)%Z
  | Drops delay => (delay <? limit)%Z
  | Silent => false
  end.

(** A 400 response whose body is [{ "detail": "" }]. *)
Definition empty_detail_response : ErrorResponse :=
  {| status := 400;
     statusText := JS.lit "Bad Request";
     response_data := ObjectData (Some []) [] |}.

End Api.

(** ** components/StudentInfoForm.tsx *)

Module StudentInfoForm.

Definition SUBJECTS : list JS.jsstring :=
  List.map JS.lit
    ["국어"; "영어"; "수학"; "과학"; "사회"; "역사"; "체육"; "음악"; "미술"; "기술"]%string.

Definition PERSONALITY_TRAITS : list JS.jsstring :=
  List.map JS.lit
    ["침착함"; "활발함"; "사교적"; "내성적"; "성실함"; "창의적"; "리더십";
     "협동적"; "독립적"; "호기심 많음"]%string.

(** [array.includes(item)] *)
Definition includes (array : list JS.jsstring) (item : JS.jsstring) : bool :=
  existsb (fun i => JS.eqb i item) array.

(** [array.filter((i) => i !== item)] *)
Definition without (array : list JS.jsstring) (item : JS.jsstring)
  : list JS.jsstring :=
  filter (fun i => negb (JS.eqb i item)) array.

Definition toggleArrayItem (array : list JS.jsstring) (item : JS.jsstring)
  : list JS.jsstring :=
  if includes array item then without array item else array ++ [item].

Inductive SubjectType : Type := good | weak.

(** Each handler hands [onChange] an updater [(prev) => ({ ...prev, ... })];
    the definitions below are those updaters. *)

Definition handleSubjectToggle (subject : JS.jsstring) (type : SubjectType)
  (prev : StudentInfo) : StudentInfo :=
  match type with
  | good =>
      {| name := name prev;
         goodSubjects := toggleArrayItem (goodSubjects prev) subject;
         weakSubjects := without (weakSubjects prev) subject;
         personality := personality prev;
         characteristics := characteristics prev;
         targetLength := targetLength prev;
         modelName := modelName prev |}
  | weak =>
      {| name := name prev;
         goodSubjects := without (goodSubjects prev) subject;
         weakSubjects := toggleArrayItem (weakSubjects prev) subject;
         personality := personality prev;
         characteristics := characteristics prev;
         targetLength := targetLength prev;
         modelName := modelName prev |}
  end.

Definition handlePersonalityToggle (trait : JS.jsstring) (prev : StudentInfo)
  : StudentInfo :=
  {| name := name prev;
     goodSubjects := goodSubjects prev;
     weakSubjects := weakSubjects prev;
     personality := toggleArrayItem (personality prev) trait;
     characteristics := characteristics prev;
     targetLength := targetLength prev;
     modelName := modelName prev |}.

Definition handleResetGoodSubjects (prev : StudentInfo) : StudentInfo :=
  {| name := name prev;
     goodSubjects := [];
     weakSubjects := weakSubjects prev;
     personality := personality prev;
     characteristics := characteristics prev;
     targetLength := targetLength prev;
     modelName := modelName prev |}.

Definition handleResetWeakSubjects (prev : StudentInfo) : StudentInfo :=
  {| name := name prev;
     goodSubjects := goodSubjects prev;
     weakSubjects := [];
     personality := personality prev;
     characteristics := characteristics prev;
     targetLength := targetLength prev;
     modelName := modelName prev |}.

Definition handleResetPersonality (prev : StudentInfo) : StudentInfo :=
  {| name := name prev;
     goodSubjects := goodSubjects prev;
     weakSubjects := weakSubjects prev;
     personality := [];
     characteristics := characteristics prev;
     targetLength := targetLength prev;
     modelName := modelName prev |}.

(** *** The name input: [e.target.value.slice(0, 5)] *)

Definition name_onChange (raw : JS.jsstring) (prev : StudentInfo)
  : StudentInfo :=
  let value := JS.slice raw 0 5 in
  {| name := value;
     goodSubjects := goodSubjects prev;
     weakSubjects := weakSubjects prev;
     personality := personality prev;
     characteristics := characteristics prev;
     targetLength := targetLength prev;
     modelName := modelName prev |}.

(** *** The characteristics input: [e.target.value.slice(0, 40)] *)

Definition characteristics_onChange (raw : JS.jsstring) (prev : StudentInfo)
  : StudentInfo :=
  let value := JS.slice raw 0 40 in
  {| name := name prev;
     goodSubjects := goodSubjects prev;
     weakSubjects := weakSubjects prev;
     personality := personality prev;
     characteristics := value;
     targetLength := targetLength prev;
     modelName := modelName prev |}.

(** *** The target-length input

    [parseInt(string)] with no radix: leading white space is skipped, an
    optional sign is read, a [0x]/[0X] prefix selects radix 16, and the
    longest run of digits of the radix is the value; no digit at all gives
    [NaN] ([None] here).

    The result is kept as the exact integer.  The source holds it as a
    double, which rounds integers above 2^53 and overflows to an infinity;
    rounding is monotone and fixes 50 and 100, so the clamped value below
    is the same for the exact integer and for the double. *)

Definition digit_of (c : JS.code_unit) : option Z :=
  if ((48 <=? c) && (c <=? 57))%N then Some (Z.of_N c - 48)%Z
  else if ((97 <=? c) && (c <=? 122))%N then Some (Z.of_N c - 97 + 10)%Z
  else if ((65 <=? c) && (c <=? 90))%N then Some (Z.of_N c - 65 + 10)%Z
  else None.

Fixpoint read_digits (radix : Z) (s : JS.jsstring) (acc : option Z)
  : option Z :=
  match s with
  | [] => acc
  | c :: r =>
      match digit_of c with
      | Some d =>
          if (d <? radix)%Z then
            read_digits radix r
              (Some (match acc with
                     | Some a => a * radix + d
                     | None => d
                     end)%Z)
          else acc
      | None => acc
      end
  end.

Definition parseInt (input : JS.jsstring) : option Z :=
  let s := JS.trimStart input in
  let '(sign, s) :=
    match s with
    | 45%N :: r => ((-1)%Z, r)
    | 43%N :: r => (1%Z, r)
    | _ => (1%Z, s)
    end in
  let '(radix, s) :=
    match s with
    | 48%N :: x :: r =>
        if ((x =? 120) || (x =? 88))%N then (16%Z, r) else (10%Z, s)
    | _ => (10%Z, s)
    end in
  match read_digits radix s None with
  | Some m => Some (sign * m)%Z
  | None => None
  end.

(** [parseInt(e.target.value) || 75]: [NaN] and zero are falsy. *)
Definition parsed_or_default (raw : JS.jsstring) : Z :=
  match parseInt raw with
  | Some v => if (v =? 0)%Z then 75%Z else v
  | None => 75%Z
  end.

Definition targetLength_onChange (raw : JS.jsstring) (prev : StudentInfo)
  : StudentInfo :=
  let value := parsed_or_default raw in
  let clampedValue := Z.min (Z.max value 50) 100 in
  {| name := name prev;
     goodSubjects := goodSubjects prev;
     weakSubjects := weakSubjects prev;
     personality := personality prev;
     characteristics := characteristics prev;
     targetLength := clampedValue;
     modelName := modelName prev |}.

End StudentInfoForm.

(** ** App.tsx *)

Module App.

Record State : Type := mkState {
  studentInfo : StudentInfo;
  opinions : list JS.jsstring;
  isLoading : bool;
  error : option JS.jsstring
}.

Definition initialStudentInfo : StudentInfo :=
  {| name := [];
     goodSubjects := [];
     weakSubjects := [];
     personality := [];
     characteristics := [];
     targetLength := 75;
     modelName := JS.lit "gemini-2.5-flash" |}.

Definition initial : State :=
  {| studentInfo := initialStudentInfo;
     opinions := [];
     isLoading := false;
     error := None |}.

Definition setStudentInfo (f : StudentInfo -> StudentInfo) (st : State)
  : State :=
  {| studentInfo := f (studentInfo st);
     opinions := opinions st;
     isLoading := isLoading st;
     error := error st |}.

Definition setOpinions (o : list JS.jsstring) (st : State) : State :=
  {| studentInfo := studentInfo st;
     opinions := o;
     isLoading := isLoading st;
     error := error st |}.

Definition setIsLoading (b : bool) (st : State) : State :=
  {| studentInfo := studentInfo st;
     opinions := opinions st;
     isLoading := b;
     error := error st |}.

Definition setError (e : option JS.jsstring) (st : State) : State :=
  {| studentInfo := studentInfo st;
     opinions := opinions st;
     isLoading := isLoading st;
     error := e |}.

Definition validation_message : JS.jsstring :=
  JS.lit "최소 하나의 항목은 입력해야 합니다.".
Definition generate_failed_message : JS.jsstring :=
  JS.lit "의견 생성 중 오류가 발생했습니다.".

Definition nonempty {A : Type} (l : list A) : bool :=
  match l with [] => false | _ :: _ => true end.

Definition hasInput (info : StudentInfo) : bool :=
  nonempty (JS.trim (name info))
  || nonempty (goodSubjects info)
  || nonempty (weakSubjects info)
  || nonempty (personality info)
  || nonempty (JS.trim (characteristics info)).

(** [s.trim() || null] *)
Definition trimmed_or_null (s : JS.jsstring) : option JS.jsstring :=
  if JS.truthy (JS.trim s) then Some (JS.trim s) else None.

Definition generate_body (info : StudentInfo) : Api.GenerateBody :=
  {| Api.body_name := trimmed_or_null (name info);
     Api.good_subjects := goodSubjects info;
     Api.weak_subjects := weakSubjects info;
     Api.body_personality := personality info;
     Api.body_characteristics := trimmed_or_null (characteristics info);
     Api.target_length := targetLength info;
     Api.model_name := modelName info |}.

(** [handleGenerate] up to its [await]: the state it leaves and the request
    it has issued, if any. *)
Definition handleGenerate_begin (st : State)
  : State * option Api.RequestConfig :=
  if negb (hasInput (studentInfo st)) then
    (setError (Some validation_message) st, None)
  else
    (setError None (setIsLoading true st),
     Some (Api.post_config (JS.lit "/generate-opinions")
                           (generate_body (studentInfo st)))).

(** [handleGenerate] after the [await]: the [try] body or the [catch],
    then the [finally]. *)
Definition handleGenerate_settle (outcome : Settled OpinionData) (st : State)
  : State :=
  let st' :=
    match outcome with
    | Fulfilled (mkOpinionData data_opinions) => setOpinions data_opinions st
    | Rejected err =>
        setError (Some (message_of err generate_failed_message)) st
    end in
  setIsLoading false st'.

(** One run of [handleGenerate] against a network: the final state and the
    requests issued.  When the request never settles the handler stays
    suspended at its [await]. *)
Definition handleGenerate (net : Api.Network OpinionData) (st : State)
  : State * list Api.RequestConfig :=
  match handleGenerate_begin st with
  | (st', None) => (st', [])
  | (st', Some config) =>
      match Api.send config net with
      | Some (_, outcome) => (handleGenerate_settle outcome st', [config])
      | None => (st', [config])
      end
  end.

Definition handleRefresh (net : Api.Network OpinionData) (st : State)
  : State * list Api.RequestConfig :=
  if nonempty (opinions st) then handleGenerate net st else (st, []).

Definition handleReset (st : State) : State :=
  setError None (setOpinions [] (setStudentInfo (fun _ => initialStudentInfo) st)).

Definition handleModelChange (m : JS.jsstring) (prev : StudentInfo)
  : StudentInfo :=
  {| name := name prev;
     goodSubjects := goodSubjects prev;
     weakSubjects := weakSubjects prev;
     personality := personality prev;
     characteristics := characteristics prev;
     targetLength := targetLength prev;
     modelName := m |}.

(** *** Reachable form states

    Every way the application changes [studentInfo]: the form's handlers
    (through [handleStudentInfoChange]), the model selector and the reset
    shortcut. *)

Inductive Edit : Type :=
| SubjectToggle (subject : JS.jsstring) (type : StudentInfoForm.SubjectType)
| PersonalityToggle (trait : JS.jsstring)
| ResetGoodSubjects
| ResetWeakSubjects
| ResetPersonality
| NameInput (raw : JS.jsstring)
| TargetLengthInput (raw : JS.jsstring)
| CharacteristicsInput (raw : JS.jsstring)
| ModelChange (m : JS.jsstring)
| Reset.

Definition apply_edit (e : Edit) (prev : StudentInfo) : StudentInfo :=
  match e with
  | SubjectToggle subject type =>
      StudentInfoForm.handleSubjectToggle subject type prev
  | PersonalityToggle trait =>
      StudentInfoForm.handlePersonalityToggle trait prev
  | ResetGoodSubjects => StudentInfoForm.handleResetGoodSubjects prev
  | ResetWeakSubjects => StudentInfoForm.handleResetWeakSubjects prev
  | ResetPersonality => StudentInfoForm.handleResetPersonality prev
  | NameInput raw => StudentInfoForm.name_onChange raw prev
  | TargetLengthInput raw => StudentInfoForm.targetLength_onChange raw prev
  | CharacteristicsInput raw =>
      StudentInfoForm.characteristics_onChange raw prev
  | ModelChange m => handleModelChange m prev
  | Reset => initialStudentInfo
  end.

Inductive reachable : StudentInfo -> Prop :=
| reachable_initial : reachable initialStudentInfo
| reachable_edit (e : Edit) (info : StudentInfo) :
    reachable info -> reachable (apply_edit e info).

(** The two subject lists share no element. *)
Definition disjoint_subjects (info : StudentInfo) : Prop :=
  forall s, In s (goodSubjects info) -> ~ In s (weakSubjects info).

(** The length caps of the two text fields, in code units. *)
Definition within_caps (info : StudentInfo) : Prop :=
  (JS.length (name info) <= 5)%nat
  /\ (JS.length (characteristics info) <= 40)%nat.

End App.

(** ** components/ModelSelector.tsx *)

Module ModelSelector.

Record Model : Type := mkModel {
  name : JS.jsstring;
  full_name : JS.jsstring;
  display_name : JS.jsstring
}.

Record ModelsData : Type := mkModelsData {
  models_of : list Model           (* [data.models] *)
}.

Record State : Type := mkState {
  models : list Model;
  isLoading : bool;
  error : option JS.jsstring
}.

Definition initial : State :=
  {| models := []; isLoading := true; error := None |}.

Definition setModels (m : list Model) (st : State) : State :=
  {| models := m; isLoading := isLoading st; error := error st |}.
Definition setIsLoading (b : bool) (st : State) : State :=
  {| models := models st; isLoading := b; error := error st |}.
Definition setError (e : option JS.jsstring) (st : State) : State :=
  {| models := models st; isLoading := isLoading st; error := e |}.

Definition load_failed_message : JS.jsstring :=
  JS.lit "모델 목록을 불러올 수 없습니다.".

Definition fallback_models : list Model :=
  [ {| name := JS.lit "gemini-2.5-flash";
       full_name := JS.lit "models/gemini-2.5-flash";
       display_name := JS.lit "Gemini 2.5 Flash (빠름 · 권장)" |};
    {| name := JS.lit "gemini-2.5-pro";
       full_name := JS.lit "models/gemini-2.5-pro";
       display_name := JS.lit "Gemini 2.5 Pro (고품질)" |};
    {| name := JS.lit "gemini-2.5-flash-lite";
       full_name := JS.lit "models/gemini-2.5-flash-lite";
       display_name := JS.lit "Gemini 2.5 Flash Lite (경량)" |} ].

Definition fetchModels_request : Api.RequestConfig :=
  Api.get_config (JS.lit "/available-models").

(** [fetchModels] once [api.get] has settled. *)
Definition fetchModels_settle (outcome : Settled ModelsData) (st : State)
  : State :=
  let st1 := setIsLoading true st in
  let st2 :=
    match outcome with
    | Fulfilled d => setError None (setModels (models_of d) st1)
    | Rejected err =>
        setModels fallback_models
          (setError (Some (message_of err load_failed_message)) st1)
    end in
  setIsLoading false st2.

(** [fetchModels] against a network; a request that never settles leaves
    the selector loading. *)
Definition fetchModels (net : Api.Network ModelsData) (st : State) : State :=
  match Api.send fetchModels_request net with
  | Some (_, outcome) => fetchModels_settle outcome st
  | None => setIsLoading true st
  end.

End ModelSelector.

(** ** utils/clipboard.ts

    The function runs against a browser: what it does is fixed by whether
    the Clipboard API is there, by the outcome of each call it makes, and
    by the children of [document.body].  Calls that can raise are threaded
    through a small state-and-exception monad. *)

Module Clipboard.

Definition Node := nat.

Record World : Type := mkWorld {
  body : list Node;                  (* children of [document.body] *)
  console : list Thrown              (* what [console.error] was given *)
}.

Inductive Result (A : Type) : Type :=
| Value (a : A)
| Raise (e : Thrown).
Arguments Value {A} a.
Arguments Raise {A} e.

Definition M (A : Type) : Type := World -> Result A * World.

Definition ret {A : Type} (a : A) : M A := fun w => (Value a, w).

Definition throw {A : Type} (e : Thrown) : M A := fun w => (Raise e, w).

Definition bind {A B : Type} (m : M A) (k : A -> M B) : M B :=
  fun w =>
    match m w with
    | (Value a, w') => k a w'
    | (Raise e, w') => (Raise e, w')
    end.

Definition try_catch {A : Type} (m : M A) (handler : Thrown -> M A) : M A :=
  fun w =>
    match m w with
    | (Value a, w') => (Value a, w')
    | (Raise e, w') => handler e w'
    end.

Notation "x <- m ;; k" := (bind m (fun x => k))
  (at level 61, m at next level, right associativity).
Notation "m ;;; k" := (bind m (fun _ => k))
  (at level 61, right associativity).

(** The calls of the function body whose outcome the browser decides. *)
Inductive Call : Type :=
| ReadNavigatorClipboard
| CreateElement
| SetValue
| SetStylePosition
| SetStyleLeft
| SetStyleTop
| AppendChild
| Focus
| Select.

Record Browser : Type := mkBrowser {
  (* [navigator.clipboard && navigator.clipboard.writeText], and how the
     promise of [writeText(text)] settles *)
  writeText : option (JS.jsstring -> Settled unit);
  (* the exception a call raises, if it raises *)
  raises : Call -> option Thrown;
  (* [document.execCommand('copy')]: its boolean, or what it throws *)
  execCommand_copy : Thrown + bool
}.

Section WithBrowser.

Variable browser : Browser.

Definition call (c : Call) : M unit :=
  match raises browser c with
  | Some e => throw e
  | None => ret tt
  end.

Definition await {A : Type} (p : Settled A) : M A :=
  match p with
  | Fulfilled v => ret v
  | Rejected e => throw e
  end.

(** [document.createElement('textarea')]: a node that is not in the
    document. *)
Definition createElement : M Node :=
  call CreateElement ;;;
  fun w => (Value (S (list_max (body w))), w).

Definition appendChild (n : Node) : M unit :=
  call AppendChild ;;;
  fun w => (Value tt, {| body := body w ++ [n]; console := console w |}).

Definition not_found : Thrown := ErrorObject (JS.lit "NotFoundError").

(** [document.body.removeChild(n)] raises when [n] is not a child. *)
Definition removeChild (n : Node) : M unit :=
  fun w =>
    if existsb (Nat.eqb n) (body w) then
      (Value tt,
       {| body := filter (fun m => negb (Nat.eqb n m)) (body w);
          console := console w |})
    else (Raise not_found, w).

Definition execCommand : M bool :=
  match execCommand_copy browser with
  | inr successful => ret successful
  | inl e => throw e
  end.

Definition console_error (err : Thrown) : M unit :=
  fun w => (Value tt, {| body := body w; console := console w ++ [err] |}).

Definition copyToClipboard_body (text : JS.jsstring) : M bool :=
  try_catch
    (call ReadNavigatorClipboard ;;;
     match writeText browser with
     | Some write =>
         await (write text) ;;;
         ret true
     | None =>
         textArea <- createElement ;;
         call SetValue ;;;
         call SetStylePosition ;;;
         call SetStyleLeft ;;;
         call SetStyleTop ;;;
         appendChild textArea ;;;
         call Focus ;;;
         call Select ;;;
         try_catch
           (successful <- execCommand ;;
            removeChild textArea ;;;
            ret successful)
           (fun err =>
              removeChild textArea ;;;
              ret false)
     end)
    (fun err =>
       console_error err ;;;
       ret false).

(** The promise of the [async] function: fulfilled with what the body
    returns, rejected with what it throws. *)
Definition copyToClipboard (text : JS.jsstring) (w : World)
  : Settled bool * World :=
  match copyToClipboard_body text w with
  | (Value b, w') => (Fulfilled b, w')
  | (Raise e, w') => (Rejected e, w')
  end.

End WithBrowser.

(** The fallback path runs up to [document.execCommand] when the Clipboard
    API is missing and no earlier call raises. *)
Definition reaches_execCommand (browser : Browser) : Prop :=
  writeText browser = None /\ forall c, raises browser c = None.

(** A copy mechanism reports success. *)
Definition reports_success (browser : Browser) (text : JS.jsstring) : Prop :=
  (exists write, writeText browser = Some write /\ write text = Fulfilled tt)
  \/ (writeText browser = None /\ execCommand_copy browser = inr true).

(** What the fallback reports: the boolean of [execCommand], [false] when
    it throws. *)
Definition execCommand_result (browser : Browser) : bool :=
  match execCommand_copy browser with
  | inr successful => successful
  | inl _ => false
  end.

(** A browser without the Clipboard API in which [execCommand('copy')]
    succeeds. *)
Definition legacy_browser : Browser :=
  {| writeText := None;
     raises := fun _ => None;
     execCommand_copy := inr true |}.

Definition empty_document : World := {| body := []; console := [] |}.

End Clipboard.

(** ** The opinion-generation core

    [backend/app/services/gemini_service.py] is not among the sources.  The
    modules below follow the specification's component design (sections 3,
    4 and 7), one module per component. *)

Module Core.

Open Scope string_scope.

(** *** Data model *)

(** Modelled from the spec: the StudentAttributes entity of section 3
    (the request schema of the missing [api/routes.py]). *)
Record StudentAttributes : Type := mkStudentAttributes {
  name : option string;
  goodSubjects : list string;
  weakSubjects : list string;
  personalityTraits : list string;
  characteristics : option string;
  targetLength : Z
}.

(** Modelled from the spec: the ModelDescriptor entity of section 3 (built
    by the missing [gemini_service.py]); its identity key is [name]. *)
Record ModelDescriptor : Type := mkModelDescriptor {
  descriptor_name : string;
  fullName : string;
  displayName : string
}.

(** Modelled from the spec: the ModelCatalogSnapshot entity of section 3
    (the model cache of the missing [gemini_service.py]). *)
Record ModelCatalogSnapshot : Type := mkSnapshot {
  descriptors : list ModelDescriptor;
  fetched_at : N
}.

(** Modelled from the spec: the GenerationRequest entity of section 3. *)
Record GenerationRequest : Type := mkGenerationRequest {
  effective_model : string;
  prompt : string;
  length_hint : Z
}.

Definition RawResponse := string.
Definition Opinion := string.

(** Modelled from the spec: the provider failure classes of section 6. *)
Inductive FailureKind : Type := transient | policy | quota.

(** Modelled from the spec: the error kinds of section 7. *)
Inductive Error : Type :=
| ValidationError
| ModelUnavailable
| ProviderError (kind : FailureKind)
| ParseError (raw : RawResponse).

(** Modelled from the spec: the provider contract of section 6,
    [listModels] and [generateText]; the attempt number lets a provider
    answer a retry differently. *)
Record Provider : Type := mkProvider {
  listModels : option (list ModelDescriptor);
  generateText : nat -> GenerationRequest -> FailureKind + RawResponse
}.

End Core.

Module ModelCatalog.
Import Core.
Open Scope string_scope.

Definition describe (n label : string) : ModelDescriptor :=
  {| descriptor_name := n;
     fullName := "models/" ++ n;
     displayName := label |}.

(** Modelled from the spec: the built-in static fallback snapshot of three
    well-known models of section 4.1 (missing [gemini_service.py]); the
    three names are those of the client's own fallback list. *)
Definition static_fallback : ModelCatalogSnapshot :=
  {| descriptors :=
       [ describe "gemini-2.5-flash" "Gemini 2.5 Flash";
         describe "gemini-2.5-pro" "Gemini 2.5 Pro";
         describe "gemini-2.5-flash-lite" "Gemini 2.5 Flash Lite" ];
     fetched_at := 0 |}.

(** Modelled from the spec: the process-wide cache of section 4.1
    (missing [gemini_service.py]): the last snapshot, if any, and whether
    the catalog is running on the static fallback. *)
Record Cache : Type := mkCache {
  cached : option ModelCatalogSnapshot;
  degraded : bool
}.

Definition empty_cache : Cache := {| cached := None; degraded := false |}.

(** Modelled from the spec: [ModelCatalog.refresh] of section 4.1
    (missing [gemini_service.py]). *)
Definition refresh (p : Provider) (now : N) (c : Cache)
  : ModelCatalogSnapshot * Cache :=
  match listModels p with
  | Some ds =>
      let s := {| descriptors := ds; fetched_at := now |} in
      (s, {| cached := Some s; degraded := false |})
  | None =>
      match cached c with
      | Some s => (s, c)
      | None => (static_fallback, {| cached := None; degraded := true |})
      end
  end.

(** Modelled from the spec: [ModelCatalog.current] of section 4.1
    (missing [gemini_service.py]). *)
Definition current (p : Provider) (now : N) (c : Cache)
  : ModelCatalogSnapshot * Cache :=
  match cached c with
  | Some s => (s, c)
  | None => refresh p now c
  end.

End ModelCatalog.

Module ModelResolver.
Import Core.
Open Scope string_scope.

Definition flash_tier : string := "gemini-2.5-flash".
Definition pro_tier : string := "gemini-2.5-pro".

Definition find_by_name (n : string) (s : ModelCatalogSnapshot)
  : option ModelDescriptor :=
  find (fun d => String.eqb (descriptor_name d) n) (descriptors s).

(** Modelled from the spec: [ModelResolver.resolve] of section 4.2, the
    model fallback order of the missing [gemini_service.py]: requested
    model, then gemini-2.5-flash, then gemini-2.5-pro, then the first
    available model. *)
Definition resolve (requestedName : string) (snapshot : ModelCatalogSnapshot)
  : Error + ModelDescriptor :=
  match find_by_name requestedName snapshot with
  | Some d => inr d
  | None =>
      match find_by_name flash_tier snapshot with
      | Some d => inr d
      | None =>
          match find_by_name pro_tier snapshot with
          | Some d => inr d
          | None =>
              match descriptors snapshot with
              | d :: _ => inr d
              | [] => inl ModelUnavailable
              end
          end
      end
  end.

(** Some descriptor of the snapshot has the name [n]. *)
Definition has_name (n : string) (s : ModelCatalogSnapshot) : Prop :=
  exists d, In d (descriptors s) /\ descriptor_name d = n.

End ModelResolver.

Module ResponseParser.
Import Core.

(** *** Text helpers *)

Definition newline : ascii := ascii_of_nat 10.

Definition is_blank (c : ascii) : bool :=
  let n := nat_of_ascii c in
  ((9 <=? n) && (n <=? 13) || (n =? 32))%nat.

Definition is_empty (s : string) : bool :=
  match s with EmptyString => true | String _ _ => false end.

Fixpoint lstrip (s : string) : string :=
  match s with
  | EmptyString => EmptyString
  | String c r => if is_blank c then lstrip r else s
  end.

Fixpoint rstrip (s : string) : string :=
  match s with
  | EmptyString => EmptyString
  | String c r =>
      let r' := rstrip r in
      if is_blank c && is_empty r' then EmptyString else String c r'
  end.

Definition strip (s : string) : string := rstrip (lstrip s).

(** The lines of a text, split at every newline. *)
Fixpoint split_lines (s : string) : list string :=
  match s with
  | EmptyString => [EmptyString]
  | String c r =>
      if Ascii.eqb c newline then EmptyString :: split_lines r
      else
        match split_lines r with
        | l :: ls => String c l :: ls
        | [] => [String c EmptyString]
        end
  end.

(** A strategy of the chain: the entries it extracts, or [None] when it
    does not succeed. *)
Definition Strategy := RawResponse -> option (list string).

Definition exactly_five (l : list string) : option (list string) :=
  if (List.length l =? 5)%nat then Some l else None.

(** *** Tier 1: structured parse

    The document decoder is the JSON library's; it is a parameter of the
    chain. *)

#[local] Unset Elimination Schemes.
Inductive Document : Type :=
| DNull
| DBool (b : bool)
| DNumber (z : Z)
| DString (s : string)
| DArray (items : list Document)
| DObject (fields : list (string * Document)).
#[local] Set Elimination Schemes.

Definition Decoder := RawResponse -> option Document.

Fixpoint strings_of (items : list Document) : option (list string) :=
  match items with
  | [] => Some []
  | DString s :: r =>
      match strings_of r with
      | Some l => Some (s :: l)
      | None => None
      end
  | _ :: _ => None
  end.

Fixpoint field (key : string) (fields : list (string * Document))
  : option Document :=
  match fields with
  | [] => None
  | (k, v) :: r => if String.eqb k key then Some v else field key r
  end.

(** Modelled from the spec: the shapes tier 1 accepts (section 4.5,
    missing [gemini_service.py]): a bare array of strings, or an object
    whose "opinions" field is an array of strings. *)
Definition opinion_entries (d : Document) : option (list string) :=
  match d with
  | DArray items => strings_of items
  | DObject fields =>
      match field "opinions" fields with
      | Some (DArray items) => strings_of items
      | _ => None
      end
  | _ => None
  end.

(** Modelled from the spec: tier 1 of section 4.5, the direct JSON parse
    of the missing [gemini_service.py]: a bare array of strings or an
    object exposing an "opinions" array, with exactly 5 string entries. *)
Definition structured_parse (decode : Decoder) : Strategy :=
  fun raw =>
    match decode raw with
    | Some d =>
        match opinion_entries d with
        | Some l => exactly_five l
        | None => None
        end
    | None => None
    end.

(** *** Tier 2: numbered-list extraction *)

Definition is_digit (c : ascii) : bool :=
  let n := nat_of_ascii c in ((48 <=? n) && (n <=? 57))%nat.

Definition is_separator (c : ascii) : bool :=
  Ascii.eqb c "."%char || Ascii.eqb c ":"%char || Ascii.eqb c ")"%char.

(** The integer label a line begins with and what follows it. *)
Fixpoint read_label (s : string) (acc : option N) : option N * string :=
  match s with
  | EmptyString => (acc, EmptyString)
  | String c r =>
      if is_digit c then
        let d := N.of_nat (nat_of_ascii c - 48) in
        read_label r (Some (match acc with
                            | Some a => a * 10 + d
                            | None => d
                            end)%N)
      else (acc, s)
  end.

(** Modelled from the spec: the line pattern of tier 2 (section 4.5,
    missing [gemini_service.py]): a line matches when it begins with an
    integer label, then a separator (period, colon or closing
    parenthesis), then text; the body is that text. *)
Definition numbered_line (line : string) : option (N * string) :=
  match read_label line None with
  | (Some label, String sep rest) =>
      if is_separator sep && negb (is_empty (strip rest))
      then Some (label, strip rest)
      else None
  | _ => None
  end.

Fixpoint matched_lines (lines : list string) : list (N * string) :=
  match lines with
  | [] => []
  | l :: r =>
      match numbered_line l with
      | Some m => m :: matched_lines r
      | None => matched_lines r
      end
  end.

Fixpoint insert_by_label (m : N * string) (sorted : list (N * string))
  : list (N * string) :=
  match sorted with
  | [] => [m]
  | x :: r =>
      if (fst x <=? fst m)%N then x :: insert_by_label m r
      else m :: sorted
  end.

(** Modelled from the spec: the label order of tier 2 (section 4.5,
    missing [gemini_service.py]), a stable sort by label: equal labels
    keep their order of appearance. *)
Definition in_label_order (ms : list (N * string)) : list (N * string) :=
  fold_left (fun sorted m => insert_by_label m sorted) ms [].

(** Modelled from the spec: tier 2 of section 4.5, the regular-expression
    extraction of the missing [gemini_service.py]: the bodies of the
    numbered lines in label order, exactly 5 of them. *)
Definition numbered_list : Strategy :=
  fun raw =>
    exactly_five
      (List.map snd (in_label_order (matched_lines (split_lines raw)))).

(** *** Tier 3: quoted-string extraction *)

Definition is_quote (c : ascii) : bool :=
  Ascii.eqb c (ascii_of_nat 34) || Ascii.eqb c (ascii_of_nat 39).

(** Modelled from the spec: the scan of tier 3 (section 4.5, missing
    [gemini_service.py]) for substrings between matching quotation marks.
    [opened] is the opening mark and the text read since, while inside a
    quotation.  A quotation ends at the next mark equal to the one that
    opened it; one that never ends is dropped. *)
Fixpoint scan_quoted (s : string) (opened : option (ascii * string))
  : list string :=
  match s with
  | EmptyString => []
  | String c r =>
      match opened with
      | None =>
          if is_quote c then scan_quoted r (Some (c, EmptyString))
          else scan_quoted r None
      | Some (mark, inside) =>
          if Ascii.eqb c mark then inside :: scan_quoted r None
          else scan_quoted r (Some (mark, inside ++ String c EmptyString)%string)
      end
  end.

(** Modelled from the spec: tier 3 of section 4.5, the quotation
    extraction of the missing [gemini_service.py]: up to 5 substrings
    between matching quotation marks, in order of appearance, exactly 5
    of them. *)
Definition quoted_strings : Strategy :=
  fun raw => exactly_five (firstn 5 (scan_quoted raw None)).

(** *** Tier 4: line-split fallback *)

Definition nonblank_line (l : string) : bool := negb (is_empty (strip l)).

(** Modelled from the spec: tier 4 of section 4.5, the line parse of the
    missing [gemini_service.py]: the first 5 non-blank lines, trimmed,
    exactly 5 of them. *)
Definition line_split : Strategy :=
  fun raw =>
    exactly_five
      (firstn 5 (List.map strip (filter nonblank_line (split_lines raw)))).

(** *** The chain *)

(** Modelled from the spec: the acceptance test of the chain (section
    4.5, missing [gemini_service.py]): a winning strategy has yielded
    exactly five strings that are non-empty once trimmed; the entries are
    returned trimmed. *)
Definition five_nonempty_trimmed (l : list string) : option (list Opinion) :=
  let l' := List.map strip l in
  if (List.length l' =? 5)%nat && forallb (fun s => negb (is_empty s)) l'
  then Some l' else None.

Definition run (t : Strategy) (raw : RawResponse) : option (list Opinion) :=
  match t raw with
  | Some l => five_nonempty_trimmed l
  | None => None
  end.

(** Modelled from the spec: the ordered chain of section 4.5 over any list
    of strategies: the first one that yields exactly five non-empty
    trimmed strings wins, and [ParseError] carries the raw text when none
    does. *)
Fixpoint first_success (tiers : list Strategy) (raw : RawResponse)
  : Error + list Opinion :=
  match tiers with
  | [] => inl (ParseError raw)
  | t :: rest =>
      match run t raw with
      | Some ops => inr ops
      | None => first_success rest raw
      end
  end.

Definition tiers (decode : Decoder) : list Strategy :=
  [structured_parse decode; numbered_list; quoted_strings; line_split].

(** Modelled from the spec: [ResponseParser.parse] of section 4.5, the
    response parsing of the missing [gemini_service.py]. *)
Definition parse (decode : Decoder) (raw : RawResponse)
  : Error + list Opinion :=
  first_success (tiers decode) raw.

(** A strategy yields exactly five non-empty trimmed strings. *)
Definition yields_five (t : Strategy) (raw : RawResponse) : Prop :=
  exists l, t raw = Some l /\ List.length l = 5%nat
            /\ Forall (fun s => strip s <> EmptyString) l.

(** *** Fixed inputs of section 8 *)

Definition unlines (ls : list string) : string :=
  String.concat (String newline EmptyString) ls.

Definition quoted (s : string) : string :=
  String (ascii_of_nat 34) (s ++ String (ascii_of_nat 34) EmptyString)%string.

Definition numbered_input : RawResponse :=
  unlines ["1. A"; "2. B"; "3. C"; "4. D"; "5. E"]%string.

Definition quoted_input : RawResponse :=
  String.concat " " (List.map quoted ["A"; "B"; "C"; "D"; "E"]%string).

Definition lines_input : RawResponse :=
  unlines ["A"; ""; "B"; "C"; ""; "D"; "E"; "F"]%string.

Definition letters : list Opinion := ["A"; "B"; "C"; "D"; "E"]%string.

(** A decoder that recognises no document. *)
Definition no_document : Decoder := fun _ => None.

End ResponseParser.

Module GenerationClient.
Import Core.

(** Modelled from the spec: [GenerationClient.generate] of section 4.4
    (the Gemini call of the missing [gemini_service.py]): one more attempt
    after a transient failure, none after a policy or quota failure.  A
    call that exceeds the timeout is a transient failure of the
    provider. *)
Definition generate (p : Provider) (request : GenerationRequest)
  : Error + RawResponse :=
  match generateText p 0%nat request with
  | inr raw => inr raw
  | inl transient =>
      match generateText p 1%nat request with
      | inr raw => inr raw
      | inl kind => inl (ProviderError kind)
      end
  | inl kind => inl (ProviderError kind)
  end.

End GenerationClient.

Module OpinionService.
Import Core.

(** Modelled from the spec: the states of section 4.6. *)
Inductive State : Type :=
| Idle
| ResolvingModel
| Prompting
| Generating
| Parsing
| Succeeded
| Failed (kind : Error).

(** Modelled from the spec: the defensive bound of section 4.6, each
    opinion cut to at most [bound] characters when a bound is set. *)
Definition bounded (bound : option nat) (o : Opinion) : Opinion :=
  match bound with
  | Some n => String.substring 0 n o
  | None => o
  end.

Section Service.

(** The collaborators of the service: the prompt template
    ([prompts/opinion_prompt.txt], section 4.3), the JSON decoder, the
    provider, and the optional bound on an opinion's length. *)
Variable build : StudentAttributes -> string.
Variable decode : ResponseParser.Decoder.
Variable provider : Provider.
Variable bound : option nat.

(** Modelled from the spec: [OpinionService.generateOpinions] of section
    4.6 (the request cycle of the missing [gemini_service.py]): resolve
    the model against [ModelCatalog.current], build the prompt, generate,
    parse; any failure ends the run in [Failed].  The result comes with
    the states the run went through and the catalog cache it leaves. *)
Definition generateOpinions (attributes : StudentAttributes)
  (requestedName : string) (now : N) (cache : ModelCatalog.Cache)
  : (Error + list Opinion) * list State * ModelCatalog.Cache :=
  let '(snapshot, cache') := ModelCatalog.current provider now cache in
  match ModelResolver.resolve requestedName snapshot with
  | inl e => (inl e, [Idle; ResolvingModel; Failed e], cache')
  | inr model =>
      let request :=
        {| effective_model := descriptor_name model;
           prompt := build attributes;
           length_hint := targetLength attributes |} in
      match GenerationClient.generate provider request with
      | inl e =>
          (inl e, [Idle; ResolvingModel; Prompting; Generating; Failed e],
           cache')
      | inr raw =>
          match ResponseParser.parse decode raw with
          | inl e =>
              (inl e,
               [Idle; ResolvingModel; Prompting; Generating; Parsing;
                Failed e],
               cache')
          | inr ops =>
              (inr (List.map (bounded bound) ops),
               [Idle; ResolvingModel; Prompting; Generating; Parsing;
                Succeeded],
               cache')
          end
      end
  end.

Definition result_of (r : (Error + list Opinion) * list State
                          * ModelCatalog.Cache) : Error + list Opinion :=
  fst (fst r).

End Service.

(** A provider whose generation call answers with the numbered list. *)
Definition numbered_provider : Provider :=
  {| listModels := Some (descriptors ModelCatalog.static_fallback);
     generateText := fun _ _ => inr ResponseParser.numbered_input |}.

Definition sample_attributes : StudentAttributes :=
  {| name := None;
     goodSubjects := ["수학"%string];
     weakSubjects := [];
     personalityTraits := [];
     characteristics := None;
     targetLength := 75 |}.

End OpinionService.

(** ** The number a number field's text denotes

    The value of [e.target.value] of an [<input type="number">] is empty
    or a valid floating-point number: an optional minus sign, digits
    and/or a point followed by digits, and an optional exponent.  Its
    numeric value is kept as an exact rational. *)

Module NumberInput.

Definition is_digit (c : JS.code_unit) : bool :=
  ((48 <=? c) && (c <=? 57))%N.

(** The leading run of decimal digits, as digit values, and the rest. *)
Fixpoint digits (s : JS.jsstring) : list Z * JS.jsstring :=
  match s with
  | [] => ([], [])
  | c :: r =>
      if is_digit c then
        let '(ds, rest) := digits r in ((Z.of_N c - 48)%Z :: ds, rest)
      else ([], s)
  end.

Definition number_of (ds : list Z) : Z :=
  fold_left (fun a d => (a * 10 + d)%Z) ds 0%Z.

(** The exponent part, if there is one: [e] or [E], an optional sign, and
    at least one digit. *)
Definition exponent (s : JS.jsstring) : option (Z * JS.jsstring) :=
  match s with
  | [] => Some (0%Z, [])
  | c :: r =>
      if ((c =? 101) || (c =? 69))%N then
        let '(negative, r1) :=
          match r with
          | 45%N :: r' => (true, r')
          | 43%N :: r' => (false, r')
          | _ => (false, r)
          end in
        match digits r1 with
        | ([], _) => None
        | (ds, rest) =>
            Some ((if negative then - number_of ds else number_of ds)%Z,
                  rest)
        end
      else Some (0%Z, s)
  end.

Definition numeric_value (s : JS.jsstring) : option QArith_base.Q :=
  let '(negative, s1) :=
    match s with
    | 45%N :: r => (true, r)
    | _ => (false, s)
    end in
  let '(whole, s2) := digits s1 in
  let fraction :=
    match s2 with
    | 46%N :: r =>
        match digits r with
        | ([], _) => None
        | (fp, rest) => Some (fp, rest)
        end
    | _ => Some ([], s2)
    end in
  match fraction with
  | None => None
  | Some (fp, s3) =>
      match whole, fp with
      | [], [] => None
      | _, _ =>
          match exponent s3 with
          | Some (e, []) =>
              let m := number_of (whole ++ fp) in
              Some (QArith_base.Qmult
                      (QArith_base.inject_Z (if negative then - m else m)%Z)
                      (QArith_base.Qpower (QArith_base.inject_Z 10)
                         (e - Z.of_nat (List.length fp))%Z))
          | _ => None
          end
      end
  end.

(** [min(max(v, 50), 100)] on the numeric value. *)
Definition clamped (v : QArith_base.Q) : QArith_base.Q :=
  Qminmax.Qmin (Qminmax.Qmax v (QArith_base.inject_Z 50))
    (QArith_base.inject_Z 100).

End NumberInput.

(** ** hooks/useKeyboardShortcuts.ts *)

Module KeyboardShortcuts.

Record KeyboardEvent : Type := mkKeyboardEvent {
  key : JS.jsstring;
  ctrlKey : bool;
  metaKey : bool;
  shiftKey : bool;
  altKey : bool
}.

(** [a < b] on strings: code units are compared from the left, and a
    proper prefix is smaller. *)
Fixpoint string_lt (a b : JS.jsstring) : bool :=
  match a, b with
  | _, [] => false
  | [], _ :: _ => true
  | x :: a', y :: b' =>
      if (x <? y)%N then true
      else if (y <? x)%N then false
      else string_lt a' b'
  end.

(** [a >= b] and [a <= b] *)
Definition string_ge (a b : JS.jsstring) : bool := negb (string_lt a b).
Definition string_le (a b : JS.jsstring) : bool := negb (string_lt b a).

(** The callback the handler calls; the index handed to [onCopyOpinion]
    is [parseInt(e.key) - 1], [None] when that is [NaN]. *)
Inductive Callback : Type :=
| onGenerate
| onRefresh
| onReset
| onCopyOpinion (index : option Z).

Record Handled : Type := mkHandled {
  called : option Callback;
  defaultPrevented : bool
}.

Definition handleKeyDown (e : KeyboardEvent) : Handled :=
  if (ctrlKey e || metaKey e) && JS.eqb (key e) (JS.lit "Enter") then
    {| called := Some onGenerate; defaultPrevented := true |}
  else if (ctrlKey e || metaKey e) && JS.eqb (key e) (JS.lit "r")
          && negb (shiftKey e) then
    {| called := Some onRefresh; defaultPrevented := true |}
  else if JS.eqb (key e) (JS.lit "Escape") then
    {| called := Some onReset; defaultPrevented := true |}
  else if string_ge (key e) (JS.lit "1") && string_le (key e) (JS.lit "5")
          && negb (ctrlKey e) && negb (metaKey e) && negb (altKey e) then
    {| called :=
         Some (onCopyOpinion
                 (option_map (fun v => (v - 1)%Z)
                    (StudentInfoForm.parseInt (key e))));
       defaultPrevented := false |}
  else
    {| called := None; defaultPrevented := false |}.

(** The [keydown] listener of [StudentInfoForm]: the inputs it focuses, in
    order, and whether it prevented the default. *)
Inductive Focused : Type := nameInput | characteristicsInput.

Definition form_handleKeyDown (e : KeyboardEvent) : list Focused * bool :=
  let first := ctrlKey e && JS.eqb (key e) (JS.lit "1") in
  let second := ctrlKey e && JS.eqb (key e) (JS.lit "2") in
  ((if first then [nameInput] else [])
   ++ (if second then [characteristicsInput] else []),
   first || second).

(** A key event with no modifier held. *)
Definition plain (k : JS.jsstring) : KeyboardEvent :=
  {| key := k; ctrlKey := false; metaKey := false; shiftKey := false;
     altKey := false |}.

(** The key value of a digit key: the one-character string of the digit. *)
Definition digit_key (d : Z) : JS.jsstring := [Z.to_N (48 + d)].

End KeyboardShortcuts.

(** ** App.tsx: the callbacks wired to the shortcuts *)

Module AppShortcuts.

Definition copy_failed_message : JS.jsstring :=
  JS.lit "클립보드 복사에 실패했습니다.".

(** [opinions[index]] for a number index: [undefined] ([None]) for [NaN],
    a negative index and an index past the end. *)
Definition opinion_at (ops : list JS.jsstring) (index : option Z)
  : option JS.jsstring :=
  match index with
  | Some i => if (i <? 0)%Z then None else nth_error ops (Z.to_nat i)
  | None => None
  end.

(** What a callback run ends in: an uncaught [TypeError], or the state it
    leaves with the requests issued and the text handed to the
    clipboard. *)
Inductive Outcome : Type :=
| Threw
| Returned (st : App.State) (requests : list Api.RequestConfig)
           (written : option JS.jsstring).

(** [handleCopyOpinion].  [writeText] is [navigator.clipboard.writeText]
    when the Clipboard API is there; calling it on a missing API is a
    [TypeError] no handler catches.  The returned promise only rejects (a
    promise-returning DOM operation does not throw), and [.catch] sets the
    error. *)
Definition handleCopyOpinion (writeText : option (JS.jsstring -> Settled unit))
  (index : option Z) (st : App.State) : Outcome :=
  match opinion_at (App.opinions st) index with
  | Some text =>
      if JS.truthy text then
        match writeText with
        | Some write =>
            match write text with
            | Fulfilled _ => Returned st [] (Some text)
            | Rejected _ =>
                Returned (App.setError (Some copy_failed_message) st) []
                         (Some text)
            end
        | None => Threw
        end
      else Returned st [] None
  | None => Returned st [] None
  end.

(** [useKeyboardShortcuts({ onGenerate: handleGenerate, ... })]: one key
    event against the application. *)
Definition on_keydown (net : Api.Network OpinionData)
  (writeText : option (JS.jsstring -> Settled unit))
  (e : KeyboardShortcuts.KeyboardEvent) (st : App.State) : Outcome :=
  match KeyboardShortcuts.called (KeyboardShortcuts.handleKeyDown e) with
  | Some KeyboardShortcuts.onGenerate =>
      let '(st', requests) := App.handleGenerate net st in
      Returned st' requests None
  | Some KeyboardShortcuts.onRefresh =>
      let '(st', requests) := App.handleRefresh net st in
      Returned st' requests None
  | Some KeyboardShortcuts.onReset => Returned (App.handleReset st) [] None
  | Some (KeyboardShortcuts.onCopyOpinion index) =>
      handleCopyOpinion writeText index st
  | None => Returned st [] None
  end.

End AppShortcuts.

(** ** components/OpinionResults.tsx *)

Module OpinionResults.

Definition TimerId := nat.

(** The component's state: [copiedIndex], [timeoutRef.current], and the
    timers that are armed.  Timer ids are positive, so a stored id is
    truthy. *)
Record State : Type := mkState {
  copiedIndex : option nat;
  timeoutRef : option TimerId;
  timers : list TimerId;
  next_timer : TimerId
}.

Definition initial : State :=
  {| copiedIndex := None; timeoutRef := None; timers := []; next_timer := 1 |}.

Definition clearTimeout (t : TimerId) (st : State) : State :=
  {| copiedIndex := copiedIndex st;
     timeoutRef := timeoutRef st;
     timers := filter (fun x => negb (Nat.eqb t x)) (timers st);
     next_timer := next_timer st |}.

(** [if (timeoutRef.current) clearTimeout(timeoutRef.current)]: the start
    of [handleCopy] and the unmount cleanup. *)
Definition clear_pending (st : State) : State :=
  match timeoutRef st with
  | Some t => clearTimeout t st
  | None => st
  end.

(** [handleCopy] after [await copyToClipboard(text)]. *)
Definition handleCopy_settle (success : bool) (index : nat) (st : State)
  : State :=
  if success then
    let id := next_timer st in
    {| copiedIndex := Some index;
       timeoutRef := Some id;
       timers := timers st ++ [id];
       next_timer := S id |}
  else st.

(** The callback of the 2000 ms timer, for a timer that is armed. *)
Definition timer_fires (t : TimerId) (st : State) : State :=
  if existsb (Nat.eqb t) (timers st) then
    {| copiedIndex := None;
       timeoutRef := None;
       timers := filter (fun x => negb (Nat.eqb t x)) (timers st);
       next_timer := next_timer st |}
  else st.

(** One run of [handleCopy] to its end: the promise of the handler, the
    state and the document it leaves. *)
Definition handleCopy (browser : Clipboard.Browser) (text : JS.jsstring)
  (index : nat) (st : State) (w : Clipboard.World)
  : Settled unit * State * Clipboard.World :=
  let st1 := clear_pending st in
  match Clipboard.copyToClipboard browser text w with
  | (Fulfilled success, w') =>
      (Fulfilled tt, handleCopy_settle success index st1, w')
  | (Rejected e, w') => (Rejected e, st1, w')
  end.

(** The states of the component when each [handleCopy] runs to its end
    before the next one starts. *)
Inductive reachable : State -> Prop :=
| reachable_initial : reachable initial
| reachable_copy browser text index w st :
    reachable st ->
    reachable (snd (fst (handleCopy browser text index st w)))
| reachable_timer t st :
    reachable st -> In t (timers st) -> reachable (timer_fires t st).

(** The label of a copy button. *)
Definition badge_shown (index : nat) (st : State) : bool :=
  match copiedIndex st with
  | Some i => Nat.eqb i index
  | None => false
  end.

(** The timers armed are the one [timeoutRef] holds, if any, and then the
    badge is shown. *)
Definition one_timer (st : State) : Prop :=
  timers st = []
  \/ exists t,
       timers st = [t] /\ timeoutRef st = Some t /\ copiedIndex st <> None.

End OpinionResults.

(** ** What the form's buttons and inputs can produce *)

Module Ui.

(** The toggle buttons are rendered from [SUBJECTS] and
    [PERSONALITY_TRAITS]; every other edit is offered for any input. *)
Definition offered (e : App.Edit) : bool :=
  match e with
  | App.SubjectToggle subject _ =>
      StudentInfoForm.includes StudentInfoForm.SUBJECTS subject
  | App.PersonalityToggle trait =>
      StudentInfoForm.includes StudentInfoForm.PERSONALITY_TRAITS trait
  | _ => true
  end.

Inductive reachable : StudentInfo -> Prop :=
| reachable_initial : reachable App.initialStudentInfo
| reachable_edit (e : App.Edit) (info : StudentInfo) :
    offered e = true -> reachable info -> reachable (App.apply_edit e info).

(** The decimal digits of a non-negative integer, most significant
    first. *)
Fixpoint decimal (fuel : nat) (n : Z) (acc : JS.jsstring) : JS.jsstring :=
  match fuel with
  | O => acc
  | S fuel' =>
      let acc' := Z.to_N (48 + n mod 10) :: acc in
      if (n / 10 =? 0)%Z then acc' else decimal fuel' (n / 10) acc'
  end.

(** [String(n)] for an integer [n] (below 10^21 in size, where the
    notation stays positional): what the controlled number input shows
    for [value={studentInfo.targetLength}]. *)
Definition toString (n : Z) : JS.jsstring :=
  if (n <? 0)%Z then
    45%N :: decimal (S (Z.to_nat (Z.log2 (- n)))) (- n) []
  else decimal (S (Z.to_nat (Z.log2 n))) n [].

(** The code unit of a decimal digit. *)
Definition decimal_digit (c : JS.code_unit) : Prop := (48 <= c <= 57)%N.

(** A string made of white space only. *)
Definition blank (s : JS.jsstring) : bool := forallb JS.is_space s.

(** A string with no white space at either end. *)
Definition starts_clean (s : JS.jsstring) : bool :=
  match s with
  | [] => true
  | c :: _ => negb (JS.is_space c)
  end.

Definition ends_clean (s : JS.jsstring) : bool := starts_clean (rev s).

End Ui.

(** * Properties *)

(** ** JavaScript strings *)

Lemma js_eqb_eq (s t : JS.jsstring) : JS.eqb s t = true <-> s = t.
Proof.
  revert t; induction s as [|a s IH]; intros [|b t]; simpl;
    try (split; [discriminate | congruence]); try tauto.
  rewrite andb_true_iff, N.eqb_eq, IH. split.
  - intros [-> ->]; reflexivity.
  - intros H; injection H; auto.
Qed.

Lemma js_eqb_refl (s : JS.jsstring) : JS.eqb s s = true.
Proof. apply js_eqb_eq; reflexivity. Qed.

Lemma js_eqb_neq (s t : JS.jsstring) : JS.eqb s t = false <-> s <> t.
Proof.
  destruct (JS.eqb s t) eqn:E.
  - apply js_eqb_eq in E. split; [discriminate | contradiction].
  - split; [|reflexivity]. intros _ H. apply js_eqb_eq in H. congruence.
Qed.

(** [s.slice(0, n)] with [n >= 0] is the prefix of at most [n] code
    units. *)
Lemma slice_prefix (s : JS.jsstring) (n : Z) :
  (0 <= n)%Z -> JS.slice s 0 n = firstn (Z.to_nat n) s.
Proof.
  intros Hn. unfold JS.slice, JS.slice_pos.
  assert (H0 : (0 <? 0)%Z = false) by reflexivity. rewrite H0.
  assert (Hn' : (n <? 0)%Z = false) by (apply Z.ltb_ge; exact Hn).
  rewrite Hn'.
  set (len := Z.of_nat (JS.length s)).
  assert (Hlen : (0 <= len)%Z) by (unfold len; lia).
  rewrite (Z.min_l 0 len Hlen). simpl skipn.
  rewrite Z.sub_0_r.
  rewrite (Z.max_l (Z.min n len) 0) by lia.
  destruct (Z.le_ge_cases n len) as [Hle | Hge].
  - rewrite Z.min_l by exact Hle. reflexivity.
  - rewrite Z.min_r by exact Hge. unfold len. rewrite Nat2Z.id.
    unfold JS.length. rewrite firstn_all.
    symmetry. apply firstn_all2. unfold len, JS.length in Hge. lia.
Qed.

Lemma slice_prefix_length (s : JS.jsstring) (n : Z) :
  (0 <= n)%Z -> (JS.length (JS.slice s 0 n) <= Z.to_nat n)%nat.
Proof.
  intros Hn. rewrite slice_prefix by exact Hn.
  unfold JS.length. rewrite length_firstn. lia.
Qed.

Lemma nonempty_false {A : Type} (l : list A) :
  App.nonempty l = false <-> l = [].
Proof. destruct l; simpl; split; congruence. Qed.

Lemma nonempty_true {A : Type} (l : list A) :
  App.nonempty l = true <-> l <> [].
Proof. destruct l; simpl; split; congruence. Qed.

(** ** The form's subject lists *)

Lemma includes_In (array : list JS.jsstring) (item : JS.jsstring) :
  StudentInfoForm.includes array item = true <-> In item array.
Proof.
  unfold StudentInfoForm.includes. rewrite existsb_exists. split.
  - intros [x [Hin Heq]]. apply js_eqb_eq in Heq. subst; exact Hin.
  - intros Hin. exists item. split; [exact Hin | apply js_eqb_refl].
Qed.

Lemma in_without (array : list JS.jsstring) (item x : JS.jsstring) :
  In x (StudentInfoForm.without array item) <-> In x array /\ x <> item.
Proof.
  unfold StudentInfoForm.without. rewrite filter_In, negb_true_iff, js_eqb_neq.
  tauto.
Qed.

Lemma without_absent (array : list JS.jsstring) (item : JS.jsstring) :
  ~ In item (StudentInfoForm.without array item).
Proof. rewrite in_without. tauto. Qed.

Lemma in_toggleArrayItem (array : list JS.jsstring) (item x : JS.jsstring) :
  In x (StudentInfoForm.toggleArrayItem array item) ->
  In x array \/ x = item.
Proof.
  unfold StudentInfoForm.toggleArrayItem.
  destruct (StudentInfoForm.includes array item).
  - rewrite in_without. tauto.
  - rewrite in_app_iff. simpl. intuition.
Qed.

Lemma apply_edit_disjoint (e : App.Edit) (info : StudentInfo) :
  App.disjoint_subjects info -> App.disjoint_subjects (App.apply_edit e info).
Proof.
  unfold App.disjoint_subjects. intros Hd.
  destruct e as [subject [|] | | | | | | | | | ]; simpl; intros s Hg Hw;
    try (exact (Hd s Hg Hw)); try contradiction.
  - apply in_without in Hw. destruct Hw as [Hw Hne].
    apply in_toggleArrayItem in Hg. destruct Hg as [Hg | Heq];
      [exact (Hd s Hg Hw) | contradiction].
  - apply in_without in Hg. destruct Hg as [Hg Hne].
    apply in_toggleArrayItem in Hw. destruct Hw as [Hw | Heq];
      [exact (Hd s Hg Hw) | contradiction].
Qed.

(** ** The length caps *)

Lemma apply_edit_caps (e : App.Edit) (info : StudentInfo) :
  App.within_caps info -> App.within_caps (App.apply_edit e info).
Proof.
  unfold App.within_caps. intros [Hn Hc].
  destruct e as [subject [|] | | | | | raw | raw | raw | m | ]; simpl;
    try (split; assumption).
  - split; [|exact Hc]. apply (slice_prefix_length raw 5). lia.
  - split; [exact Hn|]. apply (slice_prefix_length raw 40). lia.
  - split; apply Nat.le_0_l.
Qed.

Lemma reachable_caps (info : StudentInfo) :
  App.reachable info -> App.within_caps info.
Proof.
  induction 1 as [|e info Hr IH].
  - split; simpl; lia.
  - apply apply_edit_caps; exact IH.
Qed.

Lemma reachable_disjoint (info : StudentInfo) :
  App.reachable info -> App.disjoint_subjects info.
Proof.
  induction 1 as [|e info Hr IH].
  - intros s Hg; simpl in Hg; contradiction.
  - apply apply_edit_disjoint; exact IH.
Qed.

(** C5: after a subject toggle the toggled subject is absent from the
    other list (a 'good' toggle removes it from [weakSubjects], a 'weak'
    toggle removes it from [goodSubjects]), a toggle of two disjoint lists
    leaves them disjoint, and in every reachable [StudentInfo] state no
    subject is in both [goodSubjects] and [weakSubjects]. *)
Theorem subjects_stay_disjoint :
  (forall subject prev,
      ~ In subject
          (weakSubjects
             (StudentInfoForm.handleSubjectToggle subject
                StudentInfoForm.good prev))
      /\ ~ In subject
             (goodSubjects
                (StudentInfoForm.handleSubjectToggle subject
                   StudentInfoForm.weak prev)))
  /\ (forall subject type prev,
         App.disjoint_subjects prev ->
         App.disjoint_subjects
           (StudentInfoForm.handleSubjectToggle subject type prev))
  /\ (forall info s,
         App.reachable info ->
         In s (goodSubjects info) -> In s (weakSubjects info) -> False).
Proof.
  split; [|split].
  - intros subject prev. simpl. split; apply without_absent.
  - intros subject type prev Hd.
    exact (apply_edit_disjoint (App.SubjectToggle subject type) prev Hd).
  - intros info s Hr Hg Hw. exact (reachable_disjoint _ Hr s Hg Hw).
Qed.

(** C6: the name handler stores the first 5 code units of its input and
    the characteristics handler the first 40, so the stored fields are at
    most 5 and at most 40 long for every input, and both caps hold in
    every reachable [StudentInfo] state. *)
Theorem text_fields_capped :
  (forall raw prev,
      name (StudentInfoForm.name_onChange raw prev) = firstn 5 raw
      /\ (JS.length (name (StudentInfoForm.name_onChange raw prev)) <= 5)%nat)
  /\ (forall raw prev,
         characteristics (StudentInfoForm.characteristics_onChange raw prev)
         = firstn 40 raw
         /\ (JS.length
               (characteristics
                  (StudentInfoForm.characteristics_onChange raw prev))
             <= 40)%nat)
  /\ (forall info,
         App.reachable info ->
         (JS.length (name info) <= 5)%nat
         /\ (JS.length (characteristics info) <= 40)%nat).
Proof.
  split; [|split].
  - intros raw prev. simpl. split.
    + apply (slice_prefix raw 5). lia.
    + apply (slice_prefix_length raw 5). lia.
  - intros raw prev. simpl. split.
    + apply (slice_prefix raw 40). lia.
    + apply (slice_prefix_length raw 40). lia.
  - intros info Hr. exact (reachable_caps _ Hr).
Qed.

Lemma subjects_stay_disjoint_witness :
  let info :=
    App.apply_edit (App.SubjectToggle (JS.lit "수학") StudentInfoForm.weak)
      (App.apply_edit (App.SubjectToggle (JS.lit "수학") StudentInfoForm.good)
         (App.apply_edit
            (App.SubjectToggle (JS.lit "영어") StudentInfoForm.good)
            App.initialStudentInfo)) in
  App.reachable info
  /\ In (JS.lit "영어") (goodSubjects info)
  /\ ~ In (JS.lit "영어") (weakSubjects info).
Proof.
  intros info.
  assert (Hr : App.reachable info) by (repeat constructor).
  assert (Hg : In (JS.lit "영어") (goodSubjects info)) by (left; reflexivity).
  split; [exact Hr | split; [exact Hg |]].
  intros Hw.
  exact (proj2 (proj2 subjects_stay_disjoint) info (JS.lit "영어") Hr Hg Hw).
Defined.

Lemma text_fields_capped_witness :
  let info :=
    App.apply_edit (App.NameInput (JS.lit "김철수와영희와민수"))
      App.initialStudentInfo in
  App.reachable info
  /\ name info = JS.lit "김철수와영"
  /\ (JS.length (name info) <= 5)%nat
  /\ (JS.length (characteristics info) <= 40)%nat.
Proof.
  intros info.
  assert (Hr : App.reachable info) by (repeat constructor).
  split; [exact Hr | split; [reflexivity |]].
  exact (proj2 (proj2 text_fields_capped) info Hr).
Defined.

(** ** The target-length input *)

Example parseInt_plain :
  StudentInfoForm.parseInt (JS.lit "75") = Some 75%Z.
Proof. reflexivity. Qed.

Example parseInt_prefix :
  StudentInfoForm.parseInt (JS.lit " 42px") = Some 42%Z.
Proof. reflexivity. Qed.

Example parseInt_exponent :
  StudentInfoForm.parseInt (JS.lit "1e5") = Some 1%Z.
Proof. reflexivity. Qed.

Example parseInt_fraction :
  StudentInfoForm.parseInt (JS.lit "60.7") = Some 60%Z.
Proof. reflexivity. Qed.

Example parseInt_negative :
  StudentInfoForm.parseInt (JS.lit "-5") = Some (-5)%Z.
Proof. reflexivity. Qed.

Example parseInt_hex :
  StudentInfoForm.parseInt (JS.lit "0x1F") = Some 31%Z.
Proof. reflexivity. Qed.

Example parseInt_empty : StudentInfoForm.parseInt [] = None.
Proof. reflexivity. Qed.

Example parseInt_letters :
  StudentInfoForm.parseInt (JS.lit "abc") = None.
Proof. reflexivity. Qed.

Example targetLength_exponent :
  targetLength
    (StudentInfoForm.targetLength_onChange (JS.lit "1e5")
       App.initialStudentInfo) = 50%Z.
Proof. reflexivity. Qed.

Example numeric_values :
  NumberInput.numeric_value (JS.lit "75")
  = Some (QArith_base.Qmake 75 1)
  /\ NumberInput.numeric_value (JS.lit "0.5")
     = Some (QArith_base.Qmake 5 10)
  /\ NumberInput.numeric_value (JS.lit "7e1")
     = Some (QArith_base.Qmake 70 1)
  /\ NumberInput.numeric_value (JS.lit "-2.5e-1")
     = Some (QArith_base.Qmake (-25) 100)
  /\ NumberInput.numeric_value (JS.lit "5.") = None
  /\ NumberInput.numeric_value (JS.lit "12abc") = None
  /\ NumberInput.numeric_value [] = None.
Proof. repeat split; vm_compute; reflexivity. Qed.

(** C4, as stated, fails: the text "1e5" is a valid input of the number
    field, it denotes the non-zero number 100000 and [parseInt] parses it,
    yet the stored value is 50 and not [min (max 100000 50) 100 = 100]:
    [parseInt] reads the leading digits only, here 1.  So it is not true
    that every parseable non-zero numeric input [v] stores
    [min (max v 50) 100]. *)
Lemma exponent_input_not_clamped :
  NumberInput.numeric_value (JS.lit "1e5")
  = Some (QArith_base.inject_Z 100000)
  /\ ~ QArith_base.Qeq (QArith_base.inject_Z 100000)
        (QArith_base.inject_Z 0)
  /\ StudentInfoForm.parseInt (JS.lit "1e5") = Some 1%Z
  /\ targetLength
       (StudentInfoForm.targetLength_onChange (JS.lit "1e5")
          App.initialStudentInfo) = 50%Z
  /\ QArith_base.Qeq
       (NumberInput.clamped (QArith_base.inject_Z 100000))
       (QArith_base.inject_Z 100)
  /\ ~ (forall raw v prev,
           NumberInput.numeric_value raw = Some v ->
           ~ QArith_base.Qeq v (QArith_base.inject_Z 0) ->
           StudentInfoForm.parseInt raw <> None ->
           QArith_base.Qeq
             (QArith_base.inject_Z
                (targetLength
                   (StudentInfoForm.targetLength_onChange raw prev)))
             (NumberInput.clamped v)).
Proof.
  split; [vm_compute; reflexivity |].
  split; [vm_compute; discriminate |].
  split; [reflexivity |].
  split; [reflexivity |].
  split; [vm_compute; reflexivity |].
  intros H.
  specialize (H (JS.lit "1e5") (QArith_base.inject_Z 100000)
                App.initialStudentInfo).
  assert (Hv : NumberInput.numeric_value (JS.lit "1e5")
               = Some (QArith_base.inject_Z 100000))
    by (vm_compute; reflexivity).
  assert (Hnz : ~ QArith_base.Qeq (QArith_base.inject_Z 100000)
                    (QArith_base.inject_Z 0))
    by (vm_compute; discriminate).
  assert (Hp : StudentInfoForm.parseInt (JS.lit "1e5") <> None)
    by (vm_compute; discriminate).
  specialize (H Hv Hnz Hp). vm_compute in H. discriminate H.
Qed.

(** C4, amended: after an edit of the target-length field with any raw
    text, the stored [targetLength] is between 50 and 100; when
    [parseInt] reads a non-zero integer [v] from the text (its leading,
    optionally signed run of digits) the stored value is
    [min (max v 50) 100]; when the text is empty or [parseInt] reads no
    number from it ([NaN]) the stored value is the default 75. *)
Theorem targetLength_clamped :
  forall raw prev,
    let stored :=
      targetLength (StudentInfoForm.targetLength_onChange raw prev) in
    (50 <= stored <= 100)%Z
    /\ (forall v,
           StudentInfoForm.parseInt raw = Some v -> v <> 0%Z ->
           stored = Z.min (Z.max v 50) 100)
    /\ (StudentInfoForm.parseInt raw = None -> stored = 75%Z)
    /\ (raw = [] -> stored = 75%Z).
Proof.
  intros raw prev stored. subst stored. simpl.
  unfold StudentInfoForm.parsed_or_default.
  split; [lia | split; [| split]].
  - intros v Hv Hnz. rewrite Hv.
    apply Z.eqb_neq in Hnz. rewrite Hnz. reflexivity.
  - intros Hnan. rewrite Hnan. reflexivity.
  - intros ->. reflexivity.
Qed.

Lemma targetLength_clamped_witness :
  StudentInfoForm.parseInt (JS.lit "120") = Some 120%Z
  /\ targetLength
       (StudentInfoForm.targetLength_onChange (JS.lit "120")
          App.initialStudentInfo) = 100%Z
  /\ StudentInfoForm.parseInt (JS.lit "abc") = None
  /\ targetLength
       (StudentInfoForm.targetLength_onChange (JS.lit "abc")
          App.initialStudentInfo) = 75%Z
  /\ targetLength
       (StudentInfoForm.targetLength_onChange [] App.initialStudentInfo)
     = 75%Z.
Proof.
  pose proof (targetLength_clamped (JS.lit "120") App.initialStudentInfo)
    as [_ [Hv _]].
  pose proof (targetLength_clamped (JS.lit "abc") App.initialStudentInfo)
    as [_ [_ [Hnan _]]].
  pose proof (targetLength_clamped [] App.initialStudentInfo)
    as [_ [_ [_ Hempty]]].
  split; [reflexivity | split; [| split; [reflexivity | split]]].
  - exact (Hv 120%Z eq_refl ltac:(discriminate)).
  - exact (Hnan eq_refl).
  - exact (Hempty eq_refl).
Defined.

(** ** Triggering generation *)

Lemma hasInput_false (info : StudentInfo) :
  App.hasInput info = false <->
  JS.trim (name info) = [] /\ goodSubjects info = []
  /\ weakSubjects info = [] /\ personality info = []
  /\ JS.trim (characteristics info) = [].
Proof.
  unfold App.hasInput. rewrite !orb_false_iff, !nonempty_false. tauto.
Qed.

Lemma hasInput_true (info : StudentInfo) :
  App.hasInput info = true <->
  JS.trim (name info) <> [] \/ goodSubjects info <> []
  \/ weakSubjects info <> [] \/ personality info <> []
  \/ JS.trim (characteristics info) <> [].
Proof.
  unfold App.hasInput. rewrite !orb_true_iff, !nonempty_true. tauto.
Qed.

(** C3: when the trimmed name, the trimmed characteristics and the three
    lists are all empty, [handleGenerate] sets the validation error and
    issues no request; when at least one of the five is non-empty it
    issues exactly the [POST /generate-opinions] request. *)
Theorem generate_requires_input :
  forall (net : Api.Network OpinionData) (st : App.State),
    let info := App.studentInfo st in
    (JS.trim (name info) = [] -> JS.trim (characteristics info) = [] ->
     goodSubjects info = [] -> weakSubjects info = [] ->
     personality info = [] ->
     App.handleGenerate net st
     = (App.setError (Some App.validation_message) st, []))
    /\ (JS.trim (name info) <> [] \/ JS.trim (characteristics info) <> []
        \/ goodSubjects info <> [] \/ weakSubjects info <> []
        \/ personality info <> [] ->
        exists config,
          snd (App.handleGenerate net st) = [config]
          /\ Api.method config = Api.POST
          /\ Api.url config = JS.lit "/generate-opinions"
          /\ Api.data config = Some (App.generate_body info)).
Proof.
  intros net st info. split.
  - intros Hn Hc Hg Hw Hp.
    assert (H : App.hasInput info = false)
      by (apply hasInput_false; tauto).
    unfold App.handleGenerate, App.handleGenerate_begin.
    fold info. rewrite H. reflexivity.
  - intros Hsome.
    assert (H : App.hasInput info = true)
      by (apply hasInput_true; tauto).
    exists (Api.post_config (JS.lit "/generate-opinions")
              (App.generate_body info)).
    unfold App.handleGenerate, App.handleGenerate_begin.
    fold info. rewrite H. simpl negb. cbv iota.
    destruct (Api.send _ net) as [[t outcome]|];
      (split; [reflexivity | repeat split]).
Qed.

Lemma generate_requires_input_witness :
  App.handleGenerate Api.Silent App.initial
  = (App.setError (Some App.validation_message) App.initial, [])
  /\ exists config,
       snd (App.handleGenerate Api.Silent
              (App.setStudentInfo
                 (StudentInfoForm.handleSubjectToggle (JS.lit "수학")
                    StudentInfoForm.good)
                 App.initial))
       = [config]
       /\ Api.method config = Api.POST
       /\ Api.url config = JS.lit "/generate-opinions"
       /\ Api.data config
          = Some (App.generate_body
                    (StudentInfoForm.handleSubjectToggle (JS.lit "수학")
                       StudentInfoForm.good App.initialStudentInfo)).
Proof.
  split.
  - apply (proj1 (generate_requires_input Api.Silent App.initial));
      reflexivity.
  - apply (proj2 (generate_requires_input Api.Silent
                    (App.setStudentInfo
                       (StudentInfoForm.handleSubjectToggle (JS.lit "수학")
                          StudentInfoForm.good)
                       App.initial))).
    right; right; left. simpl. discriminate.
Defined.

(** ** The model selector *)

Lemma or_else_nonempty (a : option JS.jsstring) (b : JS.jsstring) :
  b <> [] -> Api.or_else a b <> [].
Proof.
  intros Hb. unfold Api.or_else.
  destruct a as [[|c s]|]; simpl; [exact Hb | discriminate | exact Hb].
Qed.

(** The interceptor never rejects with an empty message. *)
Lemma error_message_nonempty (error : Api.AxiosError) :
  Api.error_message error <> [].
Proof.
  unfold Api.error_message.
  destruct (Api.response error) as [r|].
  - unfold Api.response_message. apply or_else_nonempty.
    vm_compute. discriminate.
  - destruct (Api.request error); vm_compute; discriminate.
Qed.

(** Every rejection that comes out of the instance is an [Error] with a
    non-empty message. *)
Lemma send_rejection {A : Type} (config : Api.RequestConfig)
  (net : Api.Network A) (t : Z) (err : Thrown) :
  Api.send config net = Some (t, Rejected err) ->
  exists m, err = ErrorObject m /\ m <> [].
Proof.
  unfold Api.send, Api.response_interceptor_rejected.
  destruct net as [delay [v|r] | delay | ];
    repeat match goal with
           | |- context [if ?b then _ else _] => destruct b
           end;
    intros H; inversion H; subst;
    eexists; (split; [reflexivity | apply error_message_nonempty]).
Qed.

(** C7: when the fetch of the model list fails, the selector holds exactly
    the static fallback list, whose three names are gemini-2.5-flash,
    gemini-2.5-pro and gemini-2.5-flash-lite in that order, and an error
    notice is set (the message of the error, or the fixed message); when
    it succeeds the reported list is stored unchanged and the error is
    cleared. *)
Theorem fetchModels_fallback :
  forall (st : ModelSelector.State),
    (forall err,
        let st' := ModelSelector.fetchModels_settle (Rejected err) st in
        ModelSelector.models st' = ModelSelector.fallback_models
        /\ List.map ModelSelector.name (ModelSelector.models st')
           = [JS.lit "gemini-2.5-flash"; JS.lit "gemini-2.5-pro";
              JS.lit "gemini-2.5-flash-lite"]
        /\ ModelSelector.error st'
           = Some (message_of err ModelSelector.load_failed_message)
        /\ ModelSelector.isLoading st' = false)
    /\ (forall d,
           let st' := ModelSelector.fetchModels_settle (Fulfilled d) st in
           ModelSelector.models st' = ModelSelector.models_of d
           /\ ModelSelector.error st' = None
           /\ ModelSelector.isLoading st' = false)
    /\ (forall net t err,
           Api.send ModelSelector.fetchModels_request net
           = Some (t, Rejected err) ->
           let st' := ModelSelector.fetchModels net st in
           ModelSelector.models st' = ModelSelector.fallback_models
           /\ exists m, ModelSelector.error st' = Some m /\ m <> [])
    /\ (forall net t d,
           Api.send ModelSelector.fetchModels_request net
           = Some (t, Fulfilled d) ->
           let st' := ModelSelector.fetchModels net st in
           ModelSelector.models st' = ModelSelector.models_of d
           /\ ModelSelector.error st' = None).
Proof.
  intros st. split; [|split; [|split]].
  - intros err st'. subst st'. simpl. repeat split.
  - intros d st'. subst st'. simpl. repeat split.
  - intros net t err Hsend st'. subst st'.
    unfold ModelSelector.fetchModels. rewrite Hsend. simpl.
    split; [reflexivity|].
    destruct (send_rejection _ _ _ _ Hsend) as [m [-> Hm]].
    exists m. split; [reflexivity | exact Hm].
  - intros net t d Hsend st'. subst st'.
    unfold ModelSelector.fetchModels. rewrite Hsend. simpl.
    split; reflexivity.
Qed.

Lemma fetchModels_fallback_witness :
  let failed :=
    ModelSelector.fetchModels (Api.Drops 10) ModelSelector.initial in
  let loaded :=
    ModelSelector.fetchModels
      (Api.Answers 5
         (Api.Success
            {| ModelSelector.models_of :=
                 [ {| ModelSelector.name := JS.lit "gemini-2.0-flash";
                      ModelSelector.full_name :=
                        JS.lit "models/gemini-2.0-flash";
                      ModelSelector.display_name :=
                        JS.lit "Gemini 2.0 Flash" |} ] |}))
      ModelSelector.initial in
  (ModelSelector.models failed = ModelSelector.fallback_models
   /\ exists m, ModelSelector.error failed = Some m /\ m <> [])
  /\ List.length (ModelSelector.models loaded) = 1%nat
  /\ ModelSelector.error loaded = None.
Proof.
  intros failed loaded.
  pose proof (fetchModels_fallback ModelSelector.initial)
    as [_ [_ [Hfail Hok]]].
  split.
  - assert (Hs : Api.send ModelSelector.fetchModels_request
                   (Api.Drops (A := ModelSelector.ModelsData) 10)
                 = Some (10%Z,
                         Rejected (ErrorObject Api.connection_message)))
      by (vm_compute; reflexivity).
    exact (Hfail (Api.Drops 10) 10%Z
             (ErrorObject Api.connection_message) Hs).
  - specialize
      (Hok (Api.Answers 5
              (Api.Success
                 {| ModelSelector.models_of :=
                      [ {| ModelSelector.name := JS.lit "gemini-2.0-flash";
                           ModelSelector.full_name :=
                             JS.lit "models/gemini-2.0-flash";
                           ModelSelector.display_name :=
                             JS.lit "Gemini 2.0 Flash" |} ] |}))
           5%Z _ eq_refl).
    destruct Hok as [Hm He]. fold loaded in Hm, He.
    split; [rewrite Hm; reflexivity | exact He].
Defined.

(** ** The request timeout *)

(** C8: the instance's timeout is 60000 ms, that is 60 seconds; every
    request built through the instance ([api.get], [api.post], and so the
    generation request of [handleGenerate]) carries it; and a request that
    carries it settles after at most 60000 ms: when the network has not
    settled it before then, it is rejected at 60000 ms with the
    connection-failure error. *)
Theorem requests_bounded_by_timeout :
  Api.default_timeout Api.api = 60000%Z
  /\ (60000 = 60 * 1000)%Z
  /\ (forall u, Api.timeout (Api.get_config u) = 60000%Z)
  /\ (forall u d, Api.timeout (Api.post_config u d) = 60000%Z)
  /\ (forall st config,
         snd (App.handleGenerate_begin st) = Some config ->
         Api.timeout config = 60000%Z)
  /\ (forall (A : Type) (config : Api.RequestConfig) (net : Api.Network A),
         Api.timeout config = 60000%Z ->
         exists t outcome,
           Api.send config net = Some (t, outcome)
           /\ (t <= 60000)%Z
           /\ (Api.settles_before net 60000 = false ->
               t = 60000%Z
               /\ outcome
                  = Rejected (ErrorObject Api.connection_message))).
Proof.
  split; [reflexivity | split; [reflexivity | split; [| split; [| split]]]].
  - intros u. reflexivity.
  - intros u d. reflexivity.
  - intros st config. unfold App.handleGenerate_begin.
    destruct (negb (App.hasInput (App.studentInfo st))); simpl.
    + discriminate.
    + intros H; injection H as <-. reflexivity.
  - intros A config net Ht.
    unfold Api.send, Api.timed_out, Api.request_interceptor.
    rewrite Ht. change (60000 =? 0)%Z with false. cbn [negb andb].
    destruct net as [delay a | delay | ]; simpl Api.settles_before.
    + destruct (60000 <=? delay)%Z eqn:E.
      * eexists; eexists. split; [reflexivity|].
        split; [lia | intros _; split; reflexivity].
      * apply Z.leb_gt in E.
        destruct a as [v | r]; eexists; eexists;
          (split; [reflexivity|]);
          (split; [lia | intros Hlt; apply Z.ltb_ge in Hlt; lia]).
    + destruct (60000 <=? delay)%Z eqn:E.
      * eexists; eexists. split; [reflexivity|].
        split; [lia | intros _; split; reflexivity].
      * apply Z.leb_gt in E. eexists; eexists.
        split; [reflexivity|].
        split; [lia | intros Hlt; apply Z.ltb_ge in Hlt; lia].
    + eexists; eexists. split; [reflexivity|].
      split; [lia | intros _; split; reflexivity].
Qed.

Lemma requests_bounded_by_timeout_witness :
  let st :=
    App.setStudentInfo
      (StudentInfoForm.name_onChange (JS.lit "김철수")) App.initial in
  exists config t outcome,
    snd (App.handleGenerate_begin st) = Some config
    /\ Api.timeout config = 60000%Z
    /\ Api.send config (Api.Silent (A := OpinionData)) = Some (t, outcome)
    /\ (t <= 60000)%Z
    /\ t = 60000%Z
    /\ outcome = Rejected (ErrorObject Api.connection_message).
Proof.
  intros st.
  pose proof requests_bounded_by_timeout as [_ [_ [_ [_ [Hgen Hsend]]]]].
  set (config := Api.post_config (JS.lit "/generate-opinions")
                   (App.generate_body (App.studentInfo st))).
  assert (Hc : snd (App.handleGenerate_begin st) = Some config)
    by reflexivity.
  pose proof (Hgen st config Hc) as Ht.
  destruct (Hsend OpinionData config Api.Silent Ht)
    as [t [outcome [Hs [Hle Hlate]]]].
  destruct (Hlate eq_refl) as [Heq Hout].
  exists config, t, outcome. repeat split; assumption.
Defined.

(** ** The response interceptor *)

Lemma or_else_some (d b : JS.jsstring) :
  d <> [] -> Api.or_else (Some d) b = d.
Proof. destruct d; [contradiction | reflexivity]. Qed.

Lemma or_else_falsy (a : option JS.jsstring) (b : JS.jsstring) :
  a = None \/ a = Some [] -> Api.or_else a b = b.
Proof. intros [-> | ->]; reflexivity. Qed.

(** C9, as stated, fails: a failed response whose [detail] is present and
    is the empty string is surfaced with the status text, not with the
    [detail] string. *)
Lemma empty_detail_not_surfaced :
  let error :=
    {| Api.response := Some Api.empty_detail_response;
       Api.request := true |} in
  Api.data_detail (Api.response_data Api.empty_detail_response) = Some []
  /\ Api.response_interceptor_rejected error
     = ErrorObject (JS.lit "Bad Request")
  /\ Api.error_message error <> []
  /\ ~ (forall r d,
           Api.data_detail (Api.response_data r) = Some d ->
           Api.error_message {| Api.response := Some r; Api.request := true |}
           = d).
Proof.
  split; [reflexivity | split; [reflexivity | split]].
  - vm_compute. discriminate.
  - intros H.
    specialize (H Api.empty_detail_response [] eq_refl).
    vm_compute in H. discriminate H.
Qed.

(** C9, amended: for a failed response the surfaced error is an [Error]
    whose message is the [detail] string when it is present and
    non-empty, else the status text when that is non-empty, else the fixed
    generic message; for a request that got no response it is the fixed
    connection-failure message.  The message is a function of the [detail]
    field and the status text alone, and a plain-text payload is never the
    source of the message. *)
Theorem error_message_sources :
  forall error : Api.AxiosError,
    Api.response_interceptor_rejected error
    = ErrorObject (Api.error_message error)
    /\ (forall r,
           Api.response error = Some r ->
           let detail := Api.data_detail (Api.response_data r) in
           (forall d, detail = Some d -> d <> [] ->
                      Api.error_message error = d)
           /\ (detail = None \/ detail = Some [] ->
               Api.statusText r <> [] ->
               Api.error_message error = Api.statusText r)
           /\ (detail = None \/ detail = Some [] ->
               Api.statusText r = [] ->
               Api.error_message error = Api.generic_message))
    /\ (Api.response error = None -> Api.request error = true ->
        Api.error_message error = Api.connection_message)
    /\ (forall r r',
           Api.data_detail (Api.response_data r)
           = Api.data_detail (Api.response_data r') ->
           Api.statusText r = Api.statusText r' ->
           Api.response_message r = Api.response_message r')
    /\ (forall r text,
           Api.response error = Some r ->
           Api.response_data r = Api.TextData text ->
           Api.error_message error = Api.or_else (Some (Api.statusText r))
                                       Api.generic_message).
Proof.
  intros error. split; [reflexivity | split; [| split; [| split]]].
  - intros r Hr detail. unfold Api.error_message. rewrite Hr.
    unfold Api.response_message. fold detail. split; [| split].
    + intros d Hd Hne. rewrite Hd.
      rewrite (or_else_some _ _ Hne). apply or_else_some. exact Hne.
    + intros Hd Hs. rewrite (or_else_falsy _ _ Hd).
      apply or_else_some. exact Hs.
    + intros Hd Hs. rewrite (or_else_falsy _ _ Hd). rewrite Hs. reflexivity.
  - intros Hr Hq. unfold Api.error_message. rewrite Hr, Hq. reflexivity.
  - intros r r' Hd Hs. unfold Api.response_message. rewrite Hd, Hs.
    reflexivity.
  - intros r text Hr Hdata. unfold Api.error_message. rewrite Hr.
    unfold Api.response_message. rewrite Hdata. reflexivity.
Qed.

Lemma error_message_sources_witness :
  Api.error_message
    {| Api.response :=
         Some {| Api.status := 400;
                 Api.statusText := JS.lit "Bad Request";
                 Api.response_data :=
                   Api.ObjectData
                     (Some (JS.lit "최소 하나의 입력 필드가 필요합니다."))
                     [] |};
       Api.request := true |}
  = JS.lit "최소 하나의 입력 필드가 필요합니다."
  /\ Api.error_message
       {| Api.response :=
            Some {| Api.status := 502;
                    Api.statusText := JS.lit "Bad Gateway";
                    Api.response_data :=
                      Api.TextData (JS.lit "<html>502</html>") |};
          Api.request := true |}
     = JS.lit "Bad Gateway"
  /\ Api.error_message
       {| Api.response :=
            Some {| Api.status := 500;
                    Api.statusText := [];
                    Api.response_data := Api.NoData |};
          Api.request := true |}
     = Api.generic_message
  /\ Api.error_message {| Api.response := None; Api.request := true |}
     = Api.connection_message.
Proof.
  split; [| split; [| split]].
  - match goal with
    | |- Api.error_message ?e = _ =>
        destruct (error_message_sources e) as [_ [H _]]
    end.
    destruct (H _ eq_refl) as [Hdetail _].
    apply (Hdetail _ eq_refl). vm_compute. discriminate.
  - match goal with
    | |- Api.error_message ?e = _ =>
        destruct (error_message_sources e) as [_ [H _]]
    end.
    destruct (H _ eq_refl) as [_ [Hstatus _]].
    apply (Hstatus (or_introl eq_refl)). vm_compute. discriminate.
  - match goal with
    | |- Api.error_message ?e = _ =>
        destruct (error_message_sources e) as [_ [H _]]
    end.
    destruct (H _ eq_refl) as [_ [_ Hgeneric]].
    exact (Hgeneric (or_introl eq_refl) eq_refl).
  - match goal with
    | |- Api.error_message ?e = _ =>
        destruct (error_message_sources e) as [_ [_ [H _]]]
    end.
    exact (H eq_refl eq_refl).
Defined.

(** ** Copying to the clipboard *)

Lemma filter_fresh (l : list nat) :
  filter (fun m => negb (Nat.eqb (S (list_max l)) m))
    (l ++ [S (list_max l)]) = l.
Proof.
  rewrite filter_app. cbn [filter]. rewrite Nat.eqb_refl. cbn [negb].
  rewrite app_nil_r.
  assert (H : forall bound, (list_max l <= bound)%nat ->
                filter (fun m => negb (Nat.eqb (S bound) m)) l = l).
  { induction l as [|x l IH]; intros bound Hb; [reflexivity|].
    simpl in Hb. cbn [filter].
    destruct (Nat.eqb_spec (S bound) x) as [Heq | Hne]; [lia|].
    cbn [negb]. f_equal. apply IH. lia. }
  apply H. apply Nat.le_refl.
Qed.

Lemma existsb_fresh (l : list nat) (n : nat) :
  existsb (Nat.eqb n) (l ++ [n]) = true.
Proof.
  rewrite existsb_app. simpl. rewrite Nat.eqb_refl.
  rewrite orb_true_r. reflexivity.
Qed.

Ltac run_clipboard :=
  cbv [Clipboard.copyToClipboard Clipboard.copyToClipboard_body
       Clipboard.try_catch Clipboard.bind Clipboard.call
       Clipboard.createElement Clipboard.appendChild Clipboard.execCommand
       Clipboard.removeChild Clipboard.await Clipboard.console_error
       Clipboard.throw Clipboard.ret].

Ltac case_call :=
  match goal with
  | |- context [match Clipboard.writeText ?b with _ => _ end] =>
      let E := fresh "Hwrite" in
      destruct (Clipboard.writeText b) eqn:E; cbv beta iota zeta
  | |- context [match ?write ?text with Fulfilled _ => _ | Rejected _ => _ end] =>
      let E := fresh "Hsettle" in
      destruct (write text) eqn:E; cbv beta iota zeta
  | |- context [match Clipboard.raises ?b ?c with _ => _ end] =>
      let E := fresh "Hcall" in
      destruct (Clipboard.raises b c) eqn:E; cbv beta iota zeta
  | |- context [match Clipboard.execCommand_copy ?b with _ => _ end] =>
      let E := fresh "Hexec" in
      destruct (Clipboard.execCommand_copy b) eqn:E; cbv beta iota zeta
  | |- context [if existsb ?f ?l then _ else _] =>
      let E := fresh "Hchild" in
      destruct (existsb f l) eqn:E; cbv beta iota zeta
  end.

(** The function on its fallback path, when every call before
    [execCommand] goes through. *)
Lemma copyToClipboard_fallback (browser : Clipboard.Browser)
  (text : JS.jsstring) (w : Clipboard.World) :
  Clipboard.reaches_execCommand browser ->
  Clipboard.copyToClipboard browser text w
  = (Fulfilled (Clipboard.execCommand_result browser), w).
Proof.
  intros [Hwrite Hcalls]. run_clipboard.
  rewrite Hwrite, !Hcalls. cbn [Clipboard.body Clipboard.console].
  unfold Clipboard.execCommand_result.
  destruct (Clipboard.execCommand_copy browser) as [e | successful];
    cbn [Clipboard.body Clipboard.console];
    rewrite existsb_fresh; cbn [Clipboard.body Clipboard.console];
    rewrite filter_fresh; destruct w; reflexivity.
Qed.

(** The promise is never rejected. *)
Lemma copyToClipboard_total (browser : Clipboard.Browser)
  (text : JS.jsstring) (w : Clipboard.World) :
  exists b, fst (Clipboard.copyToClipboard browser text w) = Fulfilled b.
Proof.
  unfold Clipboard.copyToClipboard, Clipboard.copyToClipboard_body,
    Clipboard.try_catch.
  match goal with
  | |- context [match ?m w with _ => _ end] => destruct (m w) as [[b | e] w']
  end.
  - exists b. reflexivity.
  - exists false. reflexivity.
Qed.

(** [true] comes only from a mechanism that reported success. *)
Lemma copyToClipboard_true (browser : Clipboard.Browser)
  (text : JS.jsstring) (w : Clipboard.World) :
  fst (Clipboard.copyToClipboard browser text w) = Fulfilled true ->
  Clipboard.reports_success browser text.
Proof.
  unfold Clipboard.reports_success. run_clipboard.
  repeat case_call; cbn [fst]; intros H; try discriminate H.
  - left. eexists. split; [reflexivity|].
    destruct value. assumption.
  - right. split; [reflexivity|]. congruence.
Qed.

(** When the Clipboard API is missing and [execCommand] does not report
    success, the result is [false]. *)
Lemma copyToClipboard_exec_fails (browser : Clipboard.Browser)
  (text : JS.jsstring) (w : Clipboard.World) :
  Clipboard.writeText browser = None ->
  Clipboard.execCommand_copy browser <> inr true ->
  fst (Clipboard.copyToClipboard browser text w) = Fulfilled false.
Proof.
  intros Hnone Hexec. run_clipboard. rewrite Hnone. cbv beta iota zeta.
  repeat case_call; cbn [fst]; try reflexivity.
  destruct b; [contradiction | reflexivity].
Qed.

(** A call that raises on the path taken makes the result [false]. *)
Lemma copyToClipboard_raises (browser : Clipboard.Browser)
  (text : JS.jsstring) (w : Clipboard.World) (c : Clipboard.Call)
  (e : Thrown) :
  Clipboard.raises browser c = Some e ->
  c = Clipboard.ReadNavigatorClipboard \/ Clipboard.writeText browser = None ->
  fst (Clipboard.copyToClipboard browser text w) = Fulfilled false.
Proof.
  intros Hraise [-> | Hnone]; run_clipboard.
  - rewrite Hraise. reflexivity.
  - rewrite Hnone. cbv beta iota zeta.
    repeat case_call; cbn [fst]; try reflexivity;
      destruct c; congruence.
Qed.

(** A rejected [writeText] makes the result [false]. *)
Lemma copyToClipboard_rejected (browser : Clipboard.Browser)
  (text : JS.jsstring) (w : Clipboard.World)
  (write : JS.jsstring -> Settled unit) (e : Thrown) :
  Clipboard.writeText browser = Some write ->
  write text = Rejected e ->
  fst (Clipboard.copyToClipboard browser text w) = Fulfilled false.
Proof.
  intros Hwrite Hrej. run_clipboard. rewrite Hwrite. cbv beta iota zeta.
  rewrite Hrej.
  repeat case_call; reflexivity.
Qed.

(** C10, as stated, fails: without the Clipboard API the function falls
    back to [execCommand] and returns [true] when that succeeds. *)
Lemma clipboard_absent_returns_true :
  Clipboard.writeText Clipboard.legacy_browser = None
  /\ fst (Clipboard.copyToClipboard Clipboard.legacy_browser
            (JS.lit "성실하고 책임감이 강합니다.") Clipboard.empty_document)
     = Fulfilled true
  /\ ~ (forall browser text w,
           Clipboard.writeText browser = None ->
           fst (Clipboard.copyToClipboard browser text w) = Fulfilled false).
Proof.
  split; [reflexivity | split; [reflexivity |]].
  intros H.
  specialize (H Clipboard.legacy_browser [] Clipboard.empty_document eq_refl).
  vm_compute in H. discriminate H.
Qed.

(** C10, amended: [copyToClipboard] always resolves to a boolean and never
    rejects; it resolves to [true] only when a copy mechanism reported
    success; without the Clipboard API it falls back to [execCommand] and
    resolves to what that reports; it resolves to [false] when
    [execCommand] fails or throws, when [writeText] rejects, and when any
    call on the path raises; on the [execCommand] path the temporary
    textarea is gone from the document afterwards, whether [execCommand]
    returned or threw. *)
Theorem copyToClipboard_safe :
  forall (browser : Clipboard.Browser) (text : JS.jsstring)
         (w : Clipboard.World),
    let result := Clipboard.copyToClipboard browser text w in
    (exists b, fst result = Fulfilled b)
    /\ (fst result = Fulfilled true ->
        Clipboard.reports_success browser text)
    /\ (Clipboard.writeText browser = None ->
        Clipboard.execCommand_copy browser <> inr true ->
        fst result = Fulfilled false)
    /\ (forall write e,
           Clipboard.writeText browser = Some write ->
           write text = Rejected e ->
           fst result = Fulfilled false)
    /\ (forall c e,
           Clipboard.raises browser c = Some e ->
           c = Clipboard.ReadNavigatorClipboard
           \/ Clipboard.writeText browser = None ->
           fst result = Fulfilled false)
    /\ (Clipboard.reaches_execCommand browser ->
        fst result = Fulfilled (Clipboard.execCommand_result browser)
        /\ Clipboard.body (snd result) = Clipboard.body w
        /\ ~ In (S (list_max (Clipboard.body w)))
               (Clipboard.body (snd result))).
Proof.
  intros browser text w result. subst result.
  split; [apply copyToClipboard_total |].
  split; [apply copyToClipboard_true |].
  split; [apply copyToClipboard_exec_fails |].
  split; [intros write e; apply copyToClipboard_rejected |].
  split; [intros c e; apply copyToClipboard_raises |].
  intros Hpath. rewrite (copyToClipboard_fallback browser text w Hpath).
  cbn [fst snd]. split; [reflexivity | split; [reflexivity |]].
  intros Hin.
  assert (Hle : (S (list_max (Clipboard.body w))
                 <= list_max (Clipboard.body w))%nat).
  { pose proof (proj1 (list_max_le (Clipboard.body w)
                         (list_max (Clipboard.body w)))
                  (Nat.le_refl _)) as Hall.
    rewrite Forall_forall in Hall. apply Hall. exact Hin. }
  lia.
Qed.

Lemma copyToClipboard_safe_witness :
  let browser :=
    {| Clipboard.writeText := None;
       Clipboard.raises := fun _ => None;
       Clipboard.execCommand_copy := inl OtherThrown |} in
  let w := {| Clipboard.body := [3; 7]%nat; Clipboard.console := [] |} in
  let result := Clipboard.copyToClipboard browser (JS.lit "의견") w in
  fst result = Fulfilled false
  /\ Clipboard.body (snd result) = [3; 7]%nat
  /\ ~ In 8%nat (Clipboard.body (snd result)).
Proof.
  intros browser w result.
  assert (Hpath : Clipboard.reaches_execCommand browser)
    by (split; [reflexivity | intros c; reflexivity]).
  destruct (copyToClipboard_safe browser (JS.lit "의견") w)
    as [_ [_ [_ [_ [_ Hfallback]]]]].
  exact (Hfallback Hpath).
Defined.

(** ** Model resolution *)

Lemma find_by_name_some (n : string) (s : Core.ModelCatalogSnapshot)
  (d : Core.ModelDescriptor) :
  ModelResolver.find_by_name n s = Some d ->
  In d (Core.descriptors s) /\ Core.descriptor_name d = n.
Proof.
  unfold ModelResolver.find_by_name. intros H.
  apply find_some in H. destruct H as [Hin Heq].
  apply String.eqb_eq in Heq. split; assumption.
Qed.

Lemma find_by_name_none (n : string) (s : Core.ModelCatalogSnapshot) :
  ModelResolver.find_by_name n s = None <-> ~ ModelResolver.has_name n s.
Proof.
  unfold ModelResolver.find_by_name, ModelResolver.has_name. split.
  - intros H [d [Hin Heq]].
    pose proof (find_none _ _ H d Hin) as Hf. simpl in Hf.
    apply String.eqb_neq in Hf. contradiction.
  - intros Hno.
    destruct (find _ (Core.descriptors s)) as [d|] eqn:E; [|reflexivity].
    exfalso. apply Hno. exists d.
    apply find_some in E. destruct E as [Hin Heq].
    apply String.eqb_eq in Heq. split; assumption.
Qed.

Lemma find_by_name_has (n : string) (s : Core.ModelCatalogSnapshot) :
  ModelResolver.has_name n s ->
  exists d, ModelResolver.find_by_name n s = Some d.
Proof.
  intros Hhas.
  destruct (ModelResolver.find_by_name n s) as [d|] eqn:E.
  - exists d; reflexivity.
  - apply find_by_name_none in E. contradiction.
Qed.

(** The example of section 8: the catalog [lite; pro] has no flash-tier
    entry, so an unknown name resolves to the pro-tier model. *)
Example resolve_unknown_to_pro :
  ModelResolver.resolve "unknown-model"
    {| Core.descriptors :=
         [ ModelCatalog.describe "gemini-2.5-flash-lite" "lite";
           ModelCatalog.describe "gemini-2.5-pro" "pro" ];
       Core.fetched_at := 0 |}
  = inr (ModelCatalog.describe "gemini-2.5-pro" "pro").
Proof. reflexivity. Qed.

(** C2: on a non-empty snapshot [resolve] succeeds for every requested
    name and returns a descriptor of the snapshot: the one with the
    requested name when there is one, else the flash-tier model when
    present, else the pro-tier model when present, else the first
    descriptor; on the empty snapshot it fails with [ModelUnavailable]. *)
Theorem resolve_fallback_order :
  forall (requestedName : string) (snapshot : Core.ModelCatalogSnapshot),
    (Core.descriptors snapshot <> [] ->
     exists d,
       ModelResolver.resolve requestedName snapshot = inr d
       /\ In d (Core.descriptors snapshot)
       /\ (ModelResolver.has_name requestedName snapshot ->
           Core.descriptor_name d = requestedName
           /\ ModelResolver.find_by_name requestedName snapshot = Some d)
       /\ (~ ModelResolver.has_name requestedName snapshot ->
           ModelResolver.has_name ModelResolver.flash_tier snapshot ->
           Core.descriptor_name d = ModelResolver.flash_tier
           /\ ModelResolver.find_by_name ModelResolver.flash_tier snapshot
              = Some d)
       /\ (~ ModelResolver.has_name requestedName snapshot ->
           ~ ModelResolver.has_name ModelResolver.flash_tier snapshot ->
           ModelResolver.has_name ModelResolver.pro_tier snapshot ->
           Core.descriptor_name d = ModelResolver.pro_tier
           /\ ModelResolver.find_by_name ModelResolver.pro_tier snapshot
              = Some d)
       /\ (~ ModelResolver.has_name requestedName snapshot ->
           ~ ModelResolver.has_name ModelResolver.flash_tier snapshot ->
           ~ ModelResolver.has_name ModelResolver.pro_tier snapshot ->
           hd_error (Core.descriptors snapshot) = Some d))
    /\ (Core.descriptors snapshot = [] ->
        ModelResolver.resolve requestedName snapshot
        = inl Core.ModelUnavailable).
Proof.
  intros requestedName snapshot. split.
  - intros Hne. unfold ModelResolver.resolve.
    destruct (ModelResolver.find_by_name requestedName snapshot)
      as [d0|] eqn:E0;
      [| destruct (ModelResolver.find_by_name ModelResolver.flash_tier
                     snapshot) as [d1|] eqn:E1;
         [| destruct (ModelResolver.find_by_name ModelResolver.pro_tier
                        snapshot) as [d2|] eqn:E2;
            [| destruct (Core.descriptors snapshot) as [|d3 rest] eqn:E3;
               [contradiction |] ] ] ];
      eexists; (split; [reflexivity |]);
      (split;
       [ first [ left; reflexivity
               | eapply find_by_name_some; eassumption ] |]);
      repeat split; intros;
      try reflexivity;
      try (eapply find_by_name_some; eassumption);
      try assumption;
      try (exfalso;
           match goal with
           | Hno : ~ ModelResolver.has_name ?n snapshot,
             Hfound : ModelResolver.find_by_name ?n snapshot = Some ?d |- _ =>
               apply Hno; exists d; eapply find_by_name_some; exact Hfound
           | Hhas : ModelResolver.has_name ?n snapshot,
             Hnone : ModelResolver.find_by_name ?n snapshot = None |- _ =>
               apply find_by_name_none in Hnone; contradiction
           end).
  - intros Hempty. unfold ModelResolver.resolve, ModelResolver.find_by_name.
    rewrite Hempty. reflexivity.
Qed.

Lemma resolve_fallback_order_witness :
  let snapshot :=
    {| Core.descriptors :=
         [ ModelCatalog.describe "gemini-2.5-flash-lite" "lite";
           ModelCatalog.describe "gemini-2.5-pro" "pro" ];
       Core.fetched_at := 0 |} in
  Core.descriptors snapshot <> []
  /\ (exists d,
         ModelResolver.resolve "unknown-model" snapshot = inr d
         /\ In d (Core.descriptors snapshot))
  /\ ModelResolver.resolve "unknown-model" ModelCatalog.static_fallback
     = inr (ModelCatalog.describe "gemini-2.5-flash" "Gemini 2.5 Flash")
  /\ ModelResolver.resolve "gemini-2.5-flash"
       {| Core.descriptors := []; Core.fetched_at := 0 |}
     = inl Core.ModelUnavailable.
Proof.
  intros snapshot.
  assert (Hne : Core.descriptors snapshot <> []) by discriminate.
  split; [exact Hne | split; [| split]].
  - destruct (proj1 (resolve_fallback_order "unknown-model" snapshot) Hne)
      as [d [Hd [Hin _]]].
    exists d. split; assumption.
  - reflexivity.
  - exact (proj2 (resolve_fallback_order "gemini-2.5-flash"
                    {| Core.descriptors := []; Core.fetched_at := 0 |})
             eq_refl).
Defined.

(** ** The parser chain *)

Lemma is_empty_true (s : string) :
  ResponseParser.is_empty s = true <-> s = EmptyString.
Proof. destruct s; simpl; split; congruence. Qed.

Lemma is_empty_false (s : string) :
  ResponseParser.is_empty s = false <-> s <> EmptyString.
Proof. destruct s; simpl; split; congruence. Qed.

Lemma lstrip_head (s : string) :
  ResponseParser.lstrip s = EmptyString
  \/ exists c r, ResponseParser.lstrip s = String c r
                 /\ ResponseParser.is_blank c = false.
Proof.
  induction s as [|c r IH]; simpl.
  - left; reflexivity.
  - destruct (ResponseParser.is_blank c) eqn:E; [exact IH |].
    right. exists c, r. split; [reflexivity | exact E].
Qed.

Lemma rstrip_idempotent (s : string) :
  ResponseParser.rstrip (ResponseParser.rstrip s) = ResponseParser.rstrip s.
Proof.
  induction s as [|c r IH]; simpl; [reflexivity|].
  destruct (ResponseParser.is_blank c && ResponseParser.is_empty
                                            (ResponseParser.rstrip r))
    eqn:E; simpl; [reflexivity|].
  rewrite IH, E. reflexivity.
Qed.

Lemma rstrip_nonblank (c : ascii) (r : string) :
  ResponseParser.is_blank c = false ->
  ResponseParser.rstrip (String c r) = String c (ResponseParser.rstrip r).
Proof. intros Hc. cbn [ResponseParser.rstrip]. rewrite Hc. reflexivity. Qed.

(** Trimming a trimmed string changes nothing. *)
Lemma strip_idempotent (s : string) :
  ResponseParser.strip (ResponseParser.strip s) = ResponseParser.strip s.
Proof.
  unfold ResponseParser.strip.
  destruct (lstrip_head s) as [-> | [c [r [-> Hc]]]]; [reflexivity|].
  rewrite (rstrip_nonblank c r Hc).
  cbn [ResponseParser.lstrip]. rewrite Hc.
  rewrite (rstrip_nonblank c _ Hc), rstrip_idempotent. reflexivity.
Qed.

Lemma forallb_nonempty (l : list string) :
  forallb (fun s => negb (ResponseParser.is_empty s)) l = true
  <-> Forall (fun s => s <> EmptyString) l.
Proof.
  rewrite forallb_forall, Forall_forall.
  split; intros H s Hin; specialize (H s Hin).
  - apply negb_true_iff, is_empty_false in H. exact H.
  - apply negb_true_iff, is_empty_false. exact H.
Qed.

(** What the acceptance test returns when it accepts. *)
Lemma five_nonempty_trimmed_some (l ops : list string) :
  ResponseParser.five_nonempty_trimmed l = Some ops ->
  ops = List.map ResponseParser.strip l
  /\ List.length ops = 5%nat
  /\ Forall (fun s => s <> EmptyString /\ ResponseParser.strip s = s) ops.
Proof.
  unfold ResponseParser.five_nonempty_trimmed.
  destruct (_ && _) eqn:E; [|discriminate].
  intros H; injection H as <-.
  apply andb_true_iff in E. destruct E as [Hlen Hall].
  apply Nat.eqb_eq in Hlen. apply forallb_nonempty in Hall.
  split; [reflexivity | split; [exact Hlen |]].
  rewrite Forall_forall in *. intros s Hin. split; [exact (Hall s Hin)|].
  apply in_map_iff in Hin. destruct Hin as [s0 [<- _]].
  apply strip_idempotent.
Qed.

(** The acceptance test accepts exactly the lists of five strings that
    are non-empty once trimmed. *)
Lemma five_nonempty_trimmed_accepts (l : list string) :
  (exists ops, ResponseParser.five_nonempty_trimmed l = Some ops)
  <-> List.length l = 5%nat
      /\ Forall (fun s => ResponseParser.strip s <> EmptyString) l.
Proof.
  unfold ResponseParser.five_nonempty_trimmed.
  rewrite length_map.
  destruct (_ && _) eqn:E.
  - apply andb_true_iff in E. destruct E as [Hlen Hall].
    apply Nat.eqb_eq in Hlen. apply forallb_nonempty in Hall.
    rewrite Forall_map in Hall.
    split; [intros _; split; assumption | intros _; eexists; reflexivity].
  - split; [intros [ops H]; discriminate |].
    intros [Hlen Hall]. exfalso.
    apply andb_false_iff in E. destruct E as [E | E].
    + apply Nat.eqb_neq in E. contradiction.
    + assert (Ht : forallb (fun s => negb (ResponseParser.is_empty s))
                     (List.map ResponseParser.strip l) = true)
        by (apply forallb_nonempty; rewrite Forall_map; exact Hall).
      congruence.
Qed.

Lemma run_yields (t : ResponseParser.Strategy) (raw : Core.RawResponse) :
  (exists ops, ResponseParser.run t raw = Some ops)
  <-> ResponseParser.yields_five t raw.
Proof.
  unfold ResponseParser.run, ResponseParser.yields_five.
  destruct (t raw) as [l|].
  - rewrite five_nonempty_trimmed_accepts. split.
    + intros H. exists l. split; [reflexivity | exact H].
    + intros [l' [Heq H]]. injection Heq as <-. exact H.
  - split; [intros [ops H]; discriminate | intros [l [H _]]; discriminate].
Qed.

Lemma run_none (t : ResponseParser.Strategy) (raw : Core.RawResponse) :
  ResponseParser.run t raw = None <-> ~ ResponseParser.yields_five t raw.
Proof.
  rewrite <- run_yields.
  destruct (ResponseParser.run t raw) as [ops|].
  - split; [discriminate | intros H; exfalso; apply H; eexists; reflexivity].
  - split; [intros _ [ops H]; discriminate | reflexivity].
Qed.

Lemma run_some (t : ResponseParser.Strategy) (raw : Core.RawResponse)
  (ops : list Core.Opinion) :
  ResponseParser.run t raw = Some ops ->
  List.length ops = 5%nat
  /\ Forall (fun s => s <> EmptyString /\ ResponseParser.strip s = s) ops.
Proof.
  unfold ResponseParser.run. destruct (t raw) as [l|]; [|discriminate].
  intros H. apply five_nonempty_trimmed_some in H. tauto.
Qed.

(** The chain fails exactly when no strategy yields five non-empty
    trimmed strings, and then with [ParseError] on the raw text. *)
Lemma first_success_fails (ts : list ResponseParser.Strategy)
  (raw : Core.RawResponse) :
  (forall e, ResponseParser.first_success ts raw = inl e ->
             e = Core.ParseError raw)
  /\ ((exists e, ResponseParser.first_success ts raw = inl e)
      <-> forall t, In t ts -> ~ ResponseParser.yields_five t raw).
Proof.
  induction ts as [|t ts [IHe IHiff]]; simpl.
  - split.
    + intros e H; injection H as <-; reflexivity.
    + split; [intros _ t [] | intros _; eexists; reflexivity].
  - destruct (ResponseParser.run t raw) as [ops|] eqn:E.
    + split; [intros e H; discriminate |].
      split; [intros [e H]; discriminate |].
      intros Hall. exfalso. apply (Hall t (or_introl eq_refl)).
      apply run_yields. exists ops; exact E.
    + split; [exact IHe |].
      rewrite IHiff. apply run_none in E.
      split.
      * intros Hall t' [<- | Hin]; [exact E | exact (Hall t' Hin)].
      * intros Hall t' Hin. apply Hall. right; exact Hin.
Qed.

(** What the chain returns on success is what one of its strategies
    yielded: five non-empty trimmed strings. *)
Lemma first_success_returns (ts : list ResponseParser.Strategy)
  (raw : Core.RawResponse) (ops : list Core.Opinion) :
  ResponseParser.first_success ts raw = inr ops ->
  List.length ops = 5%nat
  /\ Forall (fun s => s <> EmptyString /\ ResponseParser.strip s = s) ops.
Proof.
  induction ts as [|t ts IH]; simpl; [discriminate|].
  destruct (ResponseParser.run t raw) as [ops'|] eqn:E.
  - intros H; injection H as <-. exact (run_some _ _ _ E).
  - exact IH.
Qed.

(** The fixed inputs of section 8, tier by tier. *)

Example parse_structured (decode : ResponseParser.Decoder)
  (raw : Core.RawResponse) :
  decode raw
  = Some (ResponseParser.DArray
            (List.map ResponseParser.DString ["a"; "b"; "c"; "d"; "e"]%string)) ->
  ResponseParser.parse decode raw = inr ["a"; "b"; "c"; "d"; "e"]%string.
Proof.
  intros H. unfold ResponseParser.parse, ResponseParser.tiers.
  cbn [ResponseParser.first_success].
  unfold ResponseParser.run at 1. unfold ResponseParser.structured_parse.
  rewrite H. reflexivity.
Qed.

Example parse_numbered :
  ResponseParser.parse ResponseParser.no_document
    ResponseParser.numbered_input
  = inr ResponseParser.letters.
Proof. vm_compute. reflexivity. Qed.

Example parse_quoted :
  ResponseParser.parse ResponseParser.no_document ResponseParser.quoted_input
  = inr ResponseParser.letters.
Proof. vm_compute. reflexivity. Qed.

Example parse_lines :
  ResponseParser.parse ResponseParser.no_document ResponseParser.lines_input
  = inr ResponseParser.letters.
Proof. vm_compute. reflexivity. Qed.

Example parse_one_line :
  ResponseParser.parse ResponseParser.no_document "only one line"%string
  = inl (Core.ParseError "only one line"%string).
Proof. vm_compute. reflexivity. Qed.

Lemma bounded_length (bound : option nat) (ops : list Core.Opinion) :
  List.length (List.map (OpinionService.bounded bound) ops)
  = List.length ops.
Proof. apply length_map. Qed.

(** C1: a run of the service ends with exactly five opinions or with one
    error, never with another number of opinions; the run ends in
    [Succeeded] in the first case and in [Failed] with that error in the
    second.  The parser returns five non-empty trimmed strings when it
    succeeds, and it fails, with [ParseError] on the raw text, exactly
    when no tier yields exactly five non-empty trimmed strings. *)
Theorem five_opinions_or_error :
  forall (build : Core.StudentAttributes -> string)
         (decode : ResponseParser.Decoder) (provider : Core.Provider)
         (bound : option nat) (attributes : Core.StudentAttributes)
         (requestedName : string) (now : N) (cache : ModelCatalog.Cache)
         (raw : Core.RawResponse),
    let run :=
      OpinionService.generateOpinions build decode provider bound
        attributes requestedName now cache in
    let result := OpinionService.result_of run in
    ((exists ops,
         result = inr ops /\ List.length ops = 5%nat
         /\ last (snd (fst run)) OpinionService.Idle
            = OpinionService.Succeeded)
     \/ (exists e,
            result = inl e
            /\ last (snd (fst run)) OpinionService.Idle
               = OpinionService.Failed e))
    /\ (forall ops,
           ResponseParser.parse decode raw = inr ops ->
           List.length ops = 5%nat
           /\ Forall (fun s => s <> EmptyString
                               /\ ResponseParser.strip s = s) ops)
    /\ (forall e,
           ResponseParser.parse decode raw = inl e ->
           e = Core.ParseError raw)
    /\ (ResponseParser.parse decode raw = inl (Core.ParseError raw)
        <-> forall t,
              In t (ResponseParser.tiers decode) ->
              ~ ResponseParser.yields_five t raw).
Proof.
  intros build decode provider bound attributes requestedName now cache raw
         run result.
  split; [| split; [| split]].
  - subst result run.
    unfold OpinionService.result_of, OpinionService.generateOpinions.
    destruct (ModelCatalog.current provider now cache) as [snapshot cache'].
    destruct (ModelResolver.resolve requestedName snapshot) as [e | model];
      [right; exists e; split; reflexivity |].
    destruct (GenerationClient.generate provider _) as [e | text];
      [right; exists e; split; reflexivity |].
    destruct (ResponseParser.parse decode text) as [e | ops] eqn:Hparse;
      [right; exists e; split; reflexivity |].
    left. eexists. split; [reflexivity |]. split; [| reflexivity].
    rewrite bounded_length.
    exact (proj1 (first_success_returns _ _ _ Hparse)).
  - intros ops H. exact (first_success_returns _ _ _ H).
  - intros e H.
    exact (proj1 (first_success_fails (ResponseParser.tiers decode) raw) e H).
  - destruct (first_success_fails (ResponseParser.tiers decode) raw)
      as [He Hiff].
    unfold ResponseParser.parse. rewrite <- Hiff. split.
    + intros H. eexists; exact H.
    + intros [e H]. rewrite H. f_equal. exact (He e H).
Qed.

Lemma five_opinions_or_error_witness :
  OpinionService.result_of
    (OpinionService.generateOpinions (fun _ => "prompt"%string)
       ResponseParser.no_document OpinionService.numbered_provider None
       OpinionService.sample_attributes "gemini-2.5-flash"%string 0
       ModelCatalog.empty_cache)
  = inr ResponseParser.letters
  /\ List.length ResponseParser.letters = 5%nat
  /\ ResponseParser.parse ResponseParser.no_document "only one line"%string
     = inl (Core.ParseError "only one line"%string)
  /\ forall t,
       In t (ResponseParser.tiers ResponseParser.no_document) ->
       ~ ResponseParser.yields_five t "only one line"%string.
Proof.
  destruct (five_opinions_or_error (fun _ => "prompt"%string)
              ResponseParser.no_document OpinionService.numbered_provider
              None OpinionService.sample_attributes "gemini-2.5-flash"%string 0
              ModelCatalog.empty_cache ResponseParser.numbered_input)
    as [_ [Hfive _]].
  destruct (five_opinions_or_error (fun _ => "prompt"%string)
              ResponseParser.no_document OpinionService.numbered_provider
              None OpinionService.sample_attributes "gemini-2.5-flash"%string 0
              ModelCatalog.empty_cache "only one line"%string)
    as [_ [_ [Herr Hiff]]].
  assert (Hparse : ResponseParser.parse ResponseParser.no_document
                     ResponseParser.numbered_input
                   = inr ResponseParser.letters)
    by (vm_compute; reflexivity).
  assert (Hfail : ResponseParser.parse ResponseParser.no_document
                    "only one line"%string
                  = inl (Core.ParseError "only one line"%string))
    by (vm_compute; reflexivity).
  split; [vm_compute; reflexivity |].
  split; [exact (proj1 (Hfive _ Hparse)) |].
  split; [exact Hfail |].
  exact (proj1 Hiff Hfail).
Defined.

(** * Further properties of the client *)

(** ** Toggling list items *)

Lemma includes_false (array : list JS.jsstring) (item : JS.jsstring) :
  StudentInfoForm.includes array item = false <-> ~ In item array.
Proof.
  rewrite <- includes_In.
  destruct (StudentInfoForm.includes array item); split; congruence.
Qed.

Lemma in_toggleArrayItem_iff (array : list JS.jsstring)
  (item x : JS.jsstring) :
  In x (StudentInfoForm.toggleArrayItem array item)
  <-> (x <> item /\ In x array) \/ (x = item /\ ~ In item array).
Proof.
  unfold StudentInfoForm.toggleArrayItem.
  destruct (StudentInfoForm.includes array item) eqn:E.
  - apply includes_In in E. rewrite in_without. split.
    + intros [Hin Hne]. left. split; assumption.
    + intros [[Hne Hin] | [-> Hno]]; [split; assumption | contradiction].
  - apply includes_false in E. rewrite in_app_iff. simpl. split.
    + intros [Hin | [<- | []]].
      * left. split; [intros ->; contradiction | exact Hin].
      * right. split; [reflexivity | exact E].
    + intros [[Hne Hin] | [-> Hno]]; [left; exact Hin | right; left; reflexivity].
Qed.

(** X1: toggling an item flips whether the list includes it and leaves
    the membership of every other item as it was. *)
Theorem toggleArrayItem_flips :
  forall (array : list JS.jsstring) (item other : JS.jsstring),
    StudentInfoForm.includes (StudentInfoForm.toggleArrayItem array item) item
    = negb (StudentInfoForm.includes array item)
    /\ (other <> item ->
        StudentInfoForm.includes
          (StudentInfoForm.toggleArrayItem array item) other
        = StudentInfoForm.includes array other).
Proof.
  intros array item other. split.
  - destruct (StudentInfoForm.includes array item) eqn:E; simpl.
    + apply includes_false. rewrite in_toggleArrayItem_iff.
      apply includes_In in E. intros [[Hne _] | [_ Hno]];
        [apply Hne; reflexivity | contradiction].
    + apply includes_In. rewrite in_toggleArrayItem_iff.
      apply includes_false in E. right. split; [reflexivity | exact E].
  - intros Hne.
    destruct (StudentInfoForm.includes array other) eqn:E.
    + apply includes_In. rewrite in_toggleArrayItem_iff.
      apply includes_In in E. left. split; assumption.
    + apply includes_false. rewrite in_toggleArrayItem_iff.
      apply includes_false in E. intros [[_ Hin] | [Heq _]]; contradiction.
Qed.

Lemma toggleArrayItem_flips_witness :
  StudentInfoForm.includes
    (StudentInfoForm.toggleArrayItem
       [JS.lit "수학"; JS.lit "영어"] (JS.lit "수학"))
    (JS.lit "영어")
  = true.
Proof.
  refine (proj2 (toggleArrayItem_flips
                   [JS.lit "수학"; JS.lit "영어"] (JS.lit "수학")
                   (JS.lit "영어")) _).
  vm_compute. discriminate.
Defined.

Lemma without_NoDup (array : list JS.jsstring) (item : JS.jsstring) :
  NoDup array -> NoDup (StudentInfoForm.without array item).
Proof. intros H. apply NoDup_filter. exact H. Qed.

Lemma toggleArrayItem_NoDup (array : list JS.jsstring) (item : JS.jsstring) :
  NoDup array -> NoDup (StudentInfoForm.toggleArrayItem array item).
Proof.
  intros H. unfold StudentInfoForm.toggleArrayItem.
  destruct (StudentInfoForm.includes array item) eqn:E.
  - apply without_NoDup. exact H.
  - apply includes_false in E.
    apply NoDup_app; [exact H | repeat constructor; intros [] |].
    intros x Hin [<- | []]. contradiction.
Qed.

Lemma without_absent_id (array : list JS.jsstring) (item : JS.jsstring) :
  ~ In item array -> StudentInfoForm.without array item = array.
Proof.
  unfold StudentInfoForm.without. induction array as [|x l IH]; intros Hno.
  - reflexivity.
  - cbn [filter].
    destruct (JS.eqb x item) eqn:E.
    + apply js_eqb_eq in E. subst. exfalso. apply Hno. left; reflexivity.
    + cbn [negb]. f_equal. apply IH. intros Hin. apply Hno. right; exact Hin.
Qed.

(** X2: toggling the same item twice gives back the same items: the list
    itself when the item was not in it, and otherwise the list with the
    item taken out and put at the end.  For a list without repetitions
    the result is a permutation of the list, and it is the list itself
    exactly when the item was not in it or was its last element. *)
Theorem toggleArrayItem_twice :
  forall (array : list JS.jsstring) (item : JS.jsstring),
    (StudentInfoForm.includes array item = false ->
     StudentInfoForm.toggleArrayItem
       (StudentInfoForm.toggleArrayItem array item) item = array)
    /\ (StudentInfoForm.includes array item = true ->
        StudentInfoForm.toggleArrayItem
          (StudentInfoForm.toggleArrayItem array item) item
        = StudentInfoForm.without array item ++ [item])
    /\ (NoDup array ->
        Permutation
          (StudentInfoForm.toggleArrayItem
             (StudentInfoForm.toggleArrayItem array item) item)
          array)
    /\ (NoDup array ->
        (StudentInfoForm.toggleArrayItem
           (StudentInfoForm.toggleArrayItem array item) item = array
         <-> StudentInfoForm.includes array item = false
             \/ exists front, array = front ++ [item])).
Proof.
  intros array item.
  assert (Habsent : StudentInfoForm.includes array item = false ->
                    StudentInfoForm.toggleArrayItem
                      (StudentInfoForm.toggleArrayItem array item) item
                    = array).
  { intros E. unfold StudentInfoForm.toggleArrayItem at 2. rewrite E.
    unfold StudentInfoForm.toggleArrayItem.
    assert (Hin : StudentInfoForm.includes (array ++ [item]) item = true)
      by (apply includes_In, in_or_app; right; left; reflexivity).
    rewrite Hin. unfold StudentInfoForm.without.
    rewrite filter_app. cbn [filter]. rewrite js_eqb_refl. cbn [negb].
    rewrite app_nil_r. apply without_absent_id.
    apply includes_false. exact E. }
  assert (Hpresent : StudentInfoForm.includes array item = true ->
                     StudentInfoForm.toggleArrayItem
                       (StudentInfoForm.toggleArrayItem array item) item
                     = StudentInfoForm.without array item ++ [item]).
  { intros E. unfold StudentInfoForm.toggleArrayItem at 2. rewrite E.
    unfold StudentInfoForm.toggleArrayItem.
    assert (Hno : StudentInfoForm.includes
                    (StudentInfoForm.without array item) item = false)
      by (apply includes_false, without_absent).
    rewrite Hno. reflexivity. }
  split; [exact Habsent | split; [exact Hpresent | split]].
  - intros Hnd. apply NoDup_Permutation.
    + apply toggleArrayItem_NoDup, toggleArrayItem_NoDup. exact Hnd.
    + exact Hnd.
    + intros x. rewrite !in_toggleArrayItem_iff.
      destruct (list_eq_dec N.eq_dec x item) as [-> | Hne];
        destruct (in_dec (list_eq_dec N.eq_dec) item array) as [Hin | Hno];
        intuition congruence.
  - intros Hnd. split.
    + intros Hsame.
      destruct (StudentInfoForm.includes array item) eqn:E;
        [| left; reflexivity].
      right. exists (StudentInfoForm.without array item).
      rewrite <- (Hpresent eq_refl). symmetry. exact Hsame.
    + intros [E | [front ->]]; [exact (Habsent E) |].
      assert (Hin : StudentInfoForm.includes (front ++ [item]) item = true)
        by (apply includes_In, in_or_app; right; left; reflexivity).
      rewrite (Hpresent Hin). f_equal.
      unfold StudentInfoForm.without. rewrite filter_app. cbn [filter].
      rewrite js_eqb_refl. cbn [negb]. rewrite app_nil_r.
      apply without_absent_id.
      apply NoDup_remove_2 in Hnd. rewrite app_nil_r in Hnd. exact Hnd.
Qed.

Lemma toggleArrayItem_twice_witness :
  StudentInfoForm.toggleArrayItem
    (StudentInfoForm.toggleArrayItem [JS.lit "국어"] (JS.lit "수학"))
    (JS.lit "수학")
  = [JS.lit "국어"]
  /\ StudentInfoForm.toggleArrayItem
       (StudentInfoForm.toggleArrayItem
          [JS.lit "수학"; JS.lit "국어"] (JS.lit "수학"))
       (JS.lit "수학")
     = [JS.lit "국어"; JS.lit "수학"]
  /\ Permutation
       (StudentInfoForm.toggleArrayItem
          (StudentInfoForm.toggleArrayItem
             [JS.lit "수학"; JS.lit "국어"] (JS.lit "수학"))
          (JS.lit "수학"))
       [JS.lit "수학"; JS.lit "국어"]
  /\ StudentInfoForm.toggleArrayItem
       (StudentInfoForm.toggleArrayItem
          [JS.lit "국어"; JS.lit "수학"] (JS.lit "수학"))
       (JS.lit "수학")
     = [JS.lit "국어"; JS.lit "수학"].
Proof.
  assert (Hnd : forall a b : JS.jsstring, a <> b -> NoDup [a; b]).
  { intros a b Hab. repeat constructor; simpl; intuition congruence. }
  split; [| split; [| split]].
  - apply (proj1 (toggleArrayItem_twice [JS.lit "국어"] (JS.lit "수학"))).
    reflexivity.
  - apply (proj1 (proj2 (toggleArrayItem_twice
                           [JS.lit "수학"; JS.lit "국어"] (JS.lit "수학")))).
    reflexivity.
  - apply (proj1 (proj2 (proj2 (toggleArrayItem_twice
                                  [JS.lit "수학"; JS.lit "국어"]
                                  (JS.lit "수학"))))).
    apply Hnd. vm_compute. discriminate.
  - apply (proj2 (proj2 (proj2 (toggleArrayItem_twice
                                  [JS.lit "국어"; JS.lit "수학"]
                                  (JS.lit "수학"))))).
    + apply Hnd. vm_compute. discriminate.
    + right. exists [JS.lit "국어"]. reflexivity.
Defined.

(** ** Invariants of the form state *)

Lemma apply_edit_NoDup (e : App.Edit) (info : StudentInfo) :
  NoDup (goodSubjects info) /\ NoDup (weakSubjects info)
  /\ NoDup (personality info) ->
  NoDup (goodSubjects (App.apply_edit e info))
  /\ NoDup (weakSubjects (App.apply_edit e info))
  /\ NoDup (personality (App.apply_edit e info)).
Proof.
  intros [Hg [Hw Hp]].
  destruct e as [subject [|] | trait | | | | raw | raw | raw | m | ]; simpl;
    repeat split;
    try assumption; try apply NoDup_nil;
    try (apply toggleArrayItem_NoDup; assumption);
    try (apply without_NoDup; assumption).
Qed.

Lemma reachable_NoDup (info : StudentInfo) :
  App.reachable info ->
  NoDup (goodSubjects info) /\ NoDup (weakSubjects info)
  /\ NoDup (personality info).
Proof.
  induction 1 as [|e info Hr IH].
  - simpl. repeat split; apply NoDup_nil.
  - apply apply_edit_NoDup. exact IH.
Qed.

(** X3: in every reachable form state none of the three selection lists
    holds an item twice, and a toggle never introduces a repetition. *)
Theorem selections_without_repetition :
  (forall array item,
      NoDup array -> NoDup (StudentInfoForm.toggleArrayItem array item))
  /\ (forall info,
         App.reachable info ->
         NoDup (goodSubjects info) /\ NoDup (weakSubjects info)
         /\ NoDup (personality info)).
Proof.
  split; [exact toggleArrayItem_NoDup | exact reachable_NoDup].
Qed.

Lemma selections_without_repetition_witness :
  let info :=
    App.apply_edit (App.SubjectToggle (JS.lit "수학") StudentInfoForm.good)
      (App.apply_edit (App.SubjectToggle (JS.lit "수학") StudentInfoForm.good)
         (App.apply_edit
            (App.SubjectToggle (JS.lit "수학") StudentInfoForm.good)
            App.initialStudentInfo)) in
  goodSubjects info = [JS.lit "수학"]
  /\ NoDup (goodSubjects info) /\ NoDup (weakSubjects info)
  /\ NoDup (personality info).
Proof.
  intros info. split; [reflexivity |].
  apply (proj2 selections_without_repetition info). repeat constructor.
Defined.

Lemma ui_reachable_reachable (info : StudentInfo) :
  Ui.reachable info -> App.reachable info.
Proof.
  induction 1 as [|e info Hoff Hr IH]; [constructor |].
  constructor. exact IH.
Qed.

Lemma apply_edit_vocabulary (e : App.Edit) (info : StudentInfo) :
  Ui.offered e = true ->
  incl (goodSubjects info) StudentInfoForm.SUBJECTS
  /\ incl (weakSubjects info) StudentInfoForm.SUBJECTS
  /\ incl (personality info) StudentInfoForm.PERSONALITY_TRAITS ->
  incl (goodSubjects (App.apply_edit e info)) StudentInfoForm.SUBJECTS
  /\ incl (weakSubjects (App.apply_edit e info)) StudentInfoForm.SUBJECTS
  /\ incl (personality (App.apply_edit e info))
       StudentInfoForm.PERSONALITY_TRAITS.
Proof.
  intros Hoff [Hg [Hw Hp]].
  assert (Htoggle : forall array item vocabulary,
             incl array vocabulary -> In item vocabulary ->
             incl (StudentInfoForm.toggleArrayItem array item) vocabulary).
  { intros array item vocabulary Hincl Hitem x Hx.
    apply in_toggleArrayItem in Hx. destruct Hx as [Hx | ->];
      [apply Hincl; exact Hx | exact Hitem]. }
  assert (Hwithout : forall array item vocabulary,
             incl array vocabulary ->
             incl (StudentInfoForm.without array item) vocabulary).
  { intros array item vocabulary Hincl x Hx.
    apply in_without in Hx. apply Hincl. tauto. }
  destruct e as [subject [|] | trait | | | | raw | raw | raw | m | ];
    simpl in Hoff |- *; repeat split;
    try assumption;
    try (intros x []);
    try (apply Hwithout; assumption);
    try (apply Htoggle; [assumption | apply includes_In; exact Hoff]).
Qed.

(** X4: in every state reached through the form's buttons and inputs,
    the chosen subjects come from [SUBJECTS] and the chosen traits from
    [PERSONALITY_TRAITS]; since good and weak subjects are disjoint and
    without repetition, at most 10 subjects are chosen in all, and at most
    10 traits. *)
Theorem selections_within_vocabulary :
  forall info,
    Ui.reachable info ->
    incl (goodSubjects info) StudentInfoForm.SUBJECTS
    /\ incl (weakSubjects info) StudentInfoForm.SUBJECTS
    /\ incl (personality info) StudentInfoForm.PERSONALITY_TRAITS
    /\ (List.length (goodSubjects info) + List.length (weakSubjects info)
        <= 10)%nat
    /\ (List.length (personality info) <= 10)%nat.
Proof.
  intros info Hui.
  assert (Hvoc : incl (goodSubjects info) StudentInfoForm.SUBJECTS
                 /\ incl (weakSubjects info) StudentInfoForm.SUBJECTS
                 /\ incl (personality info)
                      StudentInfoForm.PERSONALITY_TRAITS).
  { induction Hui as [|e info Hoff Hr IH].
    - simpl. repeat split; intros x [].
    - apply apply_edit_vocabulary; assumption. }
  destruct Hvoc as [Hg [Hw Hp]].
  pose proof (ui_reachable_reachable info Hui) as Hr.
  destruct (reachable_NoDup info Hr) as [Ng [Nw Np]].
  pose proof (reachable_disjoint info Hr) as Hd.
  repeat split; try assumption.
  - rewrite <- length_app.
    change 10%nat with (List.length StudentInfoForm.SUBJECTS).
    apply NoDup_incl_length.
    + apply NoDup_app; [exact Ng | exact Nw |].
      intros x Hx Hy. exact (Hd x Hx Hy).
    + intros x Hx. apply in_app_or in Hx. destruct Hx; [apply Hg | apply Hw];
        assumption.
  - change 10%nat with (List.length StudentInfoForm.PERSONALITY_TRAITS).
    apply NoDup_incl_length; assumption.
Qed.

Lemma selections_within_vocabulary_witness :
  let info :=
    App.apply_edit (App.PersonalityToggle (JS.lit "성실함"))
      (App.apply_edit (App.SubjectToggle (JS.lit "수학") StudentInfoForm.good)
         App.initialStudentInfo) in
  goodSubjects info = [JS.lit "수학"]
  /\ incl (goodSubjects info) StudentInfoForm.SUBJECTS
  /\ (List.length (goodSubjects info) + List.length (weakSubjects info)
      <= 10)%nat.
Proof.
  intros info.
  assert (Hui : Ui.reachable info).
  { apply Ui.reachable_edit; [reflexivity |].
    apply Ui.reachable_edit; [reflexivity |].
    apply Ui.reachable_initial. }
  destruct (selections_within_vocabulary info Hui) as [Hg [_ [_ [Hlen _]]]].
  split; [reflexivity | split; assumption].
Defined.

(** ** Trimming *)

Lemma trimStart_blank (s : JS.jsstring) :
  JS.trimStart s = [] <-> Ui.blank s = true.
Proof.
  unfold Ui.blank. induction s as [|c r IH]; simpl; [tauto |].
  destruct (JS.is_space c); simpl; [exact IH | split; discriminate].
Qed.

Lemma trimStart_clean (s : JS.jsstring) :
  Ui.starts_clean (JS.trimStart s) = true.
Proof.
  induction s as [|c r IH]; simpl; [reflexivity |].
  destruct (JS.is_space c) eqn:E; [exact IH |]. simpl. rewrite E. reflexivity.
Qed.

Lemma trimStart_length (s : JS.jsstring) :
  (List.length (JS.trimStart s) <= List.length s)%nat.
Proof.
  induction s as [|c r IH]; simpl; [lia |].
  destruct (JS.is_space c); simpl; lia.
Qed.

Lemma trimStart_clean_id (s : JS.jsstring) :
  Ui.starts_clean s = true -> JS.trimStart s = s.
Proof.
  destruct s as [|c r]; simpl; [reflexivity |].
  intros H. apply negb_true_iff in H. rewrite H. reflexivity.
Qed.

Lemma trimStart_snoc (l : JS.jsstring) (c : JS.code_unit) :
  JS.is_space c = false ->
  JS.trimStart (l ++ [c]) = JS.trimStart l ++ [c].
Proof.
  intros Hc. induction l as [|x l IH]; simpl.
  - rewrite Hc. reflexivity.
  - destruct (JS.is_space x); [exact IH | reflexivity].
Qed.

Lemma blank_rev (s : JS.jsstring) : Ui.blank (rev s) = Ui.blank s.
Proof.
  unfold Ui.blank.
  destruct (forallb JS.is_space s) eqn:E.
  - rewrite forallb_forall in *. intros x Hx. apply E, in_rev. exact Hx.
  - destruct (forallb JS.is_space (rev s)) eqn:E'; [| reflexivity].
    rewrite forallb_forall in E'.
    assert (H : forallb JS.is_space s = true)
      by (apply forallb_forall; intros x Hx; apply E'; rewrite <- in_rev;
          exact Hx).
    congruence.
Qed.

Lemma trimEnd_blank (s : JS.jsstring) :
  JS.trimEnd s = [] <-> Ui.blank s = true.
Proof.
  unfold JS.trimEnd. rewrite <- blank_rev, <- trimStart_blank.
  split; intros H.
  - apply (f_equal (@rev _)) in H. rewrite rev_involutive in H. exact H.
  - rewrite H. reflexivity.
Qed.

Lemma trim_blank (s : JS.jsstring) : JS.trim s = [] <-> Ui.blank s = true.
Proof.
  unfold JS.trim. split.
  - intros H. apply trimEnd_blank in H. apply trimStart_blank.
    pose proof (trimStart_clean s) as Hc.
    destruct (JS.trimStart s) as [|c r]; [reflexivity |].
    simpl in Hc. apply negb_true_iff in Hc.
    unfold Ui.blank in H. simpl in H. rewrite Hc in H. discriminate H.
  - intros H. apply trimStart_blank in H. rewrite H. reflexivity.
Qed.

Lemma trim_length (s : JS.jsstring) :
  (List.length (JS.trim s) <= List.length s)%nat.
Proof.
  unfold JS.trim, JS.trimEnd. rewrite length_rev.
  pose proof (trimStart_length (rev (JS.trimStart s))) as H1.
  rewrite length_rev in H1.
  pose proof (trimStart_length s). lia.
Qed.

Lemma trim_clean (s : JS.jsstring) :
  Ui.starts_clean (JS.trim s) = true /\ Ui.ends_clean (JS.trim s) = true.
Proof.
  unfold JS.trim, JS.trimEnd, Ui.ends_clean. split.
  - pose proof (trimStart_clean s) as Hc.
    destruct (JS.trimStart s) as [|c r]; [reflexivity |].
    simpl in Hc. apply negb_true_iff in Hc.
    simpl rev. rewrite (trimStart_snoc _ _ Hc).
    rewrite rev_app_distr. simpl. rewrite Hc. reflexivity.
  - rewrite rev_involutive. apply trimStart_clean.
Qed.

Lemma trim_idempotent (s : JS.jsstring) : JS.trim (JS.trim s) = JS.trim s.
Proof.
  destruct (trim_clean s) as [Hs He].
  unfold JS.trim at 1. rewrite (trimStart_clean_id _ Hs).
  unfold JS.trimEnd. unfold Ui.ends_clean in He.
  rewrite (trimStart_clean_id _ He). apply rev_involutive.
Qed.

(** ** What counts as input *)

(** X6: a name or characteristics text made of white space only counts as
    empty: [handleGenerate] refuses (validation error, no request) exactly
    when both texts are blank and the three lists are empty, and issues
    one request otherwise. *)
Theorem blank_fields_are_no_input :
  forall (net : Api.Network OpinionData) (st : App.State),
    let info := App.studentInfo st in
    let nothing :=
      Ui.blank (name info) = true /\ Ui.blank (characteristics info) = true
      /\ goodSubjects info = [] /\ weakSubjects info = []
      /\ personality info = [] in
    (App.hasInput info = false <-> nothing)
    /\ (snd (App.handleGenerate net st) = [] <-> nothing)
    /\ (nothing ->
        App.error (fst (App.handleGenerate net st))
        = Some App.validation_message).
Proof.
  intros net st info nothing. subst nothing.
  assert (Hiff : App.hasInput info = false <->
                 Ui.blank (name info) = true
                 /\ Ui.blank (characteristics info) = true
                 /\ goodSubjects info = [] /\ weakSubjects info = []
                 /\ personality info = []).
  { rewrite hasInput_false, !trim_blank. tauto. }
  split; [exact Hiff | split].
  - rewrite <- Hiff.
    unfold App.handleGenerate, App.handleGenerate_begin. fold info.
    destruct (App.hasInput info); simpl.
    + destruct (Api.send _ net) as [[t outcome]|]; simpl;
        split; discriminate.
    + split; reflexivity.
  - intros Hnothing. apply Hiff in Hnothing.
    unfold App.handleGenerate, App.handleGenerate_begin. fold info.
    rewrite Hnothing. reflexivity.
Qed.

Lemma blank_fields_are_no_input_witness :
  let st :=
    App.setStudentInfo
      (StudentInfoForm.name_onChange (JS.lit "   ")) App.initial in
  name (App.studentInfo st) = JS.lit "   "
  /\ App.error (fst (App.handleGenerate Api.Silent st))
     = Some App.validation_message.
Proof.
  intros st. split; [reflexivity |].
  apply (proj2 (proj2 (blank_fields_are_no_input Api.Silent st))).
  repeat split.
Defined.

(** ** The displayed target length *)

Lemma digit_of_decimal (d : Z) :
  (0 <= d < 10)%Z ->
  StudentInfoForm.digit_of (Z.to_N (48 + d)) = Some d
  /\ Ui.decimal_digit (Z.to_N (48 + d)).
Proof.
  intros Hd.
  assert (Hcases : (d = 0 \/ d = 1 \/ d = 2 \/ d = 3 \/ d = 4 \/ d = 5
                   \/ d = 6 \/ d = 7 \/ d = 8 \/ d = 9)%Z) by lia.
  unfold Ui.decimal_digit.
  repeat (destruct Hcases as [-> | Hcases]); try subst d;
    (split; [reflexivity | vm_compute; split; discriminate]).
Qed.

Lemma decimal_spec (fuel : nat) :
  forall (n : Z) (acc : JS.jsstring),
    (0 <= n < 2 ^ Z.of_nat fuel)%Z -> (1 <= fuel)%nat ->
    StudentInfoForm.read_digits 10 (Ui.decimal fuel n acc) None
    = StudentInfoForm.read_digits 10 acc (Some n)
    /\ (Forall Ui.decimal_digit acc ->
        Forall Ui.decimal_digit (Ui.decimal fuel n acc))
    /\ Ui.decimal fuel n acc <> [].
Proof.
  induction fuel as [|fuel IH]; intros n acc Hn Hfuel; [lia |].
  cbn [Ui.decimal].
  assert (Hmod : (0 <= n mod 10 < 10)%Z) by (apply Z.mod_pos_bound; lia).
  destruct (digit_of_decimal _ Hmod) as [Hdigit Hchar].
  destruct (n / 10 =? 0)%Z eqn:E.
  - apply Z.eqb_eq in E.
    assert (Hsmall : (n mod 10 = n)%Z).
    { pose proof (Z.div_mod n 10 ltac:(lia)) as Hdm. rewrite E in Hdm. lia. }
    split; [| split].
    + cbn [StudentInfoForm.read_digits]. rewrite Hdigit.
      assert (Hlt : (n mod 10 <? 10)%Z = true) by (apply Z.ltb_lt; lia).
      rewrite Hlt, Hsmall. reflexivity.
    + intros Hacc. constructor; assumption.
    + discriminate.
  - apply Z.eqb_neq in E.
    assert (Hq : (1 <= n / 10)%Z).
    { assert (0 <= n / 10)%Z by (apply Z.div_pos; lia). lia. }
    assert (Hbound : (n / 10 < 2 ^ Z.of_nat fuel)%Z).
    { rewrite Nat2Z.inj_succ, Z.pow_succ_r in Hn by lia.
      apply Z.div_lt_upper_bound; lia. }
    assert (Hf : (1 <= fuel)%nat).
    { destruct fuel; [simpl in Hbound; lia | lia]. }
    destruct (IH (n / 10)%Z (Z.to_N (48 + n mod 10) :: acc)
                ltac:(lia) Hf) as [Hread [Hall Hne]].
    split; [| split].
    + rewrite Hread. cbn [StudentInfoForm.read_digits]. rewrite Hdigit.
      assert (Hlt : (n mod 10 <? 10)%Z = true) by (apply Z.ltb_lt; lia).
      rewrite Hlt. f_equal. f_equal.
      pose proof (Z.div_mod n 10 ltac:(lia)) as Hdm. lia.
    + intros Hacc. apply Hall. constructor; assumption.
    + exact Hne.
Qed.

Lemma log2_fuel (n : Z) :
  (0 <= n)%Z -> (n < 2 ^ Z.of_nat (S (Z.to_nat (Z.log2 n))))%Z.
Proof.
  intros Hn. rewrite Nat2Z.inj_succ, Z2Nat.id by apply Z.log2_nonneg.
  destruct (Z.eq_dec n 0) as [-> | Hne]; [reflexivity |].
  apply Z.log2_spec. lia.
Qed.

(** [parseInt] of a non-empty run of decimal digits reads all of it in
    radix 10. *)
Ltac decimal_cases c H :=
  let Hcases := fresh "Hcases" in
  assert (Hcases : (c = 48 \/ c = 49 \/ c = 50 \/ c = 51 \/ c = 52
                    \/ c = 53 \/ c = 54 \/ c = 55 \/ c = 56 \/ c = 57)%N)
    by (unfold Ui.decimal_digit in H; lia);
  clear H;
  repeat (destruct Hcases as [Hcases | Hcases]; [subst c |]);
  [.. | subst c].

Ltac run_parseInt :=
  unfold StudentInfoForm.parseInt;
  cbn -[Z.mul];
  match goal with
  | |- context [StudentInfoForm.read_digits ?radix ?s ?acc] =>
      destruct (StudentInfoForm.read_digits radix s acc);
      cbn [option_map]; [f_equal; lia | reflexivity]
  end.

Lemma parseInt_decimal (s : JS.jsstring) :
  s <> [] -> Forall Ui.decimal_digit s ->
  StudentInfoForm.parseInt s = StudentInfoForm.read_digits 10 s None.
Proof.
  intros Hne Hall. destruct s as [|c r]; [contradiction |].
  inversion Hall as [|c' r' Hc Hr]; subst.
  destruct r as [|x r].
  - decimal_cases c Hc; reflexivity.
  - inversion Hr as [|x' r'' Hx Hr']; subst.
    decimal_cases c Hc; decimal_cases x Hx; run_parseInt.
Qed.

(** A minus sign in front of decimal digits negates what they read. *)
Lemma parseInt_minus (s : JS.jsstring) :
  s <> [] -> Forall Ui.decimal_digit s ->
  StudentInfoForm.parseInt (45%N :: s)
  = option_map Z.opp (StudentInfoForm.read_digits 10 s None).
Proof.
  intros Hne Hall. destruct s as [|c r]; [contradiction |].
  inversion Hall as [|c' r' Hc Hr]; subst.
  destruct r as [|x r].
  - decimal_cases c Hc; reflexivity.
  - inversion Hr as [|x' r'' Hx Hr']; subst.
    decimal_cases c Hc; decimal_cases x Hx; run_parseInt.
Qed.

(** Reading back the shown text of an integer gives the integer. *)
Lemma parseInt_toString (n : Z) :
  StudentInfoForm.parseInt (Ui.toString n) = Some n.
Proof.
  unfold Ui.toString. destruct (n <? 0)%Z eqn:E.
  - apply Z.ltb_lt in E.
    destruct (decimal_spec (S (Z.to_nat (Z.log2 (- n)))) (- n) []
                ltac:(split; [lia | apply log2_fuel; lia]) ltac:(lia))
      as [Hread [Hall Hne]].
    rewrite (parseInt_minus _ Hne (Hall (Forall_nil _))), Hread.
    simpl. f_equal. lia.
  - apply Z.ltb_ge in E.
    destruct (decimal_spec (S (Z.to_nat (Z.log2 n))) n []
                ltac:(split; [lia | apply log2_fuel; lia]) ltac:(lia))
      as [Hread [Hall Hne]].
    rewrite (parseInt_decimal _ Hne (Hall (Forall_nil _))), Hread.
    reflexivity.
Qed.

Lemma reachable_targetLength (info : StudentInfo) :
  App.reachable info -> (50 <= targetLength info <= 100)%Z.
Proof.
  induction 1 as [|e info Hr IH]; [simpl; lia |].
  destruct e as [subject [|] | trait | | | | raw | raw | raw | m | ]; simpl;
    lia.
Qed.

(** X5: typing the decimal text of an integer [n] into the target-length
    field stores [n] clamped to [50,100]; the one exception is 0, which
    stores the default 75. *)
Theorem typed_integer_is_clamped :
  forall (n : Z) (prev : StudentInfo),
    targetLength
      (StudentInfoForm.targetLength_onChange (Ui.toString n) prev)
    = if (n =? 0)%Z then 75%Z else Z.min (Z.max n 50) 100.
Proof.
  intros n prev. simpl. unfold StudentInfoForm.parsed_or_default.
  rewrite parseInt_toString.
  destruct (n =? 0)%Z; reflexivity.
Qed.

(** X7: in every reachable form state the target length is between 50 and
    100, and entering the text the field shows for it leaves the state as
    it is. *)
Theorem shown_length_is_stable :
  forall info,
    App.reachable info ->
    (50 <= targetLength info <= 100)%Z
    /\ StudentInfoForm.targetLength_onChange
         (Ui.toString (targetLength info)) info
       = info.
Proof.
  intros info Hr. pose proof (reachable_targetLength info Hr) as Hrange.
  split; [exact Hrange |].
  unfold StudentInfoForm.targetLength_onChange,
    StudentInfoForm.parsed_or_default.
  rewrite parseInt_toString.
  assert (Hnz : (targetLength info =? 0)%Z = false)
    by (apply Z.eqb_neq; lia).
  rewrite Hnz.
  rewrite Z.max_l, Z.min_l by lia.
  destruct info; reflexivity.
Qed.

Lemma shown_length_is_stable_witness :
  let info :=
    App.apply_edit (App.TargetLengthInput (JS.lit "120"))
      App.initialStudentInfo in
  targetLength info = 100%Z
  /\ Ui.toString (targetLength info) = JS.lit "100"
  /\ StudentInfoForm.targetLength_onChange
       (Ui.toString (targetLength info)) info
     = info.
Proof.
  intros info.
  assert (Hr : App.reachable info) by (repeat constructor).
  split; [reflexivity | split; [reflexivity |]].
  exact (proj2 (shown_length_is_stable info Hr)).
Defined.

(** ** The request body *)

Lemma trimmed_or_null_some (s n : JS.jsstring) :
  App.trimmed_or_null s = Some n ->
  n = JS.trim s /\ n <> [].
Proof.
  unfold App.trimmed_or_null.
  destruct (JS.trim s) as [|c r] eqn:E; simpl; [discriminate |].
  intros H; injection H as <-. split; [reflexivity | discriminate].
Qed.

Lemma trimmed_or_null_none (s : JS.jsstring) :
  App.trimmed_or_null s = None <-> Ui.blank s = true.
Proof.
  rewrite <- trim_blank. unfold App.trimmed_or_null.
  destruct (JS.trim s); simpl; split; congruence.
Qed.

(** X8: every request [handleGenerate] issues from a reachable form state
    is within the bounds of the API contract: [target_length] is between
    50 and 100; [name] is null or a non-empty text of at most 5 code units
    with no white space at either end; [characteristics] is null or such
    a text of at most 40 code units; no subject is both good and weak;
    and at least one of the five inputs is present. *)
Theorem request_within_contract :
  forall (st : App.State) (config : Api.RequestConfig),
    App.reachable (App.studentInfo st) ->
    snd (App.handleGenerate_begin st) = Some config ->
    exists body,
      Api.data config = Some body
      /\ (50 <= Api.target_length body <= 100)%Z
      /\ (forall n, Api.body_name body = Some n ->
                    n <> [] /\ (JS.length n <= 5)%nat
                    /\ Ui.starts_clean n = true /\ Ui.ends_clean n = true)
      /\ (forall c, Api.body_characteristics body = Some c ->
                    c <> [] /\ (JS.length c <= 40)%nat
                    /\ Ui.starts_clean c = true /\ Ui.ends_clean c = true)
      /\ (forall s, In s (Api.good_subjects body) ->
                    ~ In s (Api.weak_subjects body))
      /\ (Api.body_name body <> None \/ Api.good_subjects body <> []
          \/ Api.weak_subjects body <> [] \/ Api.body_personality body <> []
          \/ Api.body_characteristics body <> None).
Proof.
  intros st config Hr. unfold App.handleGenerate_begin.
  destruct (App.hasInput (App.studentInfo st)) eqn:Hin; simpl;
    [| discriminate].
  intros H; injection H as <-.
  set (info := App.studentInfo st) in *.
  exists (App.generate_body info). simpl.
  destruct (reachable_caps info Hr) as [Hname Hchar].
  split; [reflexivity |].
  split; [exact (reachable_targetLength info Hr) |].
  assert (Htext : forall raw n cap,
             (JS.length raw <= cap)%nat ->
             App.trimmed_or_null raw = Some n ->
             n <> [] /\ (JS.length n <= cap)%nat
             /\ Ui.starts_clean n = true /\ Ui.ends_clean n = true).
  { intros raw n cap Hcap Hn.
    apply trimmed_or_null_some in Hn. destruct Hn as [-> Hne].
    destruct (trim_clean raw) as [Hs He].
    pose proof (trim_length raw) as Hlen. unfold JS.length in *.
    repeat split; try assumption. lia. }
  split; [intros n; apply Htext; exact Hname |].
  split; [intros c; apply Htext; exact Hchar |].
  split; [exact (reachable_disjoint info Hr) |].
  apply hasInput_true in Hin.
  destruct Hin as [H | [H | [H | [H | H]]]].
  - left. intros Hnone. apply trimmed_or_null_none, trim_blank in Hnone.
    contradiction.
  - right; left; exact H.
  - right; right; left; exact H.
  - right; right; right; left; exact H.
  - right; right; right; right. intros Hnone.
    apply trimmed_or_null_none, trim_blank in Hnone. contradiction.
Qed.

Lemma request_within_contract_witness :
  let st :=
    App.setStudentInfo
      (StudentInfoForm.name_onChange (JS.lit " 김철수 와 영희")) App.initial in
  exists config body,
    snd (App.handleGenerate_begin st) = Some config
    /\ Api.data config = Some body
    /\ Api.body_name body = Some (JS.lit "김철수")
    /\ (50 <= Api.target_length body <= 100)%Z.
Proof.
  intros st.
  assert (Hr : App.reachable (App.studentInfo st))
    by (apply (App.reachable_edit
                 (App.NameInput (JS.lit " 김철수 와 영희")));
        constructor).
  set (config := Api.post_config (JS.lit "/generate-opinions")
                   (App.generate_body (App.studentInfo st))).
  assert (Hc : snd (App.handleGenerate_begin st) = Some config)
    by reflexivity.
  destruct (request_within_contract st config Hr Hc)
    as [body [Hdata [Hlen _]]].
  exists config, body.
  split; [exact Hc | split; [exact Hdata | split; [| exact Hlen]]].
  assert (Hbody : body = App.generate_body (App.studentInfo st)).
  { unfold config, Api.post_config in Hdata. cbn [Api.data] in Hdata.
    injection Hdata as Hdata. symmetry. exact Hdata. }
  rewrite Hbody. reflexivity.
Defined.

(** ** Running a generation *)

(** A request that carries the instance timeout always settles. *)
Lemma send_settles {A : Type} (config : Api.RequestConfig)
  (net : Api.Network A) :
  Api.timeout config = 60000%Z ->
  exists t outcome, Api.send config net = Some (t, outcome).
Proof.
  intros Ht. unfold Api.send, Api.timed_out, Api.request_interceptor.
  rewrite Ht. change (60000 =? 0)%Z with false. cbn [negb andb].
  destruct net as [delay [v | r] | delay | ];
    try destruct (60000 <=? delay)%Z; eexists; eexists; reflexivity.
Qed.

(** X9: with some input given, a run of [handleGenerate] always comes to
    its end, whatever the network does: loading is switched off again and
    the form state is untouched.  When a successful answer arrives in
    time the opinions are replaced by the answer's and no error is shown.
    In every other case the opinions shown before stay and the error is
    set to a non-empty message: the message of the failed response when
    one arrives in time, the connection-failure message otherwise. *)
Theorem generate_comes_to_an_end :
  forall (net : Api.Network OpinionData) (st : App.State),
    App.hasInput (App.studentInfo st) = true ->
    let st' := fst (App.handleGenerate net st) in
    App.isLoading st' = false
    /\ App.studentInfo st' = App.studentInfo st
    /\ (forall delay d,
           net = Api.Answers delay (Api.Success d) ->
           (delay < 60000)%Z ->
           App.opinions st' = opinions d /\ App.error st' = None)
    /\ (forall delay r,
           net = Api.Answers delay (Api.Failure r) ->
           (delay < 60000)%Z ->
           App.opinions st' = App.opinions st
           /\ App.error st' = Some (Api.response_message r)
           /\ Api.response_message r <> [])
    /\ ((forall delay a, net = Api.Answers delay a -> (60000 <= delay)%Z) ->
        App.opinions st' = App.opinions st
        /\ App.error st' = Some Api.connection_message
        /\ Api.connection_message <> []).
Proof.
  intros net st Hin st'. subst st'.
  unfold App.handleGenerate, App.handleGenerate_begin. rewrite Hin.
  cbn [negb].
  set (config := Api.post_config _ _).
  assert (Ht : Api.timeout config = 60000%Z) by reflexivity.
  destruct (send_settles config net Ht) as [t [outcome Hsend]].
  rewrite Hsend. cbn [fst].
  split; [destruct outcome as [[ops] | err]; reflexivity |].
  split; [destruct outcome as [[ops] | err]; reflexivity |].
  unfold Api.send, Api.timed_out, Api.request_interceptor in Hsend.
  rewrite Ht in Hsend. change (60000 =? 0)%Z with false in Hsend.
  cbn [negb andb] in Hsend.
  split; [| split].
  - intros delay d -> Hdelay.
    assert (Hlate : (60000 <=? delay)%Z = false)
      by (apply Z.leb_gt; exact Hdelay).
    rewrite Hlate in Hsend.
    injection Hsend as _ <-. destruct d as [ops]. split; reflexivity.
  - intros delay r -> Hdelay.
    assert (Hlate : (60000 <=? delay)%Z = false)
      by (apply Z.leb_gt; exact Hdelay).
    rewrite Hlate in Hsend.
    injection Hsend as _ <-.
    split; [reflexivity | split; [reflexivity |]].
    exact (error_message_nonempty
             {| Api.response := Some r; Api.request := true |}).
  - intros Hlate.
    assert (Hout : outcome
                   = Rejected (ErrorObject Api.connection_message)).
    { destruct net as [delay a | delay | ].
      - assert (Hl : (60000 <=? delay)%Z = true)
          by (apply Z.leb_le; exact (Hlate delay a eq_refl)).
        rewrite Hl in Hsend. injection Hsend as _ <-. reflexivity.
      - destruct (60000 <=? delay)%Z; injection Hsend as _ <-; reflexivity.
      - injection Hsend as _ <-. reflexivity. }
    subst outcome.
    split; [reflexivity | split; [reflexivity |]].
    vm_compute. discriminate.
Qed.

Lemma generate_comes_to_an_end_witness :
  let st :=
    App.setOpinions [JS.lit "이전 의견"]
      (App.setStudentInfo
         (StudentInfoForm.handleSubjectToggle (JS.lit "수학")
            StudentInfoForm.good)
         App.initial) in
  let st' := fst (App.handleGenerate Api.Silent st) in
  App.isLoading st' = false
  /\ App.studentInfo st' = App.studentInfo st
  /\ App.opinions st' = [JS.lit "이전 의견"]
  /\ App.error st' = Some Api.connection_message.
Proof.
  intros st st'.
  destruct (generate_comes_to_an_end Api.Silent st eq_refl)
    as [Hload [Hinfo [_ [_ Hfail]]]].
  assert (Hnone : forall delay (a : Api.Answer OpinionData),
             Api.Silent = Api.Answers delay a -> (60000 <= delay)%Z)
    by (intros delay a H; discriminate H).
  destruct (Hfail Hnone) as [Hops [Herr _]].
  split; [exact Hload | split; [exact Hinfo | split]].
  - exact Hops.
  - exact Herr.
Defined.

(** X10: [handleRefresh] issues a request exactly when opinions are shown
    and some input is given; with no opinions shown it changes nothing. *)
Theorem refresh_needs_opinions :
  forall (net : Api.Network OpinionData) (st : App.State),
    (snd (App.handleRefresh net st) <> []
     <-> App.opinions st <> []
         /\ App.hasInput (App.studentInfo st) = true)
    /\ (App.opinions st = [] -> App.handleRefresh net st = (st, [])).
Proof.
  intros net st. unfold App.handleRefresh. split.
  - destruct (App.opinions st) as [|o ops] eqn:Eo; simpl.
    + split; [intros H; contradiction | intros [H _]; contradiction].
    + unfold App.handleGenerate, App.handleGenerate_begin.
      destruct (App.hasInput (App.studentInfo st)); simpl.
      * destruct (Api.send _ net) as [[t outcome]|]; simpl;
          (split; [intros _; split; [discriminate | reflexivity]
                  | intros _; discriminate]).
      * split; [intros H; contradiction | intros [_ H]; discriminate].
  - intros ->. reflexivity.
Qed.

Lemma refresh_needs_opinions_witness :
  App.handleRefresh Api.Silent App.initial = (App.initial, []).
Proof.
  apply (proj2 (refresh_needs_opinions Api.Silent App.initial)).
  reflexivity.
Defined.

(** X11: [handleReset] puts back the initial form, clears the opinions
    and the error and leaves the loading flag alone; resetting twice is
    resetting once; and right after a reset neither [handleRefresh] nor
    [handleGenerate] sends anything: the first changes nothing, the second
    shows the validation error. *)
Theorem reset_then_nothing_is_sent :
  forall (net : Api.Network OpinionData) (st : App.State),
    let st0 := App.handleReset st in
    App.studentInfo st0 = App.initialStudentInfo
    /\ App.opinions st0 = []
    /\ App.error st0 = None
    /\ App.isLoading st0 = App.isLoading st
    /\ App.handleReset st0 = st0
    /\ App.handleRefresh net st0 = (st0, [])
    /\ App.handleGenerate net st0
       = (App.setError (Some App.validation_message) st0, []).
Proof.
  intros net st st0. subst st0. repeat split.
Qed.

(** ** The messages of the interceptor *)

(** X12: the interceptor never rejects with an empty message, so every
    failure shows up in the form; a failure with neither response nor
    request gets the set-up message; a response, when there is one,
    decides the message whether or not a request is recorded; and the
    three fixed messages differ from one another. *)
Theorem interceptor_messages :
  forall error : Api.AxiosError,
    Api.error_message error <> []
    /\ (Api.response error = None -> Api.request error = false ->
        Api.error_message error = Api.setup_message)
    /\ (forall r flag,
           Api.response error = Some r ->
           Api.error_message error
           = Api.error_message
               {| Api.response := Some r; Api.request := flag |})
    /\ Api.generic_message <> Api.connection_message
    /\ Api.connection_message <> Api.setup_message
    /\ Api.generic_message <> Api.setup_message.
Proof.
  intros error. split; [apply error_message_nonempty |].
  split; [intros Hr Hq; unfold Api.error_message; rewrite Hr, Hq;
          reflexivity |].
  split; [intros r flag Hr; unfold Api.error_message; rewrite Hr;
          reflexivity |].
  repeat split; vm_compute; discriminate.
Qed.

Lemma interceptor_messages_witness :
  Api.error_message {| Api.response := None; Api.request := false |}
  = Api.setup_message.
Proof.
  exact (proj1 (proj2 (interceptor_messages
                         {| Api.response := None; Api.request := false |}))
           eq_refl eq_refl).
Defined.

(** ** Loading the model list *)

(** X13: [fetchModels] always comes to its end, whatever the network
    does, with loading switched off.  When a successful answer arrives in
    time the selector holds exactly the list the server sent and no
    error.  In every other case it holds the fallback list and a
    non-empty error: the message of the failed response when one arrives
    in time, the connection-failure message otherwise; and the model the
    form selects by default, gemini-2.5-flash, is among the fallback
    options. *)
Theorem fetchModels_comes_to_an_end :
  forall (net : Api.Network ModelSelector.ModelsData)
         (st : ModelSelector.State),
    let st' := ModelSelector.fetchModels net st in
    ModelSelector.isLoading st' = false
    /\ (forall delay d,
           net = Api.Answers delay (Api.Success d) ->
           (delay < 60000)%Z ->
           ModelSelector.models st' = ModelSelector.models_of d
           /\ ModelSelector.error st' = None)
    /\ (forall delay r,
           net = Api.Answers delay (Api.Failure r) ->
           (delay < 60000)%Z ->
           ModelSelector.models st' = ModelSelector.fallback_models
           /\ ModelSelector.error st' = Some (Api.response_message r)
           /\ Api.response_message r <> [])
    /\ ((forall delay a, net = Api.Answers delay a -> (60000 <= delay)%Z) ->
        ModelSelector.models st' = ModelSelector.fallback_models
        /\ ModelSelector.error st' = Some Api.connection_message
        /\ Api.connection_message <> [])
    /\ In (modelName App.initialStudentInfo)
         (List.map ModelSelector.name ModelSelector.fallback_models).
Proof.
  intros net st st'. subst st'. unfold ModelSelector.fetchModels.
  assert (Ht : Api.timeout ModelSelector.fetchModels_request = 60000%Z)
    by reflexivity.
  destruct (send_settles ModelSelector.fetchModels_request net Ht)
    as [t [outcome Hsend]].
  rewrite Hsend.
  split; [destruct outcome; reflexivity |].
  unfold Api.send, Api.timed_out, Api.request_interceptor in Hsend.
  rewrite Ht in Hsend. change (60000 =? 0)%Z with false in Hsend.
  cbn [negb andb] in Hsend.
  split; [| split; [| split]].
  - intros delay d -> Hdelay.
    assert (Hlate : (60000 <=? delay)%Z = false)
      by (apply Z.leb_gt; exact Hdelay).
    rewrite Hlate in Hsend.
    injection Hsend as _ <-. split; reflexivity.
  - intros delay r -> Hdelay.
    assert (Hlate : (60000 <=? delay)%Z = false)
      by (apply Z.leb_gt; exact Hdelay).
    rewrite Hlate in Hsend.
    injection Hsend as _ <-.
    split; [reflexivity | split; [reflexivity |]].
    exact (error_message_nonempty
             {| Api.response := Some r; Api.request := true |}).
  - intros Hlate.
    assert (Hout : outcome
                   = Rejected (ErrorObject Api.connection_message)).
    { destruct net as [delay a | delay | ].
      - assert (Hl : (60000 <=? delay)%Z = true)
          by (apply Z.leb_le; exact (Hlate delay a eq_refl)).
        rewrite Hl in Hsend. injection Hsend as _ <-. reflexivity.
      - destruct (60000 <=? delay)%Z; injection Hsend as _ <-; reflexivity.
      - injection Hsend as _ <-. reflexivity. }
    subst outcome.
    split; [reflexivity | split; [reflexivity |]].
    vm_compute. discriminate.
  - left. reflexivity.
Qed.

Lemma fetchModels_comes_to_an_end_witness :
  let served :=
    {| ModelSelector.models_of :=
         [ {| ModelSelector.name := JS.lit "gemini-2.0-flash";
              ModelSelector.full_name := JS.lit "models/gemini-2.0-flash";
              ModelSelector.display_name := JS.lit "Gemini 2.0 Flash" |} ] |} in
  let loaded :=
    ModelSelector.fetchModels (Api.Answers 120 (Api.Success served))
      ModelSelector.initial in
  let late :=
    ModelSelector.fetchModels (Api.Answers 61000 (Api.Success served))
      ModelSelector.initial in
  (ModelSelector.models loaded = ModelSelector.models_of served
   /\ ModelSelector.error loaded = None)
  /\ ModelSelector.models late = ModelSelector.fallback_models
  /\ ModelSelector.error late = Some Api.connection_message.
Proof.
  intros served loaded late. split.
  - destruct (fetchModels_comes_to_an_end
                (Api.Answers 120 (Api.Success served)) ModelSelector.initial)
      as [_ [Hok _]].
    exact (Hok 120%Z served eq_refl ltac:(lia)).
  - destruct (fetchModels_comes_to_an_end
                (Api.Answers 61000 (Api.Success served))
                ModelSelector.initial)
      as [_ [_ [_ [Hlate _]]]].
    assert (H : forall delay (a : Api.Answer ModelSelector.ModelsData),
               Api.Answers 61000 (Api.Success served) = Api.Answers delay a ->
               (60000 <= delay)%Z)
      by (intros delay a Heq; injection Heq as <- _; lia).
    destruct (Hlate H) as [Hm [He _]]. split; assumption.
Defined.

(** ** Keyboard shortcuts *)

Lemma string_lt_nil (s : JS.jsstring) :
  KeyboardShortcuts.string_lt s [] = false.
Proof. destruct s; reflexivity. Qed.

(** [key >= '1' && key <= '5'] on strings: the key starts with one of the
    digits 1 to 4, or it is exactly "5". *)
Lemma digit_range (k : JS.jsstring) :
  KeyboardShortcuts.string_ge k (JS.lit "1")
  && KeyboardShortcuts.string_le k (JS.lit "5") = true
  <-> exists c rest,
        k = c :: rest
        /\ ((49 <= c <= 52)%N \/ (c = 53%N /\ rest = [])).
Proof.
  unfold KeyboardShortcuts.string_ge, KeyboardShortcuts.string_le.
  change (JS.lit "1") with [49%N]. change (JS.lit "5") with [53%N].
  destruct k as [|c rest]; cbn [KeyboardShortcuts.string_lt].
  - simpl. split; [discriminate | intros [c [rest [H _]]]; discriminate H].
  - rewrite string_lt_nil.
    destruct (N.ltb_spec c 49), (N.ltb_spec 49 c), (N.ltb_spec 53 c),
      (N.ltb_spec c 53); try lia;
      destruct rest as [|x rest]; cbn [negb andb];
      (split;
       [ intros Htrue; try discriminate Htrue;
         eexists; eexists; (split; [reflexivity |]);
         first [left; lia | right; split; [lia | reflexivity]]
       | intros [c' [rest' [Heq Hc]]]; injection Heq as <- <-;
         try reflexivity;
         destruct Hc as [Hc | [Hc Hrest]];
         first [lia | discriminate Hrest] ]).
Qed.

Lemma digit_of_nonneg (c : JS.code_unit) (d : Z) :
  StudentInfoForm.digit_of c = Some d -> (0 <= d)%Z.
Proof.
  unfold StudentInfoForm.digit_of.
  destruct ((48 <=? c) && (c <=? 57))%N eqn:E1.
  - apply andb_true_iff in E1. destruct E1 as [H1 _].
    apply N.leb_le in H1. intros H; injection H as <-. lia.
  - destruct ((97 <=? c) && (c <=? 122))%N eqn:E2.
    + apply andb_true_iff in E2. destruct E2 as [H1 _].
      apply N.leb_le in H1. intros H; injection H as <-. lia.
    + destruct ((65 <=? c) && (c <=? 90))%N eqn:E3; [| discriminate].
      apply andb_true_iff in E3. destruct E3 as [H1 _].
      apply N.leb_le in H1. intros H; injection H as <-. lia.
Qed.

(** Reading more decimal digits never lowers a non-negative value. *)
Lemma read_digits_grows (s : JS.jsstring) :
  forall a, (0 <= a)%Z ->
    exists v, StudentInfoForm.read_digits 10 s (Some a) = Some v
              /\ (a <= v)%Z.
Proof.
  induction s as [|c r IH]; intros a Ha; cbn [StudentInfoForm.read_digits].
  - exists a. split; [reflexivity | lia].
  - destruct (StudentInfoForm.digit_of c) as [d|] eqn:Ed.
    + pose proof (digit_of_nonneg _ _ Ed) as Hd.
      destruct (d <? 10)%Z.
      * destruct (IH (a * 10 + d)%Z ltac:(lia)) as [v [Hv Hle]].
        exists v. split; [exact Hv | lia].
      * exists a. split; [reflexivity | lia].
    + exists a. split; [reflexivity | lia].
Qed.

(** A key that starts with one of the digits 1 to 5 parses to a number
    that is at least that digit. *)
Lemma parseInt_leading_digit (c : JS.code_unit) (rest : JS.jsstring) :
  (49 <= c <= 53)%N ->
  exists v, StudentInfoForm.parseInt (c :: rest) = Some v
            /\ (Z.of_N c - 48 <= v)%Z.
Proof.
  intros Hc.
  assert (Hcases : (c = 49 \/ c = 50 \/ c = 51 \/ c = 52 \/ c = 53)%N)
    by lia.
  repeat (destruct Hcases as [Hcases | Hcases]; [subst c |]);
    [.. | subst c];
    unfold StudentInfoForm.parseInt; cbn -[Z.mul];
    match goal with
    | |- context [StudentInfoForm.read_digits 10 rest (Some ?a)] =>
        destruct (read_digits_grows rest a ltac:(lia)) as [v [Hv Hle]];
        rewrite Hv; exists (1 * v)%Z; split; [reflexivity | lia]
    end.
Qed.

Lemma parseInt_single_digit (c : JS.code_unit) :
  (49 <= c <= 53)%N ->
  StudentInfoForm.parseInt [c] = Some (Z.of_N c - 48)%Z.
Proof.
  intros Hc.
  assert (Hcases : (c = 49 \/ c = 50 \/ c = 51 \/ c = 52 \/ c = 53)%N)
    by lia.
  repeat (destruct Hcases as [Hcases | Hcases]; [subst c |]);
    [.. | subst c]; reflexivity.
Qed.

(** X14: what the global key handler does with an event.  It copies only
    with none of Ctrl, Cmd and Alt held, does not prevent the default
    then, and hands over an index that is a number, never negative, and
    between 0 and 4 when the key is a single character.  It prevents the
    default exactly when it generates, refreshes or resets.  Escape always
    resets, whatever modifiers are held; Ctrl or Cmd with Enter always
    generates; a refresh needs the key "r" without Shift. *)
Theorem shortcut_dispatch :
  forall e : KeyboardShortcuts.KeyboardEvent,
    let h := KeyboardShortcuts.handleKeyDown e in
    (forall index,
        KeyboardShortcuts.called h
        = Some (KeyboardShortcuts.onCopyOpinion index) ->
        KeyboardShortcuts.ctrlKey e = false
        /\ KeyboardShortcuts.metaKey e = false
        /\ KeyboardShortcuts.altKey e = false
        /\ KeyboardShortcuts.defaultPrevented h = false
        /\ exists i, index = Some i /\ (0 <= i)%Z
                     /\ (forall c, KeyboardShortcuts.key e = [c] ->
                                   (i <= 4)%Z))
    /\ (KeyboardShortcuts.defaultPrevented h = true
        <-> KeyboardShortcuts.called h = Some KeyboardShortcuts.onGenerate
            \/ KeyboardShortcuts.called h = Some KeyboardShortcuts.onRefresh
            \/ KeyboardShortcuts.called h = Some KeyboardShortcuts.onReset)
    /\ (KeyboardShortcuts.key e = JS.lit "Escape" ->
        KeyboardShortcuts.called h = Some KeyboardShortcuts.onReset)
    /\ (KeyboardShortcuts.ctrlKey e || KeyboardShortcuts.metaKey e = true ->
        KeyboardShortcuts.key e = JS.lit "Enter" ->
        KeyboardShortcuts.called h = Some KeyboardShortcuts.onGenerate)
    /\ (KeyboardShortcuts.called h = Some KeyboardShortcuts.onRefresh ->
        KeyboardShortcuts.shiftKey e = false
        /\ KeyboardShortcuts.key e = JS.lit "r").
Proof.
  intros e h. subst h. unfold KeyboardShortcuts.handleKeyDown.
  destruct e as [k ctrl meta shift alt].
  cbn [KeyboardShortcuts.key KeyboardShortcuts.ctrlKey
       KeyboardShortcuts.metaKey KeyboardShortcuts.shiftKey
       KeyboardShortcuts.altKey].
  split; [| split; [| split; [| split]]].
  - intros index.
    destruct ((ctrl || meta) && JS.eqb k (JS.lit "Enter")); [discriminate |].
    destruct ((ctrl || meta) && JS.eqb k (JS.lit "r") && negb shift);
      [discriminate |].
    destruct (JS.eqb k (JS.lit "Escape")); [discriminate |].
    destruct (KeyboardShortcuts.string_ge k (JS.lit "1")
              && KeyboardShortcuts.string_le k (JS.lit "5")
              && negb ctrl && negb meta && negb alt) eqn:E;
      [| discriminate].
    cbn [KeyboardShortcuts.called KeyboardShortcuts.defaultPrevented].
    intros H; injection H as <-.
    apply andb_true_iff in E. destruct E as [E Halt].
    apply andb_true_iff in E. destruct E as [E Hmeta].
    apply andb_true_iff in E. destruct E as [E Hctrl].
    apply negb_true_iff in Halt, Hmeta, Hctrl.
    repeat split; try assumption.
    apply digit_range in E. destruct E as [c [rest [-> Hc]]].
    destruct (parseInt_leading_digit c rest ltac:(lia)) as [v [Hv Hle]].
    rewrite Hv. exists (v - 1)%Z. split; [reflexivity |].
    split; [lia |].
    intros c' Hkey. injection Hkey as Hc' Hrest. subst c' rest.
    rewrite (parseInt_single_digit c ltac:(lia)) in Hv.
    injection Hv as <-. lia.
  - destruct ((ctrl || meta) && JS.eqb k (JS.lit "Enter"));
      [split; [intros _; left; reflexivity | reflexivity] |].
    destruct ((ctrl || meta) && JS.eqb k (JS.lit "r") && negb shift);
      [split; [intros _; right; left; reflexivity | reflexivity] |].
    destruct (JS.eqb k (JS.lit "Escape"));
      [split; [intros _; right; right; reflexivity | reflexivity] |].
    destruct (_ && negb alt);
      cbn [KeyboardShortcuts.called KeyboardShortcuts.defaultPrevented];
      (split; [discriminate | intros [H | [H | H]]; discriminate H]).
  - intros ->.
    replace (JS.eqb (JS.lit "Escape") (JS.lit "Enter")) with false
      by reflexivity.
    replace (JS.eqb (JS.lit "Escape") (JS.lit "r")) with false
      by reflexivity.
    rewrite !andb_false_r. cbn [andb].
    replace (JS.eqb (JS.lit "Escape") (JS.lit "Escape")) with true
      by reflexivity.
    reflexivity.
  - intros Hmod ->. rewrite Hmod. reflexivity.
  - destruct ((ctrl || meta) && JS.eqb k (JS.lit "Enter")); [discriminate |].
    destruct ((ctrl || meta) && JS.eqb k (JS.lit "r") && negb shift) eqn:E.
    + intros _. apply andb_true_iff in E. destruct E as [E Hs].
      apply andb_true_iff in E. destruct E as [_ Hk].
      apply negb_true_iff in Hs. apply js_eqb_eq in Hk.
      split; assumption.
    + destruct (JS.eqb k (JS.lit "Escape")); [discriminate |].
      destruct (_ && negb alt); discriminate.
Qed.

Lemma shortcut_dispatch_witness :
  KeyboardShortcuts.called
    (KeyboardShortcuts.handleKeyDown
       {| KeyboardShortcuts.key := JS.lit "Escape";
          KeyboardShortcuts.ctrlKey := true;
          KeyboardShortcuts.metaKey := false;
          KeyboardShortcuts.shiftKey := true;
          KeyboardShortcuts.altKey := true |})
  = Some KeyboardShortcuts.onReset
  /\ KeyboardShortcuts.called
       (KeyboardShortcuts.handleKeyDown
          (KeyboardShortcuts.plain (JS.lit "4")))
     = Some (KeyboardShortcuts.onCopyOpinion (Some 3%Z))
  /\ KeyboardShortcuts.defaultPrevented
       (KeyboardShortcuts.handleKeyDown
          (KeyboardShortcuts.plain (JS.lit "4")))
     = false.
Proof.
  split; [| split].
  - apply (proj1 (proj2 (proj2 (shortcut_dispatch _)))). reflexivity.
  - reflexivity.
  - destruct (proj1 (shortcut_dispatch
                       (KeyboardShortcuts.plain (JS.lit "4")))
                (Some 3%Z) eq_refl)
      as [_ [_ [_ [Hprevented _]]]].
    exact Hprevented.
Defined.

(** X15: the two key listeners never act on the same event: when the
    form's listener focuses an input (Ctrl+1, Ctrl+2) the global handler
    calls nothing, and when the global handler calls something the form's
    listener focuses nothing.  The form's listener focuses at most one
    input and prevents the default exactly when it does. *)
Theorem listeners_do_not_overlap :
  forall e : KeyboardShortcuts.KeyboardEvent,
    let focused := fst (KeyboardShortcuts.form_handleKeyDown e) in
    let h := KeyboardShortcuts.handleKeyDown e in
    (focused <> [] -> KeyboardShortcuts.called h = None)
    /\ (KeyboardShortcuts.called h <> None -> focused = [])
    /\ (List.length focused <= 1)%nat
    /\ (snd (KeyboardShortcuts.form_handleKeyDown e) = true
        <-> focused <> []).
Proof.
  intros e focused h. subst focused h.
  unfold KeyboardShortcuts.form_handleKeyDown,
    KeyboardShortcuts.handleKeyDown.
  destruct e as [k ctrl meta shift alt].
  cbn [KeyboardShortcuts.key KeyboardShortcuts.ctrlKey
       KeyboardShortcuts.metaKey KeyboardShortcuts.shiftKey
       KeyboardShortcuts.altKey fst snd].
  destruct (JS.eqb k (JS.lit "1")) eqn:E1.
  - apply js_eqb_eq in E1. subst k.
    destruct ctrl, meta, shift, alt; vm_compute;
      repeat split; try congruence; try lia;
      try (intros H; exfalso; apply H; reflexivity).
  - destruct (JS.eqb k (JS.lit "2")) eqn:E2.
    + apply js_eqb_eq in E2. subst k.
      destruct ctrl, meta, shift, alt; vm_compute;
        repeat split; try congruence; try lia;
        try (intros H; exfalso; apply H; reflexivity).
    + rewrite !andb_false_r. cbn [app orb].
      repeat split; try congruence; try (simpl; lia).
Qed.

Lemma listeners_do_not_overlap_witness :
  KeyboardShortcuts.called
    (KeyboardShortcuts.handleKeyDown
       {| KeyboardShortcuts.key := JS.lit "1";
          KeyboardShortcuts.ctrlKey := true;
          KeyboardShortcuts.metaKey := false;
          KeyboardShortcuts.shiftKey := false;
          KeyboardShortcuts.altKey := false |})
  = None.
Proof.
  apply (proj1 (listeners_do_not_overlap _)). discriminate.
Defined.

(** ** Copying an opinion from the keyboard *)

Lemma copy_opinion_cases :
  forall (writeText : option (JS.jsstring -> Settled unit))
         (index : option Z) (st : App.State),
    let outcome := AppShortcuts.handleCopyOpinion writeText index st in
    let there :=
      exists text,
        AppShortcuts.opinion_at (App.opinions st) index = Some text
        /\ text <> [] in
    (~ there -> outcome = AppShortcuts.Returned st [] None)
    /\ (outcome = AppShortcuts.Threw <-> there /\ writeText = None)
    /\ (forall st' requests written,
           outcome = AppShortcuts.Returned st' requests written ->
           requests = []
           /\ App.opinions st' = App.opinions st
           /\ App.studentInfo st' = App.studentInfo st
           /\ (st' = st
               \/ (st' = App.setError
                           (Some AppShortcuts.copy_failed_message) st
                   /\ exists write text e,
                        writeText = Some write /\ written = Some text
                        /\ write text = Rejected e))).
Proof.
  intros writeText index st outcome there. subst outcome there.
  unfold AppShortcuts.handleCopyOpinion.
  destruct (AppShortcuts.opinion_at (App.opinions st) index) as [text|].
  - destruct text as [|c r]; cbn [JS.truthy].
    + split; [reflexivity |]. split.
      * split; [discriminate |].
        intros [[text [H Hne]] _]. injection H as <-. contradiction.
      * intros st' requests written H. injection H as <- <- <-.
        repeat split. left; reflexivity.
    + split.
      { intros Hno. exfalso. apply Hno. eexists. split; [reflexivity |].
        discriminate. }
      destruct writeText as [write|].
      * destruct (write (c :: r)) as [v | e] eqn:Ew.
        -- split; [split; [discriminate | intros [_ H]; discriminate H] |].
           intros st' requests written H. injection H as <- <- <-.
           repeat split. left; reflexivity.
        -- split; [split; [discriminate | intros [_ H]; discriminate H] |].
           intros st' requests written H. injection H as <- <- <-.
           repeat split. right. split; [reflexivity |].
           exists write, (c :: r), e. repeat split. exact Ew.
      * split.
        -- split; [| reflexivity]. intros _. split; [| reflexivity].
           eexists. split; [reflexivity | discriminate].
        -- intros st' requests written H. discriminate H.
  - split; [reflexivity |]. split.
    + split; [discriminate |]. intros [[text [H _]] _]. discriminate H.
    + intros st' requests written H. injection H as <- <- <-.
      repeat split. left; reflexivity.
Qed.

(** X16: [handleCopyOpinion] does nothing at all when there is no opinion
    at the index or the opinion there is empty, even without a Clipboard
    API.  It throws exactly when a non-empty opinion is there and the
    Clipboard API is missing.  When it returns it has issued no request
    and has left the opinions and the form alone.  With the Clipboard API
    present and a non-empty opinion at the index, it hands that opinion
    to the clipboard, and it sets the copy error when the write is
    rejected and leaves the state as it is when the write goes through;
    so the copy error is set exactly when the write was rejected. *)
Theorem copy_opinion_guarded :
  forall (writeText : option (JS.jsstring -> Settled unit))
         (index : option Z) (st : App.State),
    let outcome := AppShortcuts.handleCopyOpinion writeText index st in
    let there :=
      exists text,
        AppShortcuts.opinion_at (App.opinions st) index = Some text
        /\ text <> [] in
    (~ there -> outcome = AppShortcuts.Returned st [] None)
    /\ (outcome = AppShortcuts.Threw <-> there /\ writeText = None)
    /\ (forall st' requests written,
           outcome = AppShortcuts.Returned st' requests written ->
           requests = []
           /\ App.opinions st' = App.opinions st
           /\ App.studentInfo st' = App.studentInfo st
           /\ (st' = st
               \/ (st' = App.setError
                           (Some AppShortcuts.copy_failed_message) st
                   /\ exists write text e,
                        writeText = Some write /\ written = Some text
                        /\ write text = Rejected e)))
    /\ (forall write text,
           writeText = Some write ->
           AppShortcuts.opinion_at (App.opinions st) index = Some text ->
           text <> [] ->
           (forall e,
               write text = Rejected e ->
               outcome
               = AppShortcuts.Returned
                   (App.setError (Some AppShortcuts.copy_failed_message) st)
                   [] (Some text))
           /\ (forall v,
                  write text = Fulfilled v ->
                  outcome = AppShortcuts.Returned st [] (Some text))).
Proof.
  intros writeText index st outcome there.
  destruct (copy_opinion_cases writeText index st) as [Hnone [Hthrow Hret]].
  split; [exact Hnone | split; [exact Hthrow | split; [exact Hret |]]].
  intros write text -> Hat Hne. subst outcome.
  unfold AppShortcuts.handleCopyOpinion. rewrite Hat.
  destruct text as [|c r]; [contradiction |]. cbn [JS.truthy].
  split; intros x Hx; rewrite Hx; reflexivity.
Qed.

Lemma copy_opinion_guarded_witness :
  let st := App.setOpinions [JS.lit "첫째"; JS.lit "둘째"] App.initial in
  AppShortcuts.handleCopyOpinion None (Some 2%Z) st
  = AppShortcuts.Returned st [] None
  /\ AppShortcuts.handleCopyOpinion None (Some 1%Z) st = AppShortcuts.Threw
  /\ AppShortcuts.handleCopyOpinion
       (Some (fun _ => Rejected OtherThrown)) (Some 1%Z) st
     = AppShortcuts.Returned
         (App.setError (Some AppShortcuts.copy_failed_message) st) []
         (Some (JS.lit "둘째")).
Proof.
  intros st. split; [| split].
  - apply (proj1 (copy_opinion_guarded None (Some 2%Z) st)).
    intros [text [H _]]. discriminate H.
  - apply (proj1 (proj2 (copy_opinion_guarded None (Some 1%Z) st))).
    split; [| reflexivity].
    exists (JS.lit "둘째"). split; [reflexivity | discriminate].
  - destruct (copy_opinion_guarded
                (Some (fun _ => Rejected OtherThrown)) (Some 1%Z) st)
      as [_ [_ [_ Hwrite]]].
    destruct (Hwrite (fun _ => Rejected OtherThrown) (JS.lit "둘째")
                eq_refl eq_refl ltac:(discriminate))
      as [Hrej _].
    exact (Hrej OtherThrown eq_refl).
Defined.

Lemma digit_key_dispatch (d : Z) :
  (1 <= d <= 5)%Z ->
  KeyboardShortcuts.handleKeyDown
    (KeyboardShortcuts.plain (KeyboardShortcuts.digit_key d))
  = {| KeyboardShortcuts.called :=
         Some (KeyboardShortcuts.onCopyOpinion (Some (d - 1)%Z));
       KeyboardShortcuts.defaultPrevented := false |}.
Proof.
  intros Hd.
  assert (Hcases : (d = 1 \/ d = 2 \/ d = 3 \/ d = 4 \/ d = 5)%Z) by lia.
  repeat (destruct Hcases as [Hcases | Hcases]; [subst d |]);
    [.. | subst d]; reflexivity.
Qed.

(** X17: pressing the digit key [d] (1 to 5, no modifier) with the
    Clipboard API present writes exactly the [d]-th opinion shown to the
    clipboard, issues no request and leaves the state as it is when the
    write goes through; with fewer than [d] opinions shown it does
    nothing. *)
Theorem digit_key_copies_opinion :
  forall (net : Api.Network OpinionData)
         (write : JS.jsstring -> Settled unit)
         (d : Z) (st : App.State),
    (1 <= d <= 5)%Z ->
    let e := KeyboardShortcuts.plain (KeyboardShortcuts.digit_key d) in
    (forall text,
        nth_error (App.opinions st) (Z.to_nat (d - 1)) = Some text ->
        text <> [] ->
        write text = Fulfilled tt ->
        AppShortcuts.on_keydown net (Some write) e st
        = AppShortcuts.Returned st [] (Some text))
    /\ ((Z.of_nat (List.length (App.opinions st)) < d)%Z ->
        AppShortcuts.on_keydown net (Some write) e st
        = AppShortcuts.Returned st [] None).
Proof.
  intros net write d st Hd e. subst e.
  unfold AppShortcuts.on_keydown. rewrite (digit_key_dispatch d Hd).
  cbn [KeyboardShortcuts.called].
  unfold AppShortcuts.handleCopyOpinion, AppShortcuts.opinion_at.
  assert (Hneg : (d - 1 <? 0)%Z = false) by (apply Z.ltb_ge; lia).
  rewrite Hneg. split.
  - intros text Hnth Hne Hw. rewrite Hnth.
    destruct text as [|c r]; [contradiction |]. cbn [JS.truthy].
    rewrite Hw. reflexivity.
  - intros Hshort.
    assert (Hnone : nth_error (App.opinions st) (Z.to_nat (d - 1)) = None)
      by (apply nth_error_None; lia).
    rewrite Hnone. reflexivity.
Qed.

Lemma digit_key_copies_opinion_witness :
  AppShortcuts.on_keydown Api.Silent (Some (fun _ => Fulfilled tt))
    (KeyboardShortcuts.plain (JS.lit "2"))
    (App.setOpinions [JS.lit "첫째"; JS.lit "둘째"] App.initial)
  = AppShortcuts.Returned
      (App.setOpinions [JS.lit "첫째"; JS.lit "둘째"] App.initial) []
      (Some (JS.lit "둘째"))
  /\ AppShortcuts.on_keydown Api.Silent (Some (fun _ => Fulfilled tt))
       (KeyboardShortcuts.plain (JS.lit "3"))
       (App.setOpinions [JS.lit "첫째"; JS.lit "둘째"] App.initial)
     = AppShortcuts.Returned
         (App.setOpinions [JS.lit "첫째"; JS.lit "둘째"] App.initial) [] None.
Proof.
  split.
  - apply (proj1 (digit_key_copies_opinion Api.Silent
                    (fun _ => Fulfilled tt) 2
                    (App.setOpinions [JS.lit "첫째"; JS.lit "둘째"]
                       App.initial)
                    ltac:(lia))).
    + reflexivity.
    + discriminate.
    + reflexivity.
  - apply (proj2 (digit_key_copies_opinion Api.Silent
                    (fun _ => Fulfilled tt) 3
                    (App.setOpinions [JS.lit "첫째"; JS.lit "둘째"]
                       App.initial)
                    ltac:(lia))).
    simpl. lia.
Defined.

(** ** The copy buttons of the results *)

Lemma clear_pending_fields (st : OpinionResults.State) :
  OpinionResults.copiedIndex (OpinionResults.clear_pending st)
  = OpinionResults.copiedIndex st
  /\ OpinionResults.timeoutRef (OpinionResults.clear_pending st)
     = OpinionResults.timeoutRef st
  /\ OpinionResults.next_timer (OpinionResults.clear_pending st)
     = OpinionResults.next_timer st.
Proof.
  unfold OpinionResults.clear_pending.
  destruct (OpinionResults.timeoutRef st) eqn:E; simpl; rewrite ?E; auto.
Qed.

(** X18: [handleCopy] never rejects; it leaves the document as
    [copyToClipboard] leaves it; it moves the "copied" badge to the
    clicked opinion when the copy succeeded and leaves the badge where it
    was when the copy failed; so the badge changes only when a copy
    mechanism reported success. *)
Theorem handleCopy_badge :
  forall (browser : Clipboard.Browser) (text : JS.jsstring) (index : nat)
         (st : OpinionResults.State) (w : Clipboard.World),
    let run := OpinionResults.handleCopy browser text index st w in
    let st' := snd (fst run) in
    let copied := Clipboard.copyToClipboard browser text w in
    fst (fst run) = Fulfilled tt
    /\ snd run = snd copied
    /\ (fst copied = Fulfilled true ->
        OpinionResults.copiedIndex st' = Some index
        /\ OpinionResults.badge_shown index st' = true)
    /\ (fst copied = Fulfilled false ->
        OpinionResults.copiedIndex st' = OpinionResults.copiedIndex st)
    /\ (OpinionResults.copiedIndex st' <> OpinionResults.copiedIndex st ->
        Clipboard.reports_success browser text).
Proof.
  intros browser text index st w run st' copied. subst run st' copied.
  unfold OpinionResults.handleCopy.
  destruct (copyToClipboard_total browser text w) as [b Hb].
  pose proof (copyToClipboard_true browser text w) as Htrue.
  destruct (Clipboard.copyToClipboard browser text w) as [p w'].
  cbn [fst snd] in *. subst p.
  destruct (clear_pending_fields st) as [Hci _].
  split; [reflexivity | split; [reflexivity |]].
  destruct b; cbn [OpinionResults.handleCopy_settle].
  - split; [| split].
    + intros _. split; [reflexivity |].
      unfold OpinionResults.badge_shown. simpl. apply Nat.eqb_refl.
    + discriminate.
    + intros _. apply Htrue. reflexivity.
  - split; [discriminate | split].
    + intros _. exact Hci.
    + intros Hchanged. contradiction.
Qed.

Lemma handleCopy_badge_witness :
  let run :=
    OpinionResults.handleCopy Clipboard.legacy_browser (JS.lit "의견") 2
      OpinionResults.initial Clipboard.empty_document in
  OpinionResults.copiedIndex (snd (fst run)) = Some 2%nat
  /\ OpinionResults.badge_shown 2 (snd (fst run)) = true.
Proof.
  intros run.
  destruct (handleCopy_badge Clipboard.legacy_browser (JS.lit "의견") 2
              OpinionResults.initial Clipboard.empty_document)
    as [_ [_ [Hok _]]].
  exact (Hok eq_refl).
Defined.

Lemma clear_pending_no_timer (st : OpinionResults.State) :
  OpinionResults.one_timer st -> OpinionResults.timers (OpinionResults.clear_pending st) = [].
Proof.
  unfold OpinionResults.clear_pending.
  intros [Hnone | [t [Hone [Href _]]]].
  - destruct (OpinionResults.timeoutRef st); simpl; rewrite ?Hnone;
      reflexivity.
  - rewrite Href. cbn [OpinionResults.clearTimeout OpinionResults.timers].
    rewrite Hone. cbn [filter]. rewrite Nat.eqb_refl. reflexivity.
Qed.

Lemma reachable_one_timer (st : OpinionResults.State) :
  OpinionResults.reachable st -> OpinionResults.one_timer st.
Proof.
  induction 1 as [| browser text index w st Hr IH | t st Hr IH Hin].
  - left. reflexivity.
  - unfold OpinionResults.handleCopy.
    pose proof (clear_pending_no_timer st IH) as Hclear.
    destruct (Clipboard.copyToClipboard browser text w) as [[[|] | e] w'];
      cbn [fst snd OpinionResults.handleCopy_settle].
    + right. exists (OpinionResults.next_timer (OpinionResults.clear_pending st)).
      simpl. rewrite Hclear. repeat split. discriminate.
    + left. exact Hclear.
    + left. exact Hclear.
  - left. unfold OpinionResults.timer_fires.
    destruct IH as [Hnone | [t' [Hone _]]].
    + rewrite Hnone in Hin. contradiction.
    + rewrite Hone in Hin |- *. destruct Hin as [<- | []].
      cbn [existsb]. rewrite Nat.eqb_refl. cbn [orb OpinionResults.timers].
      cbn [filter]. rewrite Nat.eqb_refl. reflexivity.
Qed.

(** X19: when each [handleCopy] runs to its end before the next starts,
    at most one timer is armed at any time; it is the one [timeoutRef]
    holds and the badge is shown while it is armed, so the unmount
    clean-up leaves no timer armed.  A failed copy cancels the armed timer
    and keeps the badge where it was. *)
Theorem one_timer_at_most :
  forall st : OpinionResults.State,
    OpinionResults.reachable st ->
    (List.length (OpinionResults.timers st) <= 1)%nat
    /\ (forall t,
           In t (OpinionResults.timers st) ->
           OpinionResults.timeoutRef st = Some t
           /\ OpinionResults.copiedIndex st <> None)
    /\ OpinionResults.timers (OpinionResults.clear_pending st) = []
    /\ (forall browser text index w,
           fst (Clipboard.copyToClipboard browser text w) = Fulfilled false ->
           let st' :=
             snd (fst (OpinionResults.handleCopy browser text index st w)) in
           OpinionResults.timers st' = []
           /\ OpinionResults.copiedIndex st' = OpinionResults.copiedIndex st).
Proof.
  intros st Hr. pose proof (reachable_one_timer st Hr) as Hinv.
  pose proof (clear_pending_no_timer st Hinv) as Hclear.
  split; [| split; [| split; [exact Hclear |]]].
  - destruct Hinv as [-> | [t [-> _]]]; simpl; lia.
  - intros t Hin. destruct Hinv as [Hnone | [t' [Hone [Href Hci]]]].
    + rewrite Hnone in Hin. contradiction.
    + rewrite Hone in Hin. destruct Hin as [<- | []]. split; assumption.
  - intros browser text index w Hfail st'. subst st'.
    unfold OpinionResults.handleCopy.
    destruct (Clipboard.copyToClipboard browser text w) as [p w'].
    cbn [fst] in Hfail. subst p.
    cbn [fst snd OpinionResults.handleCopy_settle].
    split; [exact Hclear | apply clear_pending_fields].
Qed.

Lemma one_timer_at_most_witness :
  let shown :=
    snd (fst (OpinionResults.handleCopy Clipboard.legacy_browser
                (JS.lit "의견") 0 OpinionResults.initial
                Clipboard.empty_document)) in
  let failing :=
    {| Clipboard.writeText := None;
       Clipboard.raises := fun _ => None;
       Clipboard.execCommand_copy := inr false |} in
  let st' :=
    snd (fst (OpinionResults.handleCopy failing (JS.lit "다른 의견") 1
                shown Clipboard.empty_document)) in
  OpinionResults.timers shown = [1%nat]
  /\ OpinionResults.timers st' = []
  /\ OpinionResults.copiedIndex st' = Some 0%nat.
Proof.
  intros shown failing st'.
  assert (Hr : OpinionResults.reachable shown)
    by (apply OpinionResults.reachable_copy;
        apply OpinionResults.reachable_initial).
  destruct (one_timer_at_most shown Hr) as [_ [_ [_ Hfail]]].
  split; [reflexivity |].
  exact (Hfail failing (JS.lit "다른 의견") 1%nat Clipboard.empty_document
           eq_refl).
Defined.

(** ** The document and the console during a copy *)

Ltac case_clipboard :=
  first
    [ rewrite existsb_fresh
    | rewrite filter_fresh
    | match goal with
      | |- context [match Clipboard.writeText ?b with _ => _ end] =>
          let E := fresh "Hwrite" in
          destruct (Clipboard.writeText b) eqn:E
      | |- context [match ?write ?text with
                    | Fulfilled _ => _ | Rejected _ => _ end] =>
          let E := fresh "Hsettle" in
          destruct (write text) eqn:E
      | |- context [match Clipboard.raises ?b ?c with _ => _ end] =>
          let E := fresh "Hcall" in
          destruct (Clipboard.raises b c) eqn:E
      | |- context [match Clipboard.execCommand_copy ?b with _ => _ end] =>
          let E := fresh "Hexec" in
          destruct (Clipboard.execCommand_copy b) eqn:E
      end ];
  cbv beta iota zeta; cbn [Clipboard.body Clipboard.console fst snd].

(** X20: [copyToClipboard] never removes or reorders the children of
    [document.body]: afterwards they are the children from before,
    followed by at most the temporary textarea.  With the Clipboard API
    present the document is not touched at all.  The textarea stays
    behind exactly when it was appended and [focus()] or [select()] then
    raised. *)
Theorem document_children_kept :
  forall (browser : Clipboard.Browser) (text : JS.jsstring)
         (w : Clipboard.World),
    let w' := snd (Clipboard.copyToClipboard browser text w) in
    let textArea := S (list_max (Clipboard.body w)) in
    (Clipboard.body w' = Clipboard.body w
     \/ Clipboard.body w' = Clipboard.body w ++ [textArea])
    /\ (Clipboard.writeText browser <> None ->
        Clipboard.body w' = Clipboard.body w)
    /\ (Clipboard.body w' = Clipboard.body w ++ [textArea]
        <-> Clipboard.writeText browser = None
            /\ (forall c,
                   In c [Clipboard.ReadNavigatorClipboard;
                         Clipboard.CreateElement; Clipboard.SetValue;
                         Clipboard.SetStylePosition; Clipboard.SetStyleLeft;
                         Clipboard.SetStyleTop; Clipboard.AppendChild] ->
                   Clipboard.raises browser c = None)
            /\ (Clipboard.raises browser Clipboard.Focus <> None
                \/ Clipboard.raises browser Clipboard.Select <> None)).
Proof.
  intros browser text w w' textArea. subst w' textArea.
  assert (Hgrow : forall l : list nat, l <> l ++ [S (list_max l)]).
  { intros l H. apply (f_equal (@List.length nat)) in H.
    rewrite length_app in H. simpl in H. lia. }
  run_clipboard. repeat case_clipboard;
    (split; [first [left; reflexivity | right; reflexivity] |]);
    (split;
     [intros Hsome; first [reflexivity | exfalso; apply Hsome; reflexivity]
     |]);
    split.
  all: try (intros Hbody; exfalso; exact (Hgrow _ Hbody)).
  all: try (intros _; split; [reflexivity |]; split;
            [ intros c Hc; simpl in Hc;
              repeat (destruct Hc as [Hc | Hc]; [subst c; assumption |]);
              contradiction
            | first [left; congruence | right; congruence] ]).
  all: intros [Hnone [Hcalls Hraise]];
    first
      [ reflexivity
      | discriminate Hnone
      | exfalso;
        match goal with
        | H : Clipboard.raises _ ?c = Some _ |- _ =>
            rewrite (Hcalls c) in H by (simpl; tauto); discriminate H
        end
      | exfalso; destruct Hraise as [Hraise | Hraise]; apply Hraise;
        first [reflexivity | assumption] ].
Qed.

Lemma document_children_kept_witness :
  let leaking :=
    {| Clipboard.writeText := None;
       Clipboard.raises :=
         fun c =>
           match c with
           | Clipboard.Select => Some OtherThrown
           | _ => None
           end;
       Clipboard.execCommand_copy := inr true |} in
  let modern :=
    {| Clipboard.writeText := Some (fun _ => Rejected OtherThrown);
       Clipboard.raises := fun _ => None;
       Clipboard.execCommand_copy := inr true |} in
  let w := {| Clipboard.body := [3; 7]%nat; Clipboard.console := [] |} in
  Clipboard.body (snd (Clipboard.copyToClipboard leaking (JS.lit "의견") w))
  = [3; 7; 8]%nat
  /\ Clipboard.body (snd (Clipboard.copyToClipboard modern (JS.lit "의견") w))
     = [3; 7]%nat.
Proof.
  intros leaking modern w. split.
  - apply (proj2 (proj2 (proj2 (document_children_kept
                                  leaking (JS.lit "의견") w)))).
    split; [reflexivity | split].
    + intros c Hc. simpl in Hc.
      repeat (destruct Hc as [<- | Hc]; [reflexivity |]). contradiction.
    + right. discriminate.
  - apply (proj1 (proj2 (document_children_kept modern (JS.lit "의견") w))).
    discriminate.
Defined.

(** X21: a run of [copyToClipboard] writes at most one entry to the
    console, after what was there.  It writes none when it returns
    [true], and none at all once [execCommand] is reached, even if
    [execCommand] throws; a rejected [writeText] is logged with its
    reason. *)
Theorem console_entries :
  forall (browser : Clipboard.Browser) (text : JS.jsstring)
         (w : Clipboard.World),
    let run := Clipboard.copyToClipboard browser text w in
    (Clipboard.console (snd run) = Clipboard.console w
     \/ exists e, Clipboard.console (snd run) = Clipboard.console w ++ [e])
    /\ (fst run = Fulfilled true ->
        Clipboard.console (snd run) = Clipboard.console w)
    /\ (Clipboard.reaches_execCommand browser -> snd run = w)
    /\ (forall write e,
           Clipboard.writeText browser = Some write ->
           Clipboard.raises browser Clipboard.ReadNavigatorClipboard = None ->
           write text = Rejected e ->
           Clipboard.console (snd run) = Clipboard.console w ++ [e]).
Proof.
  intros browser text w run. subst run.
  split; [| split; [| split]].
  - run_clipboard. repeat case_clipboard;
      first [left; reflexivity | right; eexists; reflexivity].
  - run_clipboard. repeat case_clipboard; intros H;
      first [reflexivity | discriminate H].
  - intros Hpath. rewrite (copyToClipboard_fallback browser text w Hpath).
    reflexivity.
  - intros write e Hwrite Hnav Hrej. run_clipboard.
    rewrite Hnav, Hwrite. cbv beta iota zeta. rewrite Hrej. reflexivity.
Qed.

Lemma console_entries_witness :
  let modern :=
    {| Clipboard.writeText :=
         Some (fun _ => Rejected (ErrorObject (JS.lit "NotAllowedError")));
       Clipboard.raises := fun _ => None;
       Clipboard.execCommand_copy := inr true |} in
  Clipboard.console
    (snd (Clipboard.copyToClipboard modern (JS.lit "의견")
            Clipboard.empty_document))
  = [ErrorObject (JS.lit "NotAllowedError")].
Proof.
  intros modern.
  exact (proj2 (proj2 (proj2 (console_entries modern (JS.lit "의견")
                                Clipboard.empty_document)))
           _ _ eq_refl eq_refl eq_refl).
Defined.

(** ** The shown texts *)

(** X22: in every reachable form state, entering the name the name field
    shows, or the text the characteristics field shows, leaves the state
    as it is: the truncation of a stored text is the text itself. *)
Theorem shown_text_is_stable :
  forall info,
    App.reachable info ->
    StudentInfoForm.name_onChange (name info) info = info
    /\ StudentInfoForm.characteristics_onChange (characteristics info) info
       = info.
Proof.
  intros info Hr. destruct (reachable_caps info Hr) as [Hn Hc].
  unfold StudentInfoForm.name_onChange,
    StudentInfoForm.characteristics_onChange.
  rewrite (slice_prefix (name info) 5) by lia.
  rewrite (slice_prefix (characteristics info) 40) by lia.
  unfold JS.length in Hn, Hc.
  rewrite (firstn_all2 (n := Z.to_nat 5) (name info)) by lia.
  rewrite (firstn_all2 (n := Z.to_nat 40) (characteristics info)) by lia.
  destruct info; split; reflexivity.
Qed.

Lemma shown_text_is_stable_witness :
  let info :=
    App.apply_edit (App.NameInput (JS.lit "김철수와영희와민수"))
      App.initialStudentInfo in
  name info = JS.lit "김철수와영"
  /\ StudentInfoForm.name_onChange (name info) info = info.
Proof.
  intros info.
  assert (Hr : App.reachable info) by (repeat constructor).
  split; [reflexivity |].
  exact (proj1 (shown_text_is_stable info Hr)).
Defined.
